(** * PDFtoTXT: a shallow embedding of [pdf_page_text.py] and [pdf_to_image.py]

    The two command-line tools are translated function by function.  Python
    code that raises, logs and opens or closes handles becomes a computation
    in a small state-and-exception monad over a [world]; the third-party
    libraries (pypdf, pdfminer.six, PyMuPDF, Pillow, pytesseract,
    unicodedata) and the files on disk are a [runtime] record of oracles. *)

From Stdlib Require Import ZArith NArith List String Ascii Bool Floats DecimalString Lia.
Import ListNotations.

#[local] Open Scope string_scope.
#[local] Open Scope Z_scope.

(** ** Python values *)

Module Py.

(** Page text is a Python [str]: a sequence of Unicode code points. *)
Definition codepoint := N.
Definition pystr := list codepoint.

(** The code points [str.strip()] removes when called without an argument
    (CPython's [_PyUnicode_IsWhitespace]). *)
Definition isspace (c : codepoint) : bool :=
  ((0x09 <=? c) && (c <=? 0x0D) ||
   (0x1C <=? c) && (c <=? 0x20) ||
   (c =? 0x85) || (c =? 0xA0) || (c =? 0x1680) ||
   (0x2000 <=? c) && (c <=? 0x200A) ||
   (c =? 0x2028) || (c =? 0x2029) || (c =? 0x202F) || (c =? 0x205F) ||
   (c =? 0x3000))%N.

Fixpoint lstrip (s : pystr) : pystr :=
  match s with
  | [] => []
  | c :: s' => if isspace c then lstrip s' else s
  end.

Definition rstrip (s : pystr) : pystr := rev (lstrip (rev s)).

Definition strip (s : pystr) : pystr := rstrip (lstrip s).

(** Truth value of a [str]: false exactly for the empty string. *)
Definition truthy (s : pystr) : bool :=
  match s with
  | [] => false
  | _ :: _ => true
  end.

(** [str(n)] for an [int], as an f-string prints it. *)
Definition str_of_int (n : Z) : string := NilZero.string_of_int (Z.to_int n).

(** [s.lower()], on the ASCII letters; these are the only characters whose
    lower case is an ASCII letter other than [k] and [i], so the comparisons
    against ['.pdf'], ['png'], ['jpg'] and ['jpeg'] below are exact. *)
Definition lower_ascii (a : ascii) : ascii :=
  let n := N_of_ascii a in
  if ((65 <=? n) && (n <=? 90))%N then ascii_of_N (n + 32) else a.

Fixpoint lower (s : string) : string :=
  match s with
  | EmptyString => EmptyString
  | String a s' => String (lower_ascii a) (lower s')
  end.

(** [", ".join(l)] *)
Fixpoint join (sep : string) (l : list string) : string :=
  match l with
  | [] => ""
  | [x] => x
  | x :: l' => x ++ sep ++ join sep l'
  end.

(** [range(a, b)] *)
Definition range (a b : Z) : list Z :=
  map (fun i => a + Z.of_nat i) (seq 0 (Z.to_nat (b - a))).

(** [int / float]: the integer is first converted to the nearest binary64
    value, and the conversion raises [OverflowError] when that value is not
    finite. *)
Definition float_of_int (n : Z) : option float :=
  let f := SF2Prim (binary_normalize prec emax n 0 false) in
  if PrimFloat.is_infinity f then None else Some f.

(** Exceptions.  The classes the handlers of the two tools tell apart, each
    with its message ([str(e)]); [Exception] stands for every other subclass
    of [Exception] a library raises.  [KeyboardInterrupt] and [SystemExit]
    are not among them: no [except Exception] clause catches these, they
    appear where the commands end ([termination]). *)
Inductive exn : Type :=
| ValueError (msg : string)
| ImportError (msg : string)
| FileNotFoundError (msg : string)
| PermissionError (msg : string)
| Exception (msg : string).

Definition str_of_exn (e : exn) : string :=
  match e with
  | ValueError m | ImportError m | FileNotFoundError m
  | PermissionError m | Exception m => m
  end.

Definition is_ValueError (e : exn) : bool :=
  match e with ValueError _ => true | _ => false end.

Definition is_ImportError (e : exn) : bool :=
  match e with ImportError _ => true | _ => false end.

(** The result of running a piece of Python: a value or a raised exception. *)
Inductive outcome (A : Type) : Type :=
| Return (a : A)
| Raise (e : exn).

Arguments Return {A} a.
Arguments Raise {A} e.

(** [pathlib.Path]: the three views of a path the tools use. *)
Record Path : Type := {
  path_str : string;   (* str(p) *)
  stem : string;       (* p.stem *)
  suffix : string      (* p.suffix *)
}.

(** [str(d / name)] for a file name without a separator. *)
Definition joinpath (d : Path) (name : string) : string :=
  if (path_str d =? "/")%string then "/" ++ name
  else if (path_str d =? ".")%string then name
  else path_str d ++ "/" ++ name.

End Py.

Import Py.

(** ** The world outside the program *)

Definition handle := N.

(** [fitz.Matrix(a, d)]: a scaling by [a] along x and [d] along y. *)
Record Matrix : Type := { zoom_x : float; zoom_y : float }.

(** [fitz.Pixmap]: what the tools read of it. *)
Record Pixmap : Type := { width : Z; height : Z; samples : list N }.

(** The content of a [PIL.Image]. *)
Record image : Type := { mode : string; size : Z * Z; pixels : list N }.

(** A [PIL.Image] object: its content and the identity [close()] acts on. *)
Record Image : Type := { im_id : handle; im : image }.

(** Files the tools write. *)
Inductive file : Type :=
| PngFile (pix : Pixmap)
| JpegFile (img : image) (quality : Z)
| PdfFile (pages : list image) (resolution : float).

Inductive level : Type := INFO | WARNING | ERROR.

(** What a run does to the outside, in the order it does it: log records,
    calls into the libraries, and files written. *)
Inductive event : Type :=
| Log (lv : level) (msg : string)
| Call_PdfReader (path : string)
| Call_extract_text (page_index : Z)
| Call_pdfminer_extract_text (path : string) (page_numbers : list Z)
| Call_fitz_open (path : string)
| Call_get_pixmap (doc : handle) (page_index : Z) (mat : Matrix)
| Call_Image_frombytes (md : string) (sz : Z * Z)
| Call_image_to_string (lang : string)
| Call_Image_open (path : string)
| Call_convert (img : handle) (md : string)
| Call_close (h : handle)
| Call_mkdir (path : string)
| Wrote (path : string) (f : file).

(** [trace] is newest first.  [live] holds the documents and images opened
    from a file ([fitz.open], [Image.open]) on which [close()] has not been
    called. *)
Record world : Type := {
  trace : list event;
  live : list handle;
  next_handle : handle
}.

Definition initial_world : world :=
  {| trace := []; live := []; next_handle := 0%N |}.

(** A page as pypdf and as PyMuPDF show it. *)
Record pypdf_page : Type := { extract_text : outcome pystr }.
Record fitz_page : Type := { get_pixmap : Matrix -> outcome Pixmap }.

(** The libraries and the disk, as one run observes them.  The three flags
    are the module-level constants the import blocks of [pdf_page_text.py]
    set; the functions answer the calls the tools make. *)
Record runtime : Type := {
  PDFMINER_AVAILABLE : bool;
  PYMUPDF_AVAILABLE : bool;
  PYTESSERACT_AVAILABLE : bool;
  normalize_NFC : pystr -> pystr;
  PdfReader : string -> outcome (list pypdf_page);
  pdfminer_extract_text : string -> list Z -> outcome pystr;
  fitz_open : string -> outcome (list fitz_page);
  Image_frombytes : string -> Z * Z -> list N -> outcome image;
  image_to_string : image -> string -> outcome pystr;
  Image_open : string -> outcome image;
  Image_convert : image -> string -> outcome image;
  write_error : string -> option exn;
  mkdir_error : string -> option exn;
  path_exists : string -> bool;
  path_is_file : string -> bool
}.

(** ** The monad: state passing with exceptions

    A raised exception keeps the world reached so far, as in Python. *)

Definition M (A : Type) : Type := world -> outcome A * world.

Definition ret {A} (a : A) : M A := fun w => (Return a, w).

Definition raise {A} (e : exn) : M A := fun w => (Raise e, w).

Definition bind {A B} (m : M A) (k : A -> M B) : M B :=
  fun w =>
    match m w with
    | (Return a, w') => k a w'
    | (Raise e, w') => (Raise e, w')
    end.

Declare Scope py_scope.
Delimit Scope py_scope with py.
Notation "x <- m ;; k" := (bind m (fun x => k))
  (at level 61, m at next level, right associativity) : py_scope.
Notation "m ;; k" := (bind m (fun _ => k))
  (at level 61, right associativity) : py_scope.
#[local] Open Scope py_scope.

(** [try: body  except Exception as e: handler(e)] *)
Definition try_except {A} (body : M A) (handler : exn -> M A) : M A :=
  fun w =>
    match body w with
    | (Return a, w') => (Return a, w')
    | (Raise e, w') => handler e w'
    end.

Definition lift {A} (o : outcome A) : M A := fun w => (o, w).

Definition emit (ev : event) : M unit :=
  fun w => (Return tt,
            {| trace := ev :: trace w; live := live w; next_handle := next_handle w |}).

Definition logging_info (msg : string) : M unit := emit (Log INFO msg).
Definition logging_warning (msg : string) : M unit := emit (Log WARNING msg).
Definition logging_error (msg : string) : M unit := emit (Log ERROR msg).

(** A fresh handle, entered in [live]. *)
Definition acquire : M handle :=
  fun w => (Return (next_handle w),
            {| trace := trace w;
               live := next_handle w :: live w;
               next_handle := N.succ (next_handle w) |}).

(** A fresh identity for an object that holds no file. *)
Definition fresh : M handle :=
  fun w => (Return (next_handle w),
            {| trace := trace w; live := live w;
               next_handle := N.succ (next_handle w) |}).

Definition release (h : handle) : M unit :=
  fun w => (Return tt,
            {| trace := trace w;
               live := filter (fun h' => negb (h' =? h)%N) (live w);
               next_handle := next_handle w |}).

(** [seq[i]] for an index the caller has checked. *)
Definition getitem {A} (l : list A) (i : Z) : M A :=
  match (if i <? 0 then None else nth_error l (Z.to_nat i)) with
  | Some a => ret a
  | None => raise (Exception "IndexError")
  end.

(** [for x in l: acc = body(acc, x)] *)
Fixpoint for_each {A S} (l : list A) (body : S -> A -> M S) (acc : S) : M S :=
  match l with
  | [] => ret acc
  | x :: l' => acc' <- body acc x ;; for_each l' body acc'
  end.

(** ** Calls into the libraries *)

(** A [fitz.Document] the program holds: its handle and its pages. *)
Record Document : Type := { doc_id : handle; doc_pages : list fitz_page }.

Definition newline : string := String (ascii_of_N 10) "".

Section Libraries.

Variable rt : runtime.

(** [PdfReader(path)] *)
Definition call_PdfReader (path : string) : M (list pypdf_page) :=
  emit (Call_PdfReader path) ;; lift (PdfReader rt path).

(** [page.extract_text()] *)
Definition page_extract_text (page_index : Z) (page : pypdf_page) : M pystr :=
  emit (Call_extract_text page_index) ;; lift (extract_text page).

(** [pdfminer_extract_text(path, page_numbers=..., laparams=...)] *)
Definition call_pdfminer_extract_text (path : string) (page_numbers : list Z) : M pystr :=
  emit (Call_pdfminer_extract_text path page_numbers) ;;
  lift (pdfminer_extract_text rt path page_numbers).

(** [fitz.open(path)] *)
Definition call_fitz_open (path : string) : M Document :=
  emit (Call_fitz_open path) ;;
  pages <- lift (fitz_open rt path) ;;
  h <- acquire ;;
  ret {| doc_id := h; doc_pages := pages |}.

(** [doc.close()] *)
Definition doc_close (doc : Document) : M unit :=
  emit (Call_close (doc_id doc)) ;; release (doc_id doc).

(** [page.get_pixmap(matrix=mat)] *)
Definition page_get_pixmap (doc : Document) (page_index : Z) (page : fitz_page)
    (mat : Matrix) : M Pixmap :=
  emit (Call_get_pixmap (doc_id doc) page_index mat) ;; lift (get_pixmap page mat).

(** [Image.frombytes(mode, size, data)] *)
Definition call_Image_frombytes (md : string) (sz : Z * Z) (data : list N) : M Image :=
  emit (Call_Image_frombytes md sz) ;;
  i <- lift (Image_frombytes rt md sz data) ;;
  h <- fresh ;;
  ret {| im_id := h; im := i |}.

(** [pytesseract.image_to_string(img, lang=lang)] *)
Definition call_image_to_string (img : Image) (lang : string) : M pystr :=
  emit (Call_image_to_string lang) ;; lift (image_to_string rt (im img) lang).

(** [Image.open(path)] *)
Definition call_Image_open (path : string) : M Image :=
  emit (Call_Image_open path) ;;
  i <- lift (Image_open rt path) ;;
  h <- acquire ;;
  ret {| im_id := h; im := i |}.

(** [img.convert(mode)]: a new image object; [img] itself is left as it is. *)
Definition Image_convert_to (img : Image) (md : string) : M Image :=
  emit (Call_convert (im_id img) md) ;;
  i <- lift (Image_convert rt (im img) md) ;;
  h <- fresh ;;
  ret {| im_id := h; im := i |}.

(** [img.close()] *)
Definition Image_close (img : Image) : M unit :=
  emit (Call_close (im_id img)) ;; release (im_id img).

(** Writing [f] at [path]: [pix.save] and [img.save]. *)
Definition write_file (path : string) (f : file) : M unit :=
  match write_error rt path with
  | Some e => raise e
  | None => emit (Wrote path f)
  end.

(** [d.mkdir(parents=True, exist_ok=True)] *)
Definition mkdir (d : Path) : M unit :=
  emit (Call_mkdir (path_str d)) ;;
  match mkdir_error rt (path_str d) with
  | Some e => raise e
  | None => ret tt
  end.

End Libraries.

(** ** [pdf_page_text.py] *)

Module pdf_page_text.

Section Program.

Variable rt : runtime.

(** [not text or not text.strip()] *)
Definition no_text (text : pystr) : bool :=
  negb (truthy text) || negb (truthy (strip text)).

Definition extract_page_text_pypdf (pdf_path : Path) (page_number : Z) : M pystr :=
  try_except
    (reader_pages <- call_PdfReader rt (path_str pdf_path) ;;
     let total_pages := Z.of_nat (List.length reader_pages) in
     logging_info ("PDF総ページ数: " ++ str_of_int total_pages) ;;
     let page_index := page_number - 1 in
     if (page_index <? 0) || (page_index >=? total_pages) then
       raise (ValueError ("ページ番号が範囲外です: " ++ str_of_int page_number ++ " "
                          ++ "(有効範囲: 1-" ++ str_of_int total_pages ++ ")"))
     else
       logging_info (path_str pdf_path ++ " の " ++ str_of_int page_number
                     ++ " ページ目を解析中...") ;;
       page <- getitem reader_pages page_index ;;
       text <- page_extract_text page_index page ;;
       if no_text text then
         logging_warning ("ページ " ++ str_of_int page_number
                          ++ " にテキストが見つかりませんでした") ;;
         ret []
       else
         let text := normalize_NFC rt text in
         ret text)
    (fun e =>
       if is_ValueError e then raise e
       else
         logging_error ("PDFの読み込みまたはテキスト抽出に失敗しました: " ++ str_of_exn e) ;;
         raise e).

Definition extract_page_text_pdfminer (pdf_path : Path) (page_number : Z) : M pystr :=
  if negb (PDFMINER_AVAILABLE rt) then
    raise (ImportError ("pdfminer.six がインストールされていません。" ++ newline
                        ++ "pip install pdfminer.six を実行してインストールしてください。"))
  else
    try_except
      (let page_index := page_number - 1 in
       if page_number <? 1 then
         raise (ValueError ("ページ番号は1以上である必要があります: "
                            ++ str_of_int page_number))
       else
         logging_info (path_str pdf_path ++ " の " ++ str_of_int page_number
                       ++ " ページ目を解析中...") ;;
         text <- call_pdfminer_extract_text rt (path_str pdf_path) [page_index] ;;
         if no_text text then
           logging_warning ("ページ " ++ str_of_int page_number
                            ++ " にテキストが見つかりませんでした") ;;
           ret []
         else
           let text := normalize_NFC rt text in
           ret text)
      (fun e =>
         if is_ValueError e || is_ImportError e then raise e
         else
           logging_error ("PDFの読み込みまたはテキスト抽出に失敗しました: " ++ str_of_exn e) ;;
           raise e).

Definition extract_page_text_ocr (pdf_path : Path) (page_number : Z) (lang : string)
    : M pystr :=
  if negb (PYMUPDF_AVAILABLE rt) then
    raise (ImportError ("PyMuPDF (fitz) がインストールされていません。" ++ newline
                        ++ "pip install PyMuPDF を実行してインストールしてください。"))
  else if negb (PYTESSERACT_AVAILABLE rt) then
    raise (ImportError ("pytesseract がインストールされていません。" ++ newline
                        ++ "pip install pytesseract を実行してインストールしてください。" ++ newline
                        ++ "また、Tesseractエンジンのインストールも必要です。詳細はREADMEを参照してください。"))
  else
    try_except
      (doc <- call_fitz_open rt (path_str pdf_path) ;;
       let total_pages := Z.of_nat (List.length (doc_pages doc)) in
       let page_index := page_number - 1 in
       if (page_index <? 0) || (page_index >=? total_pages) then
         doc_close doc ;;
         raise (ValueError ("ページ番号が範囲外です: " ++ str_of_int page_number ++ " "
                            ++ "(有効範囲: 1-" ++ str_of_int total_pages ++ ")"))
       else
         logging_info (path_str pdf_path ++ " の " ++ str_of_int page_number
                       ++ " ページ目をOCRで解析中...") ;;
         logging_info ("使用言語: " ++ lang) ;;
         page <- getitem (doc_pages doc) page_index ;;
         let zoom := (150 / 72)%float in
         let mat := {| zoom_x := zoom; zoom_y := zoom |} in
         pix <- page_get_pixmap doc page_index page mat ;;
         img <- call_Image_frombytes rt "RGB" (width pix, height pix) (samples pix) ;;
         text <- call_image_to_string rt img lang ;;
         doc_close doc ;;
         if no_text text then
           logging_warning ("ページ " ++ str_of_int page_number
                            ++ " からOCRでテキストを抽出できませんでした") ;;
           ret []
         else
           let text := normalize_NFC rt text in
           logging_info ("OCRで " ++ str_of_int (Z.of_nat (List.length text))
                         ++ " 文字のテキストを抽出しました") ;;
           ret text)
      (fun e =>
         if is_ValueError e || is_ImportError e then raise e
         else
           logging_error ("OCR処理に失敗しました: " ++ str_of_exn e) ;;
           raise e).

(** The default value of [lang]. *)
Definition default_lang : string := "jpn+eng".

Definition extract_page_text (pdf_path : Path) (page_number : Z) (engine : string)
    : M pystr :=
  if (engine =? "ocr")%string then
    extract_page_text_ocr pdf_path page_number default_lang
  else
    text <- (if (engine =? "pypdf")%string then
               extract_page_text_pypdf pdf_path page_number
             else if (engine =? "pdfminer")%string then
               extract_page_text_pdfminer pdf_path page_number
             else
               raise (ValueError ("無効な抽出エンジンです: " ++ engine ++ newline
                                  ++ "有効なエンジン: 'pypdf', 'pdfminer', 'ocr'"))) ;;
    if no_text text then
      if PYMUPDF_AVAILABLE rt && PYTESSERACT_AVAILABLE rt then
        logging_info "テキスト層が見つかりませんでした。OCRによる抽出を試みます..." ;;
        try_except
          (text <- extract_page_text_ocr pdf_path page_number default_lang ;;
           (if truthy text && truthy (strip text) then
              logging_info "OCRでテキストを抽出しました"
            else
              logging_warning "OCRでもテキストを抽出できませんでした") ;;
           ret text)
          (fun e =>
             logging_warning ("OCR処理に失敗しました: " ++ str_of_exn e) ;;
             ret [])
      else
        let missing_deps :=
          ((if negb (PYMUPDF_AVAILABLE rt) then ["PyMuPDF"] else [])
           ++ (if negb (PYTESSERACT_AVAILABLE rt) then ["pytesseract"] else []))%list in
        logging_warning
          ("テキスト層が見つかりませんでしたが、OCR機能が利用できません。" ++ newline
           ++ "OCR機能を使用するには、以下のライブラリをインストールしてください: "
           ++ join ", " missing_deps) ;;
        ret text
    else ret text.

End Program.

End pdf_page_text.

(** ** [pdf_to_image.py] *)

Module pdf_to_image.

(** The parsed command line ([argparse.Namespace]); the two paths are given
    as [Path(...).resolve()] returns them, [output_pdf] is [None] when the
    option is absent or empty. *)
Record arguments : Type := {
  args_pdf : Path;
  args_output_dir : Path;
  args_format : string;
  args_dpi : Z;
  args_pages : option (Z * Z);
  args_create_pdf : bool;
  args_output_pdf : option string
}.

Section Program.

Variable rt : runtime.

Definition validate_pdf_file (pdf_path : Path) : M unit :=
  if negb (path_exists rt (path_str pdf_path)) then
    raise (FileNotFoundError ("PDFファイルが見つかりません: " ++ path_str pdf_path))
  else if negb (path_is_file rt (path_str pdf_path)) then
    raise (ValueError ("指定されたパスはファイルではありません: " ++ path_str pdf_path))
  else if negb (lower (suffix pdf_path) =? ".pdf")%string then
    logging_warning ("ファイル拡張子が .pdf ではありません: " ++ path_str pdf_path)
  else ret tt.

(** [n / d] for an [int] [n] and a [float] [d]. *)
Definition int_truediv_float (n : Z) (d : float) : M float :=
  match float_of_int n with
  | None => raise (Exception "int too large to convert to float")
  | Some f =>
      if (d =? 0)%float then raise (Exception "float division by zero")
      else ret (f / d)%float
  end.

(** The body of the loop over [range(start_page, end_page)]; [image_paths]
    is the list the loop appends to. *)
Definition convert_page (pdf_path output_dir : Path) (image_format : string) (dpi : Z)
    (doc : Document) (image_paths : list string) (page_num : Z) : M (list string) :=
  page <- getitem (doc_pages doc) page_num ;;
  zoom <- int_truediv_float dpi 72 ;;
  let mat := {| zoom_x := zoom; zoom_y := zoom |} in
  pix <- page_get_pixmap doc page_num page mat ;;
  let base_name := stem pdf_path in
  let output_filename :=
    base_name ++ "-page" ++ str_of_int (page_num + 1) ++ "." ++ image_format in
  let output_path := joinpath output_dir output_filename in
  (if (lower image_format =? "png")%string then
     write_file rt output_path (PngFile pix)
   else if (lower image_format =? "jpg")%string || (lower image_format =? "jpeg")%string then
     img <- call_Image_frombytes rt "RGB" (width pix, height pix) (samples pix) ;;
     write_file rt output_path (JpegFile (im img) 95)
   else ret tt) ;;
  logging_info ("ページ " ++ str_of_int (page_num + 1) ++ " を保存: " ++ output_path) ;;
  ret (image_paths ++ [output_path])%list.

Definition convert_pdf_to_images (pdf_path output_dir : Path) (image_format : string)
    (dpi : Z) (page_range : option (Z * Z)) : M (list string) :=
  mkdir rt output_dir ;;
  try_except
    (doc <- call_fitz_open rt (path_str pdf_path) ;;
     let total_pages := Z.of_nat (List.length (doc_pages doc)) in
     logging_info ("PDF総ページ数: " ++ str_of_int total_pages) ;;
     let start_page :=
       match page_range with
       | Some (start_page, _) => Z.max 0 (start_page - 1)
       | None => 0
       end in
     let end_page :=
       match page_range with
       | Some (_, end_page) => Z.min total_pages end_page
       | None => total_pages
       end in
     logging_info ("変換範囲: ページ " ++ str_of_int (start_page + 1) ++ " から "
                   ++ str_of_int end_page) ;;
     image_paths <- for_each (range start_page end_page)
                      (convert_page pdf_path output_dir image_format dpi doc) [] ;;
     doc_close doc ;;
     logging_info ("合計 " ++ str_of_int (Z.of_nat (List.length image_paths))
                   ++ " ページを変換しました") ;;
     ret image_paths)
    (fun e =>
       logging_error ("PDF画像変換に失敗しました: " ++ str_of_exn e) ;;
       raise e).

(** [img.convert('RGB')] when [img.mode != 'RGB']. *)
Definition to_RGB (img : Image) : M Image :=
  if negb (mode (im img) =? "RGB")%string then Image_convert_to rt img "RGB"
  else ret img.

(** [first_image.save(path, "PDF", save_all=True, append_images=images,
    resolution=150.0)]: Pillow writes [first_image] as the first page and
    the images of [append_images] after it, in list order. *)
Definition save_pdf (first_image : Image) (path : string) (images : list Image) : M unit :=
  write_file rt path (PdfFile (im first_image :: map im images) 150).

Definition images_to_pdf (image_paths : list string) (output_pdf_path : string) : M unit :=
  try_except
    (match image_paths with
     | [] => raise (ValueError "画像ファイルのリストが空です")
     | first_path :: rest =>
         logging_info (str_of_int (Z.of_nat (List.length image_paths))
                       ++ " 枚の画像をPDFに変換中...") ;;
         first_image <- call_Image_open rt first_path ;;
         images <- for_each rest
                     (fun images img_path =>
                        img <- call_Image_open rt img_path ;;
                        img <- to_RGB img ;;
                        ret (images ++ [img])%list) [] ;;
         first_image <- to_RGB first_image ;;
         save_pdf first_image output_pdf_path images ;;
         Image_close first_image ;;
         for_each images (fun _ img => Image_close img) tt ;;
         logging_info ("画像PDFを作成しました: " ++ output_pdf_path)
     end)
    (fun e =>
       logging_error ("画像からPDF作成に失敗しました: " ++ str_of_exn e) ;;
       raise e).

(** [main] from the DPI check on, with the page range already validated. *)
Definition main_convert (args : arguments) (image_format : string)
    (page_range : option (Z * Z)) : M Z :=
  (if (args_dpi args <? 72) || (args_dpi args >? 600) then
     logging_warning ("DPI値が推奨範囲外です: " ++ str_of_int (args_dpi args)
                      ++ "（推奨: 72-600）")
   else ret tt) ;;
  image_paths <- convert_pdf_to_images (args_pdf args) (args_output_dir args)
                   image_format (args_dpi args) page_range ;;
  (if args_create_pdf args then
     let output_pdf_path :=
       match args_output_pdf args with
       | Some p => p
       | None => joinpath (args_output_dir args) (stem (args_pdf args) ++ "_images.pdf")
       end in
     images_to_pdf image_paths output_pdf_path
   else ret tt) ;;
  logging_info "正常終了" ;;
  ret 0.

(** The [try] statement of [main()] from the return of [parse_arguments()]
    on, in a run that no interrupt cuts short; it yields the exit status.
    [pdf_to_image_command.main] below is the whole of [main()]. *)
Definition main (args : arguments) : M Z :=
  try_except
    (logging_info "PDF画像変換を開始します..." ;;
     validate_pdf_file (args_pdf args) ;;
     let image_format :=
       if (args_format args =? "jpg")%string || (args_format args =? "jpeg")%string
       then "jpeg" else "png" in
     match args_pages args with
     | Some (start_page, end_page) =>
         if start_page <? 1 then
           logging_error "開始ページは1以上である必要があります" ;; ret 1
         else if end_page <? start_page then
           logging_error "終了ページは開始ページ以上である必要があります" ;; ret 1
         else main_convert args image_format (Some (start_page, end_page))
     | None => main_convert args image_format None
     end)
    (fun e =>
       match e with
       | FileNotFoundError _ | ValueError _ => logging_error (str_of_exn e) ;; ret 1
       | PermissionError _ =>
           logging_error ("ファイルへのアクセス権限がありません: " ++ str_of_exn e) ;; ret 1
       | _ => logging_error ("予期しないエラーが発生しました: " ++ str_of_exn e) ;; ret 1
       end).

End Program.

End pdf_to_image.

(** ** [pdf_page_text.py]: the command

    The command writes one text file.  Its world is the world of the
    extractors together with the text files opened for writing;
    [Path.cwd()], the failure, if any, of [open(path, 'w', encoding='utf-8')]
    and the failure, if any, of [f.write(text)] and of closing the file are
    given with the runtime. *)

Module pdf_page_text_cli.

(** The parsed command line ([argparse.Namespace]); [pdf] is given as
    [Path(args.pdf).resolve()] returns it. *)
Record arguments : Type := {
  args_pdf : Path;
  args_page : Z;
  args_engine : string
}.

(** A file opened with mode ['w'] exists from then on, empty at first.
    [Some text]: [text] was written and the file closed; [None]: the file
    was created or truncated and the write failed, its content is not
    known. *)
Record cli_world : Type := {
  extraction : world;
  text_files : list (string * option pystr)   (* newest first *)
}.

Definition CLI (A : Type) : Type := cli_world -> outcome A * cli_world.

Definition cli_ret {A} (a : A) : CLI A := fun c => (Return a, c).

Definition cli_raise {A} (e : exn) : CLI A := fun c => (Raise e, c).

Definition cli_bind {A B} (m : CLI A) (k : A -> CLI B) : CLI B :=
  fun c =>
    match m c with
    | (Return a, c') => k a c'
    | (Raise e, c') => (Raise e, c')
    end.

Definition cli_try_except {A} (body : CLI A) (handler : exn -> CLI A) : CLI A :=
  fun c =>
    match body c with
    | (Return a, c') => (Return a, c')
    | (Raise e, c') => handler e c'
    end.

(** A computation of the extractors' monad, run inside the command. *)
Definition run {A} (m : M A) : CLI A :=
  fun c =>
    let (o, w') := m (extraction c) in
    (o, {| extraction := w'; text_files := text_files c |}).

Declare Scope cli_scope.
Delimit Scope cli_scope with cli.
Notation "x <- m ;; k" := (cli_bind m (fun x => k))
  (at level 61, m at next level, right associativity) : cli_scope.
Notation "m ;; k" := (cli_bind m (fun _ => k))
  (at level 61, right associativity) : cli_scope.

Section Program.

Variable rt : runtime.
Variable cwd : Path.
Variable open_text_error : string -> option exn.
Variable write_text_error : string -> pystr -> option exn.

#[local] Open Scope cli_scope.

Definition validate_pdf_file (pdf_path : Path) : M unit :=
  if negb (path_exists rt (path_str pdf_path)) then
    raise (FileNotFoundError ("PDFファイルが見つかりません: " ++ path_str pdf_path))
  else if negb (path_is_file rt (path_str pdf_path)) then
    raise (ValueError ("指定されたパスはファイルではありません: " ++ path_str pdf_path))
  else if negb (lower (suffix pdf_path) =? ".pdf")%string then
    logging_warning ("ファイル拡張子が .pdf ではありません: " ++ path_str pdf_path)
  else ret tt.

(** [str] of the path [generate_output_filename] returns. *)
Definition generate_output_filename (pdf_path : Path) (page_number : Z) : string :=
  let base_name := stem pdf_path in
  let output_filename := base_name ++ "-" ++ str_of_int page_number ++ ".txt" in
  joinpath cwd output_filename.

(** [with open(output_path, 'w', encoding='utf-8') as f: f.write(text)] *)
Definition write_text (output_path : string) (text : pystr) : CLI unit :=
  fun c =>
    match open_text_error output_path with
    | Some e => (Raise e, c)
    | None =>
        match write_text_error output_path text with
        | Some e => (Raise e,
                     {| extraction := extraction c;
                        text_files := (output_path, None) :: text_files c |})
        | None => (Return tt,
                   {| extraction := extraction c;
                      text_files := (output_path, Some text) :: text_files c |})
        end
    end.

Definition save_text_to_file (text : pystr) (output_path : string) : CLI unit :=
  cli_try_except
    (write_text output_path text ;;
     run (logging_info ("出力ファイル: " ++ output_path)))
    (fun e =>
       run (logging_error ("ファイルへの書き込みに失敗しました: " ++ str_of_exn e)) ;;
       cli_raise e).

(** The [try] statement of [main()] from the return of [parse_arguments()]
    on, in a run that no interrupt cuts short; it yields the exit status.
    [pdf_page_text_command.main] below is the whole of [main()]. *)
Definition main (args : arguments) : CLI Z :=
  cli_try_except
    (run (logging_info "テキスト抽出を開始します...") ;;
     let pdf_path := args_pdf args in
     let page_number := args_page args in
     let engine := args_engine args in
     if (engine =? "pdfminer")%string && negb (PDFMINER_AVAILABLE rt) then
       run (logging_error
              ("pdfminer エンジンが選択されましたが、pdfminer.six がインストールされていません。"
               ++ newline
               ++ "pip install pdfminer.six を実行してインストールするか、" ++ newline
               ++ "デフォルトの pypdf エンジンを使用してください（--engine pypdf または引数省略）。")) ;;
       cli_ret 1
     else
       run (logging_info ("使用する抽出エンジン: " ++ engine)) ;;
       if page_number <? 1 then
         run (logging_error ("ページ番号は1以上である必要があります: "
                             ++ str_of_int page_number)) ;;
         cli_ret 1
       else
         run (validate_pdf_file pdf_path) ;;
         text <- run (pdf_page_text.extract_page_text rt pdf_path page_number engine) ;;
         let output_path := generate_output_filename pdf_path page_number in
         save_text_to_file text output_path ;;
         run (logging_info "正常終了") ;;
         cli_ret 0)
    (fun e =>
       match e with
       | FileNotFoundError _ | ValueError _ | ImportError _ =>
           run (logging_error (str_of_exn e)) ;; cli_ret 1
       | PermissionError _ =>
           run (logging_error ("ファイルへのアクセス権限がありません: " ++ str_of_exn e)) ;;
           cli_ret 1
       | Exception _ =>
           run (logging_error ("予期しないエラーが発生しました: " ++ str_of_exn e)) ;;
           cli_ret 1
       end).

End Program.

Definition initial_cli_world : cli_world :=
  {| extraction := initial_world; text_files := [] |}.

End pdf_page_text_cli.

(** ** The two commands, from [parse_arguments()] to the end of [main()]

    [main()] calls [parse_arguments()] first thing inside its [try] block.
    argparse returns the arguments, or ends the run itself by raising
    [SystemExit]: with code 0 after printing the help ([-h], [--help]), with
    code 2 after printing the usage when an argument is missing or is not
    accepted; so whenever [main] goes on, the numbers are integers and the
    engine and the format are among the choices.  [SystemExit] is not an
    [Exception]: no [except] clause of [main] catches it.

    A [KeyboardInterrupt] arrives when the user sends it.  Inside the [try]
    block it passes through the handlers of the functions called, which
    catch [Exception] only, and reaches [except KeyboardInterrupt] of
    [main]; in [setup_logging()] or in an [except] clause of [main] nothing
    catches it.  What the run had done by then is not determined by the
    program: the state reached at that moment comes with the interrupt.

    The functions [main] of the modules above are the [try] statement of
    [main()] once [parse_arguments()] has returned, in a run that no
    interrupt cuts short. *)

(** How a call of [main()] ends. *)
Inductive termination : Type :=
| Returned (status : Z)
| Raised (e : exn)
| Raised_SystemExit (code : Z)
| Raised_KeyboardInterrupt.

(** Whether and where a [KeyboardInterrupt] arrives in a run whose state
    has type [W]. *)
Inductive interrupt (W : Type) : Type :=
| No_interrupt
| Interrupt_in_try (at_interrupt : W)
| Interrupt_elsewhere (at_interrupt : W).

Arguments No_interrupt {W}.
Arguments Interrupt_in_try {W} at_interrupt.
Arguments Interrupt_elsewhere {W} at_interrupt.

Module pdf_page_text_command.

Import pdf_page_text_cli.

(** [choices=['pypdf', 'pdfminer', 'ocr']] *)
Inductive engine : Type := pypdf | pdfminer | ocr.

Definition engine_name (e : engine) : string :=
  match e with
  | pypdf => "pypdf"
  | pdfminer => "pdfminer"
  | ocr => "ocr"
  end.

(** What [parse_arguments()] does with the command line of the run: it
    returns the arguments ([pdf] as [Path(args.pdf).resolve()] gives it),
    or argparse raises [SystemExit(0)] or [SystemExit(2)]. *)
Inductive parsed : Type :=
| Namespace (pdf : Path) (page : Z) (engine : engine)
| Help
| Usage_error.

Section Program.

Variable rt : runtime.
Variable cwd : Path.
Variable open_text_error : string -> option exn.
Variable write_text_error : string -> pystr -> option exn.

Definition main (parse_arguments : parsed) (ctrl_c : interrupt cli_world)
    (c : cli_world) : termination * cli_world :=
  match ctrl_c with
  | Interrupt_elsewhere at_interrupt => (Raised_KeyboardInterrupt, at_interrupt)
  | Interrupt_in_try at_interrupt =>
      let (_, c') := run (logging_error (newline ++ "処理が中断されました")) at_interrupt in
      (Returned 130, c')
  | No_interrupt =>
      match parse_arguments with
      | Help => (Raised_SystemExit 0, c)
      | Usage_error => (Raised_SystemExit 2, c)
      | Namespace pdf page engine =>
          let args :=
            {| args_pdf := pdf; args_page := page; args_engine := engine_name engine |} in
          match pdf_page_text_cli.main rt cwd open_text_error write_text_error args c with
          | (Return status, c') => (Returned status, c')
          | (Raise e, c') => (Raised e, c')
          end
      end
  end.

End Program.

End pdf_page_text_command.

Module pdf_to_image_command.

Import pdf_to_image.

(** [choices=['png', 'jpeg', 'jpg']] *)
Inductive format : Type := png | jpeg | jpg.

Definition format_name (f : format) : string :=
  match f with
  | png => "png"
  | jpeg => "jpeg"
  | jpg => "jpg"
  end.

(** What [parse_arguments()] does with the command line of the run.  The
    two paths are given as [Path(...).resolve()] returns them, [pages] is
    [None] without [--pages], [output_pdf] is [None] when [--output-pdf] is
    absent or empty. *)
Inductive parsed : Type :=
| Namespace (pdf output_dir : Path) (format : format) (dpi : Z)
    (pages : option (Z * Z)) (create_pdf : bool) (output_pdf : option string)
| Help
| Usage_error.

Section Program.

Variable rt : runtime.

Definition main (parse_arguments : parsed) (ctrl_c : interrupt world) (w : world)
    : termination * world :=
  match ctrl_c with
  | Interrupt_elsewhere at_interrupt => (Raised_KeyboardInterrupt, at_interrupt)
  | Interrupt_in_try at_interrupt =>
      let (_, w') := logging_error (newline ++ "処理が中断されました") at_interrupt in
      (Returned 130, w')
  | No_interrupt =>
      match parse_arguments with
      | Help => (Raised_SystemExit 0, w)
      | Usage_error => (Raised_SystemExit 2, w)
      | Namespace pdf output_dir format dpi pages create_pdf output_pdf =>
          let args :=
            {| args_pdf := pdf;
               args_output_dir := output_dir;
               args_format := format_name format;
               args_dpi := dpi;
               args_pages := pages;
               args_create_pdf := create_pdf;
               args_output_pdf := output_pdf |} in
          match pdf_to_image.main rt args w with
          | (Return status, w') => (Returned status, w')
          | (Raise e, w') => (Raised e, w')
          end
      end
  end.

End Program.

End pdf_to_image_command.

(** ** Properties of the libraries the statements below refer to *)

(** [s] has a character [str.strip()] keeps. *)
Definition has_text (s : pystr) : Prop := exists c, In c s /\ isspace c = false.

(** [unicodedata.normalize('NFC', _)] is idempotent and maps [""] to [""]. *)
Definition NFC_idempotent (rt : runtime) : Prop :=
  normalize_NFC rt [] = [] /\
  forall s, normalize_NFC rt (normalize_NFC rt s) = normalize_NFC rt s.

(** NFC neither deletes a character nor turns one into white space. *)
Definition NFC_keeps_text (rt : runtime) : Prop :=
  forall s, has_text s -> has_text (normalize_NFC rt s).

(** [img.convert(mode)] returns an image of that mode. *)
Definition convert_sets_mode (rt : runtime) : Prop :=
  forall i md c, Image_convert rt i md = Return c -> mode c = md.

(** What an extractor returns: [""], or the NFC form of a text that has a
    character other than white space. *)
Definition normalized_or_empty (rt : runtime) (t : pystr) : Prop :=
  t = [] \/
  exists raw, pdf_page_text.no_text raw = false /\ t = normalize_NFC rt raw.

(** Reading a trace: the files written and the pages rendered, oldest first. *)
Definition writes (t : list event) : list (string * file) :=
  flat_map (fun ev => match ev with Wrote p f => [(p, f)] | _ => [] end) (rev t).

Definition renders (t : list event) : list (Z * Matrix) :=
  flat_map (fun ev => match ev with Call_get_pixmap _ k m => [(k, m)] | _ => [] end)
           (rev t).

(** [emits P m]: whatever the world, the events [m] adds to the trace all
    satisfy [P]. *)
Definition emits (P : event -> Prop) {A : Type} (m : M A) : Prop :=
  forall w, exists new, trace (snd (m w)) = (new ++ trace w)%list /\ Forall P new.

(** [emits_with P ev m]: moreover [ev] is among the events added. *)
Definition emits_with (P : event -> Prop) (ev : event) {A : Type} (m : M A) : Prop :=
  forall w, exists new,
    trace (snd (m w)) = (new ++ trace w)%list /\ Forall P new /\ In ev new.

(** An event with the identity of the handle forgotten. *)
Definition erase (ev : event) : event :=
  match ev with
  | Call_get_pixmap _ k m => Call_get_pixmap 0%N k m
  | Call_convert _ md => Call_convert 0%N md
  | Call_close _ => Call_close 0%N
  | _ => ev
  end.

(** Two outcomes agree: both return, with values related by [R], or both
    raise the same exception. *)
Definition agree {A B : Type} (R : A -> B -> Prop) (o1 : outcome A) (o2 : outcome B)
    : Prop :=
  match o1, o2 with
  | Return a, Return b => R a b
  | Raise e1, Raise e2 => e1 = e2
  | _, _ => False
  end.

(** [related R m1 m2]: run from any two worlds, [m1] and [m2] add the same
    events up to the names of handles, and their outcomes agree. *)
Definition related {A B : Type} (R : A -> B -> Prop) (m1 : M A) (m2 : M B) : Prop :=
  forall w1 w2, exists new1 new2,
    trace (snd (m1 w1)) = (new1 ++ trace w1)%list /\
    trace (snd (m2 w2)) = (new2 ++ trace w2)%list /\
    map erase new1 = map erase new2 /\
    agree R (fst (m1 w1)) (fst (m2 w2)).

(** The DPI check of [main]: the message of its warning, and what the
    rasterizer may emit for a given DPI: no warning, and [get_pixmap] only
    with the matrix that scales both axes by [dpi / 72.0]. *)
Definition dpi_warning (dpi : Z) : event :=
  Log WARNING ("DPI値が推奨範囲外です: " ++ str_of_int dpi ++ "（推奨: 72-600）").

Definition scales_by (dpi : Z) (mat : Matrix) : Prop :=
  exists z, float_of_int dpi = Some z /\
            mat = {| zoom_x := z / 72; zoom_y := z / 72 |}.

Definition rasterizer_event (dpi : Z) (ev : event) : Prop :=
  match ev with
  | Log WARNING _ => False
  | Call_get_pixmap _ _ mat => scales_by dpi mat
  | _ => True
  end.

(** What [main] of [pdf_to_image.py] emits before its DPI check: progress
    records, and the warning about the extension of [pdf_path]. *)
Definition prelude_event (pdf_path : Path) (ev : event) : Prop :=
  match ev with
  | Log INFO _ => True
  | Log WARNING msg => msg = "ファイル拡張子が .pdf ではありません: " ++ path_str pdf_path
  | _ => False
  end.

(** The DPI the specification expects the command to use: the given one
    brought into the window 72..600. *)
Definition clamp_dpi (dpi : Z) : Z := Z.max 72 (Z.min 600 dpi).

(** The page the assembler embeds for the image file at [path]: the image as
    opened when its mode is RGB, its conversion to RGB otherwise; [None]
    when opening or converting raises. *)
Definition opened_as_RGB (rt : runtime) (path : string) : option image :=
  match Image_open rt path with
  | Return i =>
      if (mode i =? "RGB")%string then Some i
      else match Image_convert rt i "RGB" with
           | Return c => Some c
           | Raise _ => None
           end
  | Raise _ => None
  end.

(** [raises_within P m]: when [m] raises, the events it added all satisfy
    [P]. *)
Definition raises_within (P : event -> Prop) {A : Type} (m : M A) : Prop :=
  forall w e w', m w = (Raise e, w') ->
  exists new, trace w' = (new ++ trace w)%list /\ Forall P new.

(** [m] returns in every world. *)
Definition total {A : Type} (m : M A) : Prop :=
  forall w, exists a w', m w = (Return a, w').

Definition not_close (ev : event) : Prop :=
  match ev with
  | Call_close _ => False
  | _ => True
  end.

(** What text extraction from [pdf_path] may do to the outside: log, read
    that file through pypdf, pdfminer (one page index at a time) or
    PyMuPDF, render at 150 DPI, build an RGB image, run OCR with the
    default languages, close the document.  It writes no file. *)
Definition extraction_event (pdf_path : Path) (ev : event) : Prop :=
  match ev with
  | Log _ _ => True
  | Call_PdfReader path => path = path_str pdf_path
  | Call_extract_text _ => True
  | Call_pdfminer_extract_text path page_numbers =>
      path = path_str pdf_path /\ exists k, page_numbers = [k]
  | Call_fitz_open path => path = path_str pdf_path
  | Call_get_pixmap _ _ mat => mat = {| zoom_x := 150 / 72; zoom_y := 150 / 72 |}
  | Call_Image_frombytes md _ => md = "RGB"
  | Call_image_to_string lang => lang = "jpn+eng"
  | Call_close _ => True
  | _ => False
  end.

(** Events of the text-layer extractors: as above, without PyMuPDF and OCR. *)
Definition text_layer_event (ev : event) : Prop :=
  match ev with
  | Log _ _ | Call_PdfReader _ | Call_extract_text _
  | Call_pdfminer_extract_text _ _ => True
  | _ => False
  end.

Definition not_error_log (ev : event) : Prop :=
  match ev with
  | Log ERROR _ => False
  | _ => True
  end.

(** No library is called and no file is written: a log record at most. *)
Definition log_only (ev : event) : Prop :=
  match ev with
  | Log _ _ => True
  | _ => False
  end.

(** [keeps_live m]: [m] opens and closes nothing. *)
Definition keeps_live {A : Type} (m : M A) : Prop :=
  forall w, live (snd (m w)) = live w.

(** What the rasterizer may write for [pdf_path] into [output_dir]: for a
    page number [N] that is at least 1, within the requested range and
    within the document, the file [<stem>-page<N>.<format>], as a PNG of a
    pixmap or as a JPEG of quality 95.  It opens no image file. *)
Definition page_image_event (rt : runtime) (pdf_path output_dir : Path)
    (image_format : string) (page_range : option (Z * Z)) (ev : event) : Prop :=
  match ev with
  | Wrote path f =>
      exists N,
        1 <= N /\
        match page_range with Some (s, e) => s <= N <= e | None => True end /\
        (forall pages, fitz_open rt (path_str pdf_path) = Return pages ->
                       N <= Z.of_nat (List.length pages)) /\
        path = joinpath output_dir
                 (stem pdf_path ++ "-page" ++ str_of_int N ++ "." ++ image_format) /\
        ((exists pix, f = PngFile pix) \/ (exists img, f = JpegFile img 95))
  | Call_Image_open _ | Call_convert _ _ => False
  | _ => True
  end.

(** What the assembler may do: it writes nothing but a PDF of resolution 150
    at the output path, and neither renders nor creates a directory. *)
Definition assembler_event (output_pdf_path : string) (ev : event) : Prop :=
  match ev with
  | Wrote path f => path = output_pdf_path /\ exists pages, f = PdfFile pages 150
  | Call_get_pixmap _ _ _ | Call_fitz_open _ | Call_mkdir _ => False
  | _ => True
  end.

Definition not_wrote (ev : event) : Prop :=
  match ev with
  | Wrote _ _ => False
  | _ => True
  end.

(** No constraint on the events: only the shape of the trace matters. *)
Definition any_event (ev : event) : Prop := True.

(** Width and height of an image file. *)
Definition dimensions (f : file) : option (Z * Z) :=
  match f with
  | PngFile pix => Some (width pix, height pix)
  | JpegFile img _ => Some (size img)
  | PdfFile _ _ => None
  end.

(** The same document opened in two runs: as many pages, and page by page
    the renderer gives, for the same matrix, pixmaps of the same width and
    height; the samples may differ. *)
Definition same_page_sizes (pages1 pages2 : list fitz_page) : Prop :=
  Forall2 (fun page1 page2 =>
             forall mat pix1 pix2,
               get_pixmap page1 mat = Return pix1 ->
               get_pixmap page2 mat = Return pix2 ->
               width pix1 = width pix2 /\ height pix1 = height pix2)
          pages1 pages2.

(** [Image.frombytes(mode, size, data)] returns an image of that size. *)
Definition frombytes_keeps_size (rt : runtime) : Prop :=
  forall md sz data i, Image_frombytes rt md sz data = Return i -> size i = sz.

(** [pf] is the image file of page [page_num + 1] of [pages]: it is named
    [<stem>-page<page_num + 1>.<format>] in [output_dir] and holds the pixmap
    the renderer returns for that page with the matrix that scales both axes
    by [dpi / 72.0], saved as PNG, or passed through [Image.frombytes] as
    RGB of the same width and height and saved as JPEG of quality 95. *)
Definition page_image (rt : runtime) (pdf_path output_dir : Path)
    (image_format : string) (dpi : Z) (pages : list fitz_page) (page_num : Z)
    (pf : string * file) : Prop :=
  fst pf = joinpath output_dir
             (stem pdf_path ++ "-page" ++ str_of_int (page_num + 1) ++ "."
              ++ image_format) /\
  exists page z pix,
    0 <= page_num /\
    nth_error pages (Z.to_nat page_num) = Some page /\
    float_of_int dpi = Some z /\
    get_pixmap page {| zoom_x := z / 72; zoom_y := z / 72 |} = Return pix /\
    if (lower image_format =? "png")%string then snd pf = PngFile pix
    else exists i,
           Image_frombytes rt "RGB" (width pix, height pix) (samples pix) = Return i /\
           snd pf = JpegFile i 95.

(** The renderer and the disk let the rasterizer do its work on the pages
    [page_nums]: [dpi] has a binary64 value, each page is there and is
    rendered with the matrix that scales by [dpi / 72.0], the pixmap is
    taken by [Image.frombytes] when the format is not PNG, and the image
    file can be written. *)
Definition can_rasterize (rt : runtime) (pdf_path output_dir : Path)
    (image_format : string) (dpi : Z) (pages : list fitz_page) (page_nums : list Z)
    : Prop :=
  exists z,
    float_of_int dpi = Some z /\
    Forall (fun page_num =>
              exists page pix,
                nth_error pages (Z.to_nat page_num) = Some page /\
                get_pixmap page {| zoom_x := z / 72; zoom_y := z / 72 |} = Return pix /\
                ((lower image_format =? "png")%string = true \/
                 exists i, Image_frombytes rt "RGB" (width pix, height pix) (samples pix)
                           = Return i) /\
                write_error rt
                  (joinpath output_dir
                     (stem pdf_path ++ "-page" ++ str_of_int (page_num + 1) ++ "."
                      ++ image_format)) = None)
           page_nums.

(** ** A concrete runtime, for running the tools on examples *)

Module Demo.

Definition text_of (s : string) : pystr := map N_of_ascii (list_ascii_of_string s).

(** The singleton canonical mappings of Unicode: the part of NFC that acts
    character by character (ANGSTROM SIGN, OHM SIGN, KELVIN SIGN, EN QUAD,
    EM QUAD, GREEK QUESTION MARK, GREEK ANO TELEIA). *)
Definition nfc_singleton (c : codepoint) : codepoint :=
  (if c =? 0x212B then 0xC5
   else if c =? 0x2126 then 0x3A9
   else if c =? 0x212A then 0x4B
   else if c =? 0x2000 then 0x2002
   else if c =? 0x2001 then 0x2003
   else if c =? 0x37E then 0x3B
   else if c =? 0x387 then 0xB7
   else c)%N.

Definition nfc (s : pystr) : pystr := map nfc_singleton s.

(** [floor(x)] of a finite float, [0] otherwise. *)
Definition floor (x : float) : Z :=
  match Prim2SF x with
  | S754_finite sg m e =>
      let v := if sg then Z.neg m else Z.pos m in
      if 0 <=? e then v * 2 ^ e else v / 2 ^ (- e)
  | _ => 0
  end.

(** An A4 page (595 x 842 points); its pixmap carries the page number as its
    only sample, so that the pages can be told apart. *)
Definition a4_page (number : N) : fitz_page :=
  {| get_pixmap := fun mat =>
       if ((0 <? zoom_x mat) && (0 <? zoom_y mat))%float then
         Return {| width := floor (595 * zoom_x mat);
                   height := floor (842 * zoom_y mat);
                   samples := [number] |}
       else Raise (Exception "Invalid bandwriter header dimensions/setup") |}.

Definition sample_pdf : Path :=
  {| path_str := "/work/sample.pdf"; stem := "sample"; suffix := ".pdf" |}.

Definition out_dir : Path :=
  {| path_str := "/work/images"; stem := "images"; suffix := "" |}.

(** [sample.pdf]: two pages with a text layer and a scanned third page. *)
Definition sample_text (page_index : Z) : pystr :=
  if page_index =? 0 then text_of "Test Page 1"
  else if page_index =? 1 then text_of "Test Page 2"
  else if page_index =? 2 then text_of "  "
  else [].

Definition tesseract (img : image) (lang : string) : outcome pystr :=
  match pixels img with
  | [3%N] => Return (text_of "Scanned Page 3")
  | _ => Return []
  end.

Definition no_tesseract (img : image) (lang : string) : outcome pystr :=
  Raise (Exception "tesseract is not installed or it's not in your PATH.").

Definition rgb (px : list N) : image := {| mode := "RGB"; size := (2, 2); pixels := px |}.
Definition grey (px : list N) : image := {| mode := "L"; size := (2, 2); pixels := px |}.

(** The runtime: every library installed, [sample.pdf] and three images on
    disk; [ocr] is pytesseract's answer. *)
Definition runtime_with (ocr : image -> string -> outcome pystr) : runtime :=
  {| PDFMINER_AVAILABLE := true;
     PYMUPDF_AVAILABLE := true;
     PYTESSERACT_AVAILABLE := true;
     normalize_NFC := nfc;
     PdfReader := fun path =>
       if (path =? "/work/sample.pdf")%string then
         Return (map (fun k => {| extract_text := Return (sample_text k) |}) [0; 1; 2])
       else Raise (FileNotFoundError path);
     pdfminer_extract_text := fun path page_numbers =>
       if (path =? "/work/sample.pdf")%string then
         Return (flat_map sample_text page_numbers)
       else Raise (FileNotFoundError path);
     fitz_open := fun path =>
       if (path =? "/work/sample.pdf")%string then
         Return (map a4_page [1; 2; 3]%N)
       else Raise (Exception ("no such file: " ++ path));
     Image_frombytes := fun md sz data =>
       Return {| mode := md; size := sz; pixels := data |};
     image_to_string := ocr;
     Image_open := fun path =>
       if (path =? "/work/a.png")%string then Return (rgb [1%N])
       else if (path =? "/work/b.png")%string then Return (grey [2%N])
       else if (path =? "/work/c.png")%string then Return (rgb [3%N])
       else Raise (FileNotFoundError path);
     Image_convert := fun i md =>
       Return {| mode := md; size := size i; pixels := pixels i |};
     write_error := fun _ => None;
     mkdir_error := fun _ => None;
     path_exists := fun path => (path =? "/work/sample.pdf")%string;
     path_is_file := fun path => (path =? "/work/sample.pdf")%string |}.

Definition rt : runtime := runtime_with tesseract.

Definition rt_without_tesseract : runtime := runtime_with no_tesseract.

Definition args_dpi_1200 : pdf_to_image.arguments :=
  {| pdf_to_image.args_pdf := sample_pdf;
     pdf_to_image.args_output_dir := out_dir;
     pdf_to_image.args_format := "png";
     pdf_to_image.args_dpi := 1200;
     pdf_to_image.args_pages := Some (1, 1);
     pdf_to_image.args_create_pdf := false;
     pdf_to_image.args_output_pdf := None |}.

End Demo.

(** ** Further examples *)

Module Examples.

(** [rt] with other libraries installed. *)
Definition with_libraries (rt : runtime) (pdfminer pymupdf pytesseract : bool) : runtime :=
  {| PDFMINER_AVAILABLE := pdfminer;
     PYMUPDF_AVAILABLE := pymupdf;
     PYTESSERACT_AVAILABLE := pytesseract;
     normalize_NFC := normalize_NFC rt;
     PdfReader := PdfReader rt;
     pdfminer_extract_text := pdfminer_extract_text rt;
     fitz_open := fitz_open rt;
     Image_frombytes := Image_frombytes rt;
     image_to_string := image_to_string rt;
     Image_open := Image_open rt;
     Image_convert := Image_convert rt;
     write_error := write_error rt;
     mkdir_error := mkdir_error rt;
     path_exists := path_exists rt;
     path_is_file := path_is_file rt |}.

(** Only PyMuPDF of the two OCR libraries. *)
Definition rt_without_pytesseract : runtime := with_libraries Demo.rt true true false.

(** Neither pdfminer.six nor the OCR libraries. *)
Definition rt_pypdf_only : runtime := with_libraries Demo.rt false false false.

(** [Demo.rt] where Pillow also opens the page images found in the output
    directory. *)
Definition rt_page_images : runtime :=
  {| PDFMINER_AVAILABLE := PDFMINER_AVAILABLE Demo.rt;
     PYMUPDF_AVAILABLE := PYMUPDF_AVAILABLE Demo.rt;
     PYTESSERACT_AVAILABLE := PYTESSERACT_AVAILABLE Demo.rt;
     normalize_NFC := normalize_NFC Demo.rt;
     PdfReader := PdfReader Demo.rt;
     pdfminer_extract_text := pdfminer_extract_text Demo.rt;
     fitz_open := fitz_open Demo.rt;
     Image_frombytes := Image_frombytes Demo.rt;
     image_to_string := image_to_string Demo.rt;
     Image_open := fun path =>
       if String.prefix "/work/images/sample-page" path then Return (Demo.rgb [1%N])
       else Image_open Demo.rt path;
     Image_convert := Image_convert Demo.rt;
     write_error := write_error Demo.rt;
     mkdir_error := mkdir_error Demo.rt;
     path_exists := path_exists Demo.rt;
     path_is_file := path_is_file Demo.rt |}.

(** [Demo.rt] on another day: the renderer gives the same sizes, with other
    samples. *)
Definition rt_other_samples : runtime :=
  {| PDFMINER_AVAILABLE := PDFMINER_AVAILABLE Demo.rt;
     PYMUPDF_AVAILABLE := PYMUPDF_AVAILABLE Demo.rt;
     PYTESSERACT_AVAILABLE := PYTESSERACT_AVAILABLE Demo.rt;
     normalize_NFC := normalize_NFC Demo.rt;
     PdfReader := PdfReader Demo.rt;
     pdfminer_extract_text := pdfminer_extract_text Demo.rt;
     fitz_open := fun path =>
       if (path =? "/work/sample.pdf")%string then
         Return (map Demo.a4_page [7; 8; 9]%N)
       else Raise (Exception ("no such file: " ++ path));
     Image_frombytes := Image_frombytes Demo.rt;
     image_to_string := image_to_string Demo.rt;
     Image_open := Image_open Demo.rt;
     Image_convert := Image_convert Demo.rt;
     write_error := write_error Demo.rt;
     mkdir_error := mkdir_error Demo.rt;
     path_exists := path_exists Demo.rt;
     path_is_file := path_is_file Demo.rt |}.

Definition cwd : Path := {| path_str := "/work"; stem := "work"; suffix := "" |}.

(** A disk that takes every text file. *)
Definition creatable (path : string) : option exn := None.
Definition writable (path : string) (text : pystr) : option exn := None.

Definition page_text_args (page : Z) (engine : string) : pdf_page_text_cli.arguments :=
  {| pdf_page_text_cli.args_pdf := Demo.sample_pdf;
     pdf_page_text_cli.args_page := page;
     pdf_page_text_cli.args_engine := engine |}.

Definition image_args (format : string) (dpi : Z) (pages : option (Z * Z))
    (create_pdf : bool) : pdf_to_image.arguments :=
  {| pdf_to_image.args_pdf := Demo.sample_pdf;
     pdf_to_image.args_output_dir := Demo.out_dir;
     pdf_to_image.args_format := format;
     pdf_to_image.args_dpi := dpi;
     pdf_to_image.args_pages := pages;
     pdf_to_image.args_create_pdf := create_pdf;
     pdf_to_image.args_output_pdf := None |}.

End Examples.

(** * Verification *)

(** ** White space and [strip] *)

Lemma lstrip_nil (s : pystr) : lstrip s = [] <-> forallb isspace s = true.
Proof.
  induction s as [|c s IH]; simpl.
  - tauto.
  - destruct (isspace c); simpl; [exact IH | split; discriminate].
Qed.

Lemma lstrip_head (s : pystr) (c : codepoint) (r : pystr) :
  lstrip s = c :: r -> isspace c = false.
Proof.
  induction s as [|d s IH]; simpl; [discriminate|].
  destruct (isspace d) eqn:E; [exact IH|].
  intros H. injection H as -> _. exact E.
Qed.

Lemma truthy_false (s : pystr) : truthy s = false <-> s = [].
Proof. destruct s; simpl; split; congruence. Qed.

Lemma forallb_rev {A} (f : A -> bool) (l : list A) : forallb f (rev l) = forallb f l.
Proof.
  induction l as [|a l IH]; simpl; [reflexivity|].
  rewrite forallb_app, IH. simpl. rewrite andb_true_r. apply andb_comm.
Qed.

Lemma rev_nil {A} (l : list A) : rev l = [] -> l = [].
Proof. intros H. rewrite <- (rev_involutive l), H. reflexivity. Qed.

Lemma strip_nil (s : pystr) : strip s = [] <-> forallb isspace s = true.
Proof.
  unfold strip, rstrip. split.
  - intros H. destruct (lstrip s) as [|c r] eqn:E.
    + apply lstrip_nil. exact E.
    + exfalso. apply rev_nil in H. apply lstrip_nil in H.
      rewrite forallb_rev in H. simpl in H.
      rewrite (lstrip_head _ _ _ E) in H. discriminate.
  - intros H. apply lstrip_nil in H. rewrite H. reflexivity.
Qed.

(** [not text or not text.strip()] holds exactly of the strings made of white
    space only, the empty one among them. *)
Lemma no_text_forallb (s : pystr) : pdf_page_text.no_text s = forallb isspace s.
Proof.
  unfold pdf_page_text.no_text.
  destruct (forallb isspace s) eqn:E.
  - apply strip_nil in E. rewrite E. simpl. apply orb_true_r.
  - destruct s as [|c s]; [discriminate|].
    destruct (strip (c :: s)) eqn:F; [|reflexivity].
    apply strip_nil in F. congruence.
Qed.

Lemma no_text_false (s : pystr) : pdf_page_text.no_text s = false <-> has_text s.
Proof.
  rewrite no_text_forallb. unfold has_text. split.
  - intros H. induction s as [|c s IH]; [discriminate|].
    simpl in H. destruct (isspace c) eqn:E.
    + destruct (IH H) as (d & Hd & Hs). exists d. split; [right|]; assumption.
    + exists c. split; [left; reflexivity | exact E].
  - intros (c & Hc & Hs). destruct (forallb isspace s) eqn:E; [|reflexivity].
    rewrite forallb_forall in E. rewrite (E c Hc) in Hs. discriminate.
Qed.

Lemma no_text_nil : pdf_page_text.no_text [] = true.
Proof. reflexivity. Qed.

(** ** The monad *)

Lemma bind_Return {A B} (m : M A) (k : A -> M B) (w w1 : world) (a : A) :
  m w = (Return a, w1) -> bind m k w = k a w1.
Proof. unfold bind. intros ->. reflexivity. Qed.

Lemma bind_Raise {A B} (m : M A) (k : A -> M B) (w w1 : world) (e : exn) :
  m w = (Raise e, w1) -> bind m k w = (Raise e, w1).
Proof. unfold bind. intros ->. reflexivity. Qed.

Lemma bind_inv {A B} (m : M A) (k : A -> M B) (w w' : world) (b : B) :
  bind m k w = (Return b, w') ->
  exists a w1, m w = (Return a, w1) /\ k a w1 = (Return b, w').
Proof.
  unfold bind. destruct (m w) as [[a|e] w1]; intros H.
  - exists a, w1. split; [reflexivity | exact H].
  - discriminate.
Qed.

Lemma try_except_inv {A} (body : M A) (handler : exn -> M A) (w w' : world) (a : A) :
  try_except body handler w = (Return a, w') ->
  body w = (Return a, w') \/
  exists e w1, body w = (Raise e, w1) /\ handler e w1 = (Return a, w').
Proof.
  unfold try_except. destruct (body w) as [[x|e] w1]; intros H.
  - left. exact H.
  - right. exists e, w1. split; [reflexivity | exact H].
Qed.

(** A handler that logs and raises again never returns. *)
Lemma reraise_never_returns {A} (c : bool) (msg : string) (e : exn) (w w' : world) (a : A) :
  (if c then raise e else logging_error msg ;; raise e) w <> (Return a, w').
Proof. destruct c; discriminate. Qed.

(** Inverting a run that returned: through [bind], [try_except] around a
    handler that raises again, conditionals, [raise] and [ret]. *)
Ltac returned H :=
  repeat (cbv beta in H;
    match type of H with
    | try_except _ _ _ = (Return _, _) =>
        apply try_except_inv in H;
        destruct H as [H | (? & ? & _ & H)];
        [| exfalso; revert H; apply reraise_never_returns]
    | bind _ _ _ = (Return _, _) =>
        let a := fresh "a" in let w := fresh "w" in let Ha := fresh "Ha" in
        apply bind_inv in H; destruct H as (a & w & Ha & H)
    | (if ?c then _ else _) _ = (Return _, _) =>
        let E := fresh "E" in destruct c eqn:E
    | (let _ := _ in _) _ = _ => cbv zeta in H
    | raise _ _ = (Return _, _) => discriminate H
    | ret _ _ = (Return _, _) => unfold ret in H; injection H as H ?; subst
    end).

Section TextExtraction.

Variable rt : runtime.
Variable pdf_path : Path.

(** *** What the three extractors return *)

Lemma pypdf_returns (page_number : Z) (w w' : world) (t : pystr) :
  pdf_page_text.extract_page_text_pypdf rt pdf_path page_number w = (Return t, w') ->
  normalized_or_empty rt t.
Proof.
  unfold pdf_page_text.extract_page_text_pypdf. intros H. returned H.
  - left. reflexivity.
  - right. eexists. split; [eassumption | reflexivity].
Qed.

Lemma pdfminer_returns (page_number : Z) (w w' : world) (t : pystr) :
  pdf_page_text.extract_page_text_pdfminer rt pdf_path page_number w = (Return t, w') ->
  normalized_or_empty rt t.
Proof.
  unfold pdf_page_text.extract_page_text_pdfminer. intros H. returned H.
  - left. reflexivity.
  - right. eexists. split; [eassumption | reflexivity].
Qed.

Lemma ocr_returns (page_number : Z) (lang : string) (w w' : world) (t : pystr) :
  pdf_page_text.extract_page_text_ocr rt pdf_path page_number lang w = (Return t, w') ->
  normalized_or_empty rt t.
Proof.
  unfold pdf_page_text.extract_page_text_ocr. intros H. returned H.
  - left. reflexivity.
  - right. eexists. split; [eassumption | reflexivity].
Qed.

End TextExtraction.

Section Orchestrator.

Variable rt : runtime.
Variable pdf_path : Path.

Lemma text_layer_returns (page_number : Z) (engine : string) (w w' : world) (t : pystr) :
  (if (engine =? "pypdf")%string then
     pdf_page_text.extract_page_text_pypdf rt pdf_path page_number
   else if (engine =? "pdfminer")%string then
     pdf_page_text.extract_page_text_pdfminer rt pdf_path page_number
   else
     raise (ValueError ("無効な抽出エンジンです: " ++ engine ++ newline
                        ++ "有効なエンジン: 'pypdf', 'pdfminer', 'ocr'"))) w
  = (Return t, w') ->
  normalized_or_empty rt t.
Proof.
  destruct (engine =? "pypdf")%string; [apply pypdf_returns|].
  destruct (engine =? "pdfminer")%string; [apply pdfminer_returns|].
  discriminate.
Qed.

Lemma extract_page_text_returns (page_number : Z) (engine : string) (w w' : world)
    (t : pystr) :
  pdf_page_text.extract_page_text rt pdf_path page_number engine w = (Return t, w') ->
  normalized_or_empty rt t.
Proof.
  unfold pdf_page_text.extract_page_text. intros H.
  destruct (engine =? "ocr")%string; [exact (ocr_returns _ _ _ _ _ _ _ H)|].
  apply bind_inv in H. destruct H as (t0 & w0 & H0 & H).
  apply text_layer_returns in H0.
  destruct (pdf_page_text.no_text t0).
  - destruct (PYMUPDF_AVAILABLE rt && PYTESSERACT_AVAILABLE rt).
    + apply bind_inv in H. destruct H as (? & w1 & _ & H).
      apply try_except_inv in H. destruct H as [H | (e & w2 & _ & H)].
      * apply bind_inv in H. destruct H as (t1 & w2 & H1 & H).
        apply ocr_returns in H1. returned H. exact H1.
      * returned H. left. reflexivity.
    + returned H. exact H0.
  - returned H. exact H0.
Qed.

End Orchestrator.

(** ** The demonstration runtime meets the library properties *)

Lemma Demo_nfc_idempotent (ocr : image -> string -> outcome pystr) :
  NFC_idempotent (Demo.runtime_with ocr).
Proof.
  split; [reflexivity|]. intros s. simpl. unfold Demo.nfc.
  rewrite map_map. apply map_ext. intros c. unfold Demo.nfc_singleton.
  repeat match goal with
         | |- context [(c =? ?k)%N] => destruct (N.eqb_spec c k); [subst; reflexivity|]
         end.
  repeat match goal with
         | |- context [(c =? ?k)%N] => destruct (N.eqb_spec c k); [contradiction|]
         end.
  reflexivity.
Qed.

Lemma Demo_nfc_keeps_text (ocr : image -> string -> outcome pystr) :
  NFC_keeps_text (Demo.runtime_with ocr).
Proof.
  intros s (c & Hc & Hs). simpl. exists (Demo.nfc_singleton c). split.
  - unfold Demo.nfc. apply in_map. exact Hc.
  - unfold Demo.nfc_singleton.
    repeat match goal with
           | |- context [(c =? ?k)%N] =>
               destruct (N.eqb_spec c k); [subst; first [reflexivity | discriminate Hs]|]
           end.
    exact Hs.
Qed.

Lemma Demo_convert_sets_mode (ocr : image -> string -> outcome pystr) :
  convert_sets_mode (Demo.runtime_with ocr).
Proof. intros i md c H. simpl in H. injection H as <-. reflexivity. Qed.

(** ** The fallback orchestrator *)

Lemma blank_result_is_empty (rt : runtime) (t : pystr) :
  NFC_keeps_text rt -> normalized_or_empty rt t ->
  pdf_page_text.no_text t = true -> t = [].
Proof.
  intros Hk [-> | (raw & Hraw & ->)] Hb; [reflexivity|].
  apply no_text_false, Hk, no_text_false in Hraw. congruence.
Qed.

Lemma text_and_stripped (t : pystr) :
  truthy t && truthy (strip t) = negb (pdf_page_text.no_text t).
Proof.
  unfold pdf_page_text.no_text. rewrite negb_orb, !negb_involutive. reflexivity.
Qed.

(** C5.  Engine dispatch of [extract_page_text].  With engine ['ocr'] the
    orchestrator is the OCR extractor itself: same result, same raised
    exception, same effects, no fallback.  With an engine name outside
    ['pypdf'], ['pdfminer'], ['ocr'] it raises [ValueError] naming the
    engine, in the world it started from: no library was called. *)
Theorem engine_dispatch (rt : runtime) (pdf_path : Path) (page_number : Z)
    (engine : string) (w : world) :
  (engine = "ocr" ->
   pdf_page_text.extract_page_text rt pdf_path page_number engine w
   = pdf_page_text.extract_page_text_ocr rt pdf_path page_number
       pdf_page_text.default_lang w) /\
  (engine <> "pypdf" -> engine <> "pdfminer" -> engine <> "ocr" ->
   pdf_page_text.extract_page_text rt pdf_path page_number engine w
   = (Raise (ValueError ("無効な抽出エンジンです: " ++ engine ++ newline
                         ++ "有効なエンジン: 'pypdf', 'pdfminer', 'ocr'")), w)).
Proof.
  unfold pdf_page_text.extract_page_text. split.
  - intros ->. reflexivity.
  - intros H1 H2 H3.
    apply String.eqb_neq in H1, H2, H3. rewrite H1, H2, H3. reflexivity.
Qed.

Lemma engine_dispatch_witness :
  pdf_page_text.extract_page_text Demo.rt Demo.sample_pdf 3 "ocr" initial_world
  = pdf_page_text.extract_page_text_ocr Demo.rt Demo.sample_pdf 3
      pdf_page_text.default_lang initial_world /\
  pdf_page_text.extract_page_text Demo.rt Demo.sample_pdf 3 "tesseract" initial_world
  = (Raise (ValueError ("無効な抽出エンジンです: " ++ "tesseract" ++ newline
                        ++ "有効なエンジン: 'pypdf', 'pdfminer', 'ocr'")),
     initial_world).
Proof.
  split.
  - apply (proj1 (engine_dispatch Demo.rt Demo.sample_pdf 3 "ocr" initial_world)).
    reflexivity.
  - apply (proj2 (engine_dispatch Demo.rt Demo.sample_pdf 3 "tesseract" initial_world));
      discriminate.
Defined.

(** C1.  Escalation to OCR.  The requested engine is ['pypdf'] or
    ['pdfminer'], its extractor returned [t0], empty or white space only,
    and PyMuPDF and pytesseract are both available.  Then the orchestrator
    announces the escalation and runs the OCR extractor in the world the
    first attempt left.  If OCR returns a text with a character other than
    white space, that text is the result; if OCR returns an empty text or
    raises, the result is the text [t0] of the first attempt, which is [""];
    in every case the orchestrator returns and a warning is logged instead
    of the OCR exception. *)
Theorem fallback_to_ocr (rt : runtime) (pdf_path : Path) (page_number : Z)
    (engine : string) (w w1 : world) (t0 : pystr) :
  NFC_keeps_text rt ->
  PYMUPDF_AVAILABLE rt = true ->
  PYTESSERACT_AVAILABLE rt = true ->
  (engine = "pypdf" /\
   pdf_page_text.extract_page_text_pypdf rt pdf_path page_number w = (Return t0, w1)) \/
  (engine = "pdfminer" /\
   pdf_page_text.extract_page_text_pdfminer rt pdf_path page_number w = (Return t0, w1)) ->
  pdf_page_text.no_text t0 = true ->
  let w2 :=
    snd (logging_info "テキスト層が見つかりませんでした。OCRによる抽出を試みます..." w1) in
  let result := pdf_page_text.extract_page_text rt pdf_path page_number engine w in
  match pdf_page_text.extract_page_text_ocr rt pdf_path page_number
          pdf_page_text.default_lang w2 with
  | (Return t1, w3) =>
      if pdf_page_text.no_text t1 then
        t0 = [] /\
        result = (Return t0,
                  snd (logging_warning "OCRでもテキストを抽出できませんでした" w3))
      else
        result = (Return t1, snd (logging_info "OCRでテキストを抽出しました" w3))
  | (Raise e, w3) =>
      t0 = [] /\
      result = (Return t0,
                snd (logging_warning ("OCR処理に失敗しました: " ++ str_of_exn e) w3))
  end.
Proof.
  intros Hk Hmu Htess Hfirst Hblank w2 result.
  assert (Ht0 : t0 = []).
  { apply (blank_result_is_empty rt); [exact Hk | | exact Hblank].
    destruct Hfirst as [[_ H] | [_ H]].
    - exact (pypdf_returns _ _ _ _ _ _ H).
    - exact (pdfminer_returns _ _ _ _ _ _ H). }
  assert (Hres : result =
    try_except
      (text <- pdf_page_text.extract_page_text_ocr rt pdf_path page_number
                 pdf_page_text.default_lang ;;
       (if truthy text && truthy (strip text) then
          logging_info "OCRでテキストを抽出しました"
        else
          logging_warning "OCRでもテキストを抽出できませんでした") ;;
       ret text)
      (fun e =>
         logging_warning ("OCR処理に失敗しました: " ++ str_of_exn e) ;;
         ret []) w2).
  { unfold result, pdf_page_text.extract_page_text.
    destruct Hfirst as [[-> H] | [-> H]]; cbn [String.eqb Ascii.eqb Bool.eqb];
      rewrite (bind_Return _ _ _ _ _ H), Hblank, Hmu, Htess; reflexivity. }
  rewrite Hres. unfold try_except, bind.
  destruct (pdf_page_text.extract_page_text_ocr rt pdf_path page_number
              pdf_page_text.default_lang w2) as [[t1 | e] w3] eqn:Hocr.
  - rewrite text_and_stripped.
    destruct (pdf_page_text.no_text t1) eqn:Hb1; simpl.
    + split; [exact Ht0|].
      rewrite (blank_result_is_empty rt t1 Hk (ocr_returns _ _ _ _ _ _ _ Hocr) Hb1).
      rewrite Ht0. reflexivity.
    + reflexivity.
  - split; [exact Ht0|]. rewrite Ht0. reflexivity.
Qed.

Lemma fallback_to_ocr_witness :
  let announce := logging_info "テキスト層が見つかりませんでした。OCRによる抽出を試みます..." in
  let w1 := snd (pdf_page_text.extract_page_text_pypdf Demo.rt Demo.sample_pdf 3
                   initial_world) in
  let w3 := snd (pdf_page_text.extract_page_text_ocr Demo.rt Demo.sample_pdf 3
                   pdf_page_text.default_lang (snd (announce w1))) in
  let v1 := snd (pdf_page_text.extract_page_text_pypdf Demo.rt_without_tesseract
                   Demo.sample_pdf 3 initial_world) in
  let v3 := snd (pdf_page_text.extract_page_text_ocr Demo.rt_without_tesseract
                   Demo.sample_pdf 3 pdf_page_text.default_lang (snd (announce v1))) in
  pdf_page_text.extract_page_text Demo.rt Demo.sample_pdf 3 "pypdf" initial_world
  = (Return (Demo.text_of "Scanned Page 3"),
     snd (logging_info "OCRでテキストを抽出しました" w3)) /\
  ([] = @nil codepoint /\
   pdf_page_text.extract_page_text Demo.rt_without_tesseract Demo.sample_pdf 3 "pypdf"
     initial_world
   = (Return [],
      snd (logging_warning
             ("OCR処理に失敗しました: "
              ++ "tesseract is not installed or it's not in your PATH.") v3))).
Proof.
  intros announce w1 w3 v1 v3. split.
  - refine (fallback_to_ocr Demo.rt Demo.sample_pdf 3 "pypdf" initial_world w1 []
              (Demo_nfc_keeps_text _) _ _ _ _).
    + reflexivity.
    + reflexivity.
    + left. split; [reflexivity | vm_compute; reflexivity].
    + reflexivity.
  - refine (fallback_to_ocr Demo.rt_without_tesseract Demo.sample_pdf 3 "pypdf"
              initial_world v1 [] (Demo_nfc_keeps_text _) _ _ _ _).
    + reflexivity.
    + reflexivity.
    + left. split; [reflexivity | vm_compute; reflexivity].
    + reflexivity.
Defined.

(** ** Normal form and white space of the returned text *)

(** C3.  The text an extractor returns is in NFC: whichever of the pypdf,
    pdfminer and OCR extractors or the orchestrator returned [t],
    normalising [t] again gives [t].  This covers the empty result.  The
    only facts used of [unicodedata.normalize] are that it is idempotent
    and maps the empty string to itself. *)
Theorem extracted_text_is_NFC (rt : runtime) (pdf_path : Path) (page_number : Z)
    (engine lang : string) (w w' : world) (t : pystr) :
  NFC_idempotent rt ->
  pdf_page_text.extract_page_text_pypdf rt pdf_path page_number w = (Return t, w') \/
  pdf_page_text.extract_page_text_pdfminer rt pdf_path page_number w = (Return t, w') \/
  pdf_page_text.extract_page_text_ocr rt pdf_path page_number lang w = (Return t, w') \/
  pdf_page_text.extract_page_text rt pdf_path page_number engine w = (Return t, w') ->
  normalize_NFC rt t = t.
Proof.
  intros [Hnil Hidem] H.
  assert (Hshape : normalized_or_empty rt t).
  { destruct H as [H | [H | [H | H]]].
    - exact (pypdf_returns _ _ _ _ _ _ H).
    - exact (pdfminer_returns _ _ _ _ _ _ H).
    - exact (ocr_returns _ _ _ _ _ _ _ H).
    - exact (extract_page_text_returns _ _ _ _ _ _ _ H). }
  destruct Hshape as [-> | (raw & _ & ->)]; [exact Hnil | apply Hidem].
Qed.

Lemma extracted_text_is_NFC_witness :
  normalize_NFC Demo.rt (Demo.text_of "Test Page 2") = Demo.text_of "Test Page 2" /\
  normalize_NFC Demo.rt [] = [].
Proof.
  split.
  - apply (extracted_text_is_NFC Demo.rt Demo.sample_pdf 2 "pdfminer" "jpn+eng"
             initial_world
             (snd (pdf_page_text.extract_page_text_pdfminer Demo.rt Demo.sample_pdf 2
                     initial_world))
             (Demo.text_of "Test Page 2") (Demo_nfc_idempotent _)).
    right. left. vm_compute. reflexivity.
  - apply (extracted_text_is_NFC Demo.rt_without_tesseract Demo.sample_pdf 3 "pypdf"
             "jpn+eng" initial_world
             (snd (pdf_page_text.extract_page_text Demo.rt_without_tesseract
                     Demo.sample_pdf 3 "pypdf" initial_world))
             [] (Demo_nfc_idempotent _)).
    right. right. right. vm_compute. reflexivity.
Defined.

(** C10.  The text the orchestrator returns is the empty string or has a
    character that is not white space; a non-empty string of white space is
    never returned, whichever engine was requested and whether or not the
    fallback ran.  The only fact used of [unicodedata.normalize] is that it
    neither deletes a character nor turns one into white space. *)
Theorem never_whitespace_only (rt : runtime) (pdf_path : Path) (page_number : Z)
    (engine : string) (w w' : world) (t : pystr) :
  NFC_keeps_text rt ->
  pdf_page_text.extract_page_text rt pdf_path page_number engine w = (Return t, w') ->
  t = [] \/ has_text t.
Proof.
  intros Hk H. apply extract_page_text_returns in H.
  destruct H as [-> | (raw & Hraw & ->)]; [left; reflexivity | right].
  apply Hk, no_text_false, Hraw.
Qed.

Lemma never_whitespace_only_witness :
  (Demo.text_of "Scanned Page 3" = [] \/ has_text (Demo.text_of "Scanned Page 3")) /\
  (@nil codepoint = [] \/ has_text []).
Proof.
  split.
  - apply (never_whitespace_only Demo.rt Demo.sample_pdf 3 "pypdf" initial_world
             (snd (pdf_page_text.extract_page_text Demo.rt Demo.sample_pdf 3 "pypdf"
                     initial_world))
             (Demo.text_of "Scanned Page 3") (Demo_nfc_keeps_text _)).
    vm_compute. reflexivity.
  - apply (never_whitespace_only Demo.rt_without_tesseract Demo.sample_pdf 3 "pypdf"
             initial_world
             (snd (pdf_page_text.extract_page_text Demo.rt_without_tesseract
                     Demo.sample_pdf 3 "pypdf" initial_world))
             [] (Demo_nfc_keeps_text _)).
    vm_compute. reflexivity.
Defined.

(** ** Page numbers *)

(** Running a program forward: unfold the monad, keep the messages folded. *)
Ltac run_monad :=
  unfold logging_info, logging_warning, logging_error, getitem;
  unfold try_except, bind, ret, raise, lift, emit, acquire, fresh, release;
  cbv beta iota zeta.

(** Case analysis on the answer of a library, innermost call first. *)
Ltac case_library :=
  match goal with
  | |- context [match extract_text ?p with _ => _ end] => destruct (extract_text p)
  | |- context [match get_pixmap ?p ?m with _ => _ end] => destruct (get_pixmap p m)
  | |- context [match Image_frombytes ?r ?a ?b ?c with _ => _ end] =>
      destruct (Image_frombytes r a b c)
  | |- context [match image_to_string ?r ?a ?b with _ => _ end] =>
      destruct (image_to_string r a b)
  | |- context [match Image_open ?r ?a with _ => _ end] => destruct (Image_open r a)
  | |- context [match Image_convert ?r ?a ?b with _ => _ end] =>
      destruct (Image_convert r a b)
  | |- context [match write_error ?r ?a with _ => _ end] => destruct (write_error r a)
  | |- context [match mkdir_error ?r ?a with _ => _ end] => destruct (mkdir_error r a)
  | |- context [if pdf_page_text.no_text ?t then _ else _] =>
      destruct (pdf_page_text.no_text t)
  | |- context [if is_ValueError ?e then _ else _] => destruct (is_ValueError e)
  | |- context [if is_ValueError ?e || is_ImportError ?e then _ else _] =>
      destruct (is_ValueError e || is_ImportError e)
  end; cbv beta iota zeta.

(** The event is in the trace the run ended with. *)
Ltac in_trace :=
  cbn [snd fst trace In]; repeat first [left; reflexivity | right].

Lemma nth_error_in_range {A} (l : list A) (i : Z) :
  0 <= i < Z.of_nat (List.length l) ->
  exists a, (if i <? 0 then None else nth_error l (Z.to_nat i)) = Some a.
Proof.
  intros H. destruct (Z.ltb_spec i 0); [lia|].
  destruct (nth_error l (Z.to_nat i)) eqn:E; [eauto|].
  apply nth_error_None in E. lia.
Qed.

Section PageNumbers.

Variable rt : runtime.
Variable pdf_path : Path.

(** The pypdf extractor rejects a page number outside [1..total_pages] with
    a [ValueError] that names the number and the range. *)
Lemma pypdf_rejects_page_out_of_range (page_number : Z) (pages : list pypdf_page)
    (w : world) :
  PdfReader rt (path_str pdf_path) = Return pages ->
  page_number < 1 \/ page_number > Z.of_nat (List.length pages) ->
  fst (pdf_page_text.extract_page_text_pypdf rt pdf_path page_number w)
  = Raise (ValueError ("ページ番号が範囲外です: " ++ str_of_int page_number ++ " "
                       ++ "(有効範囲: 1-" ++ str_of_int (Z.of_nat (List.length pages))
                       ++ ")")).
Proof.
  intros HR Hp. unfold pdf_page_text.extract_page_text_pypdf, call_PdfReader.
  run_monad. rewrite HR. cbv beta iota zeta.
  replace ((page_number - 1 <? 0) || (page_number - 1 >=? Z.of_nat (List.length pages)))
    with true by (symmetry; apply orb_true_iff; lia).
  reflexivity.
Qed.

(** It accepts every page number in [1..total_pages]: the page's text is
    asked for. *)
Lemma pypdf_accepts_page_in_range (page_number : Z) (pages : list pypdf_page)
    (w : world) :
  PdfReader rt (path_str pdf_path) = Return pages ->
  1 <= page_number <= Z.of_nat (List.length pages) ->
  In (Call_extract_text (page_number - 1))
     (trace (snd (pdf_page_text.extract_page_text_pypdf rt pdf_path page_number w))).
Proof.
  intros HR Hp.
  unfold pdf_page_text.extract_page_text_pypdf, call_PdfReader, page_extract_text.
  run_monad. rewrite HR. cbv beta iota zeta.
  replace ((page_number - 1 <? 0) || (page_number - 1 >=? Z.of_nat (List.length pages)))
    with false by (symmetry; apply orb_false_iff; lia).
  destruct (nth_error_in_range pages (page_number - 1)) as (page & ->); [lia|].
  cbv beta iota zeta.
  destruct (extract_text page) as [text | e]; cbv beta iota zeta.
  - destruct (pdf_page_text.no_text text); in_trace.
  - destruct (is_ValueError e); in_trace.
Qed.

(** The OCR extractor does the same on the document PyMuPDF opened, and has
    closed that document when it raises the [ValueError]. *)
Lemma ocr_rejects_page_out_of_range (page_number : Z) (lang : string)
    (pages : list fitz_page) (w : world) :
  PYMUPDF_AVAILABLE rt = true -> PYTESSERACT_AVAILABLE rt = true ->
  fitz_open rt (path_str pdf_path) = Return pages ->
  page_number < 1 \/ page_number > Z.of_nat (List.length pages) ->
  let run := pdf_page_text.extract_page_text_ocr rt pdf_path page_number lang w in
  fst run
  = Raise (ValueError ("ページ番号が範囲外です: " ++ str_of_int page_number ++ " "
                       ++ "(有効範囲: 1-" ++ str_of_int (Z.of_nat (List.length pages))
                       ++ ")")) /\
  ~ In (next_handle w) (live (snd run)).
Proof.
  intros Hmu Htess HO Hp.
  unfold pdf_page_text.extract_page_text_ocr, call_fitz_open, doc_close.
  rewrite Hmu, Htess. run_monad. rewrite HO. cbv beta iota zeta.
  cbn [doc_pages doc_id trace live next_handle negb].
  replace ((page_number - 1 <? 0) || (page_number - 1 >=? Z.of_nat (List.length pages)))
    with true by (symmetry; apply orb_true_iff; lia).
  cbn [fst snd is_ValueError orb live filter]. rewrite N.eqb_refl.
  split; [reflexivity|]. cbn [negb].
  intros H. apply filter_In in H. destruct H as [_ H].
  rewrite N.eqb_refl in H. discriminate.
Qed.

Lemma ocr_accepts_page_in_range (page_number : Z) (lang : string)
    (pages : list fitz_page) (w : world) :
  PYMUPDF_AVAILABLE rt = true -> PYTESSERACT_AVAILABLE rt = true ->
  fitz_open rt (path_str pdf_path) = Return pages ->
  1 <= page_number <= Z.of_nat (List.length pages) ->
  In (Call_get_pixmap (next_handle w) (page_number - 1)
        {| zoom_x := 150 / 72; zoom_y := 150 / 72 |})
     (trace (snd (pdf_page_text.extract_page_text_ocr rt pdf_path page_number lang w))).
Proof.
  intros Hmu Htess HO Hp.
  unfold pdf_page_text.extract_page_text_ocr, call_fitz_open, doc_close,
    page_get_pixmap, call_Image_frombytes, call_image_to_string.
  rewrite Hmu, Htess. run_monad. rewrite HO. cbv beta iota zeta.
  cbn [doc_pages doc_id trace live next_handle negb].
  replace ((page_number - 1 <? 0) || (page_number - 1 >=? Z.of_nat (List.length pages)))
    with false by (symmetry; apply orb_false_iff; lia).
  destruct (nth_error_in_range pages (page_number - 1)) as (page & ->); [lia|].
  cbv beta iota zeta.
  repeat case_library; in_trace.
Qed.

(** The pdfminer extractor checks the lower bound only: from page 1 on, it
    passes the page index to pdfminer whatever the length of the document,
    and returns what pdfminer makes of it. *)
Lemma pdfminer_checks_no_upper_bound (page_number : Z) (text : pystr) (w : world) :
  PDFMINER_AVAILABLE rt = true ->
  1 <= page_number ->
  pdfminer_extract_text rt (path_str pdf_path) [page_number - 1] = Return text ->
  fst (pdf_page_text.extract_page_text_pdfminer rt pdf_path page_number w)
  = Return (if pdf_page_text.no_text text then [] else normalize_NFC rt text).
Proof.
  intros Hav Hp HT.
  unfold pdf_page_text.extract_page_text_pdfminer, call_pdfminer_extract_text.
  rewrite Hav. run_monad.
  replace (page_number <? 1) with false by (symmetry; apply Z.ltb_ge; lia).
  rewrite HT. cbv beta iota zeta.
  destruct (pdf_page_text.no_text text); reflexivity.
Qed.

End PageNumbers.

(** C2, at a page past the end with the pdfminer engine.  [sample.pdf] has
    three pages; for page 7 the pdfminer extractor raises nothing and
    returns the empty text, where the pypdf and the OCR extractor raise the
    [ValueError] that names the page and the range 1-3; for page 0 its
    [ValueError] names the page but no range. *)
Theorem pdfminer_page_beyond_end :
  fst (pdf_page_text.extract_page_text_pdfminer Demo.rt Demo.sample_pdf 7 initial_world)
  = Return [] /\
  fst (pdf_page_text.extract_page_text_pypdf Demo.rt Demo.sample_pdf 7 initial_world)
  = Raise (ValueError "ページ番号が範囲外です: 7 (有効範囲: 1-3)") /\
  fst (pdf_page_text.extract_page_text_ocr Demo.rt Demo.sample_pdf 7 "jpn+eng"
         initial_world)
  = Raise (ValueError "ページ番号が範囲外です: 7 (有効範囲: 1-3)") /\
  fst (pdf_page_text.extract_page_text_pdfminer Demo.rt Demo.sample_pdf 0 initial_world)
  = Raise (ValueError "ページ番号は1以上である必要があります: 0") /\
  fst (pdf_page_text.extract_page_text Demo.rt Demo.sample_pdf 7 "pdfminer"
         initial_world)
  = Return [].
Proof. vm_compute. repeat split. Qed.

(** ** The document handle of the OCR extractor *)

Lemma released_not_live (h : handle) (l : list handle) :
  ~ In h (filter (fun h' => negb (h' =? h)%N) l).
Proof.
  intros H. apply filter_In in H. destruct H as [_ H].
  rewrite N.eqb_refl in H. discriminate.
Qed.

Section DocumentHandle.

Variable rt : runtime.
Variable pdf_path : Path.

(** When the OCR extractor returns, the document it opened is closed. *)
Lemma ocr_closes_document_on_return (page_number : Z) (lang : string)
    (w w' : world) (t : pystr) :
  pdf_page_text.extract_page_text_ocr rt pdf_path page_number lang w = (Return t, w') ->
  ~ In (next_handle w) (live w').
Proof.
  unfold pdf_page_text.extract_page_text_ocr, call_fitz_open, doc_close,
    page_get_pixmap, call_Image_frombytes, call_image_to_string.
  destruct (PYMUPDF_AVAILABLE rt); [|discriminate].
  destruct (PYTESSERACT_AVAILABLE rt); [|discriminate].
  run_monad. cbn [negb].
  destruct (fitz_open rt (path_str pdf_path)) as [pages | e]; cbv beta iota zeta;
    [| destruct (is_ValueError e || is_ImportError e); discriminate].
  cbn [doc_pages doc_id trace live next_handle].
  destruct ((page_number - 1 <? 0) || (page_number - 1 >=? Z.of_nat (List.length pages)));
    [discriminate|].
  destruct (if page_number - 1 <? 0 then None
            else nth_error pages (Z.to_nat (page_number - 1))) as [page|];
    cbv beta iota zeta; [|discriminate].
  repeat case_library; try discriminate;
    intros H; injection H as _ <-; cbn [live]; rewrite ?N.eqb_refl; cbn [negb];
    apply released_not_live.
Qed.

(** When it raises on a page that is in range (the renderer, the conversion
    of the pixmap or the OCR backend raised), the document is still open. *)
Lemma ocr_leaves_document_open_on_error (page_number : Z) (lang : string)
    (pages : list fitz_page) (w w' : world) (e : exn) :
  PYMUPDF_AVAILABLE rt = true -> PYTESSERACT_AVAILABLE rt = true ->
  fitz_open rt (path_str pdf_path) = Return pages ->
  1 <= page_number <= Z.of_nat (List.length pages) ->
  pdf_page_text.extract_page_text_ocr rt pdf_path page_number lang w = (Raise e, w') ->
  In (next_handle w) (live w').
Proof.
  intros Hmu Htess HO Hp.
  unfold pdf_page_text.extract_page_text_ocr, call_fitz_open, doc_close,
    page_get_pixmap, call_Image_frombytes, call_image_to_string.
  rewrite Hmu, Htess. run_monad. rewrite HO. cbv beta iota zeta.
  cbn [doc_pages doc_id trace live next_handle negb].
  replace ((page_number - 1 <? 0) || (page_number - 1 >=? Z.of_nat (List.length pages)))
    with false by (symmetry; apply orb_false_iff; lia).
  destruct (nth_error_in_range pages (page_number - 1)) as (page & ->); [lia|].
  cbv beta iota zeta.
  repeat case_library; try discriminate;
    intros H; injection H as _ <-; left; reflexivity.
Qed.

End DocumentHandle.

(** C4, where the OCR backend raises.  With pytesseract unable to run
    Tesseract, the OCR extractor raises on page 3 of [sample.pdf] and leaves
    the document it opened (handle 0) open: [close()] was not called. *)
Theorem ocr_document_left_open_when_tesseract_fails :
  let run := pdf_page_text.extract_page_text_ocr Demo.rt_without_tesseract
               Demo.sample_pdf 3 "jpn+eng" initial_world in
  fst run = Raise (Exception "tesseract is not installed or it's not in your PATH.") /\
  In (Call_fitz_open "/work/sample.pdf") (trace (snd run)) /\
  live (snd run) = [0%N] /\
  ~ In (Call_close 0%N) (trace (snd run)).
Proof.
  vm_compute. repeat split; auto 10.
  intros H. repeat (destruct H as [H | H]; [discriminate H|]). exact H.
Qed.

(** ** Events a computation emits *)

Section Emits.

Variable P : event -> Prop.

Lemma emits_ret {A} (a : A) : emits P (ret a).
Proof. intros w. exists []. split; [reflexivity | constructor]. Qed.

Lemma emits_raise {A} (e : exn) : emits P (@raise A e).
Proof. intros w. exists []. split; [reflexivity | constructor]. Qed.

Lemma emits_lift {A} (o : outcome A) : emits P (lift o).
Proof. intros w. exists []. split; [reflexivity | constructor]. Qed.

Lemma emits_emit (ev : event) : P ev -> emits P (emit ev).
Proof. intros H w. exists [ev]. split; [reflexivity | repeat constructor; exact H]. Qed.

Lemma emits_acquire : emits P acquire.
Proof. intros w. exists []. split; [reflexivity | constructor]. Qed.

Lemma emits_fresh : emits P fresh.
Proof. intros w. exists []. split; [reflexivity | constructor]. Qed.

Lemma emits_release (h : handle) : emits P (release h).
Proof. intros w. exists []. split; [reflexivity | constructor]. Qed.

Lemma emits_bind {A B} (m : M A) (k : A -> M B) :
  emits P m -> (forall a, emits P (k a)) -> emits P (bind m k).
Proof.
  intros Hm Hk w. unfold bind.
  destruct (Hm w) as (n1 & E1 & F1). destruct (m w) as [[a | e] w1]; simpl in E1.
  - destruct (Hk a w1) as (n2 & E2 & F2). exists (n2 ++ n1)%list.
    rewrite E2, E1, app_assoc. split; [reflexivity | apply Forall_app; auto].
  - exists n1. auto.
Qed.

Lemma emits_bind_ret {A B} (a : A) (k : A -> M B) :
  emits P (k a) -> emits P (bind (ret a) k).
Proof. intros H w. exact (H w). Qed.

Lemma emits_bind_raise {A B} (e : exn) (k : A -> M B) :
  emits P (bind (raise e) k).
Proof. intros w. exists []. split; [reflexivity | constructor]. Qed.

Lemma emits_try_except {A} (body : M A) (handler : exn -> M A) :
  emits P body -> (forall e, emits P (handler e)) -> emits P (try_except body handler).
Proof.
  intros Hb Hh w. unfold try_except.
  destruct (Hb w) as (n1 & E1 & F1). destruct (body w) as [[a | e] w1]; simpl in E1.
  - exists n1. auto.
  - destruct (Hh e w1) as (n2 & E2 & F2). exists (n2 ++ n1)%list.
    rewrite E2, E1, app_assoc. split; [reflexivity | apply Forall_app; auto].
Qed.

Lemma emits_for_each {A S} (l : list A) (body : S -> A -> M S) (acc : S) :
  (forall acc x, emits P (body acc x)) -> emits P (for_each l body acc).
Proof.
  intros Hb. revert acc. induction l as [|x l IH]; intros acc; simpl.
  - apply emits_ret.
  - apply emits_bind; [apply Hb | exact IH].
Qed.

Lemma emits_with_emits {A} (ev : event) (m : M A) : emits_with P ev m -> emits P m.
Proof. intros H w. destruct (H w) as (new & E & F & _). eauto. Qed.

Lemma emits_with_emit {B} (ev : event) (k : unit -> M B) :
  P ev -> emits P (k tt) -> emits_with P ev (bind (emit ev) k).
Proof.
  intros Hev Hk w. unfold bind, emit.
  match goal with |- context [k tt ?w1] => destruct (Hk w1) as (n & E & F) end.
  exists (n ++ [ev])%list. rewrite E. cbn [trace]. rewrite <- app_assoc.
  split; [reflexivity|]. split.
  - apply Forall_app. split; [exact F | repeat constructor; exact Hev].
  - apply in_or_app. right. left. reflexivity.
Qed.

Lemma emits_with_bind {A B} (ev : event) (m : M A) (k : A -> M B) :
  emits_with P ev m -> (forall a, emits P (k a)) -> emits_with P ev (bind m k).
Proof.
  intros Hm Hk w. unfold bind.
  destruct (Hm w) as (n1 & E1 & F1 & I1). destruct (m w) as [[a | e] w1]; simpl in E1.
  - destruct (Hk a w1) as (n2 & E2 & F2). exists (n2 ++ n1)%list.
    rewrite E2, E1, app_assoc. split; [reflexivity|].
    split; [apply Forall_app; auto | apply in_or_app; auto].
  - exists n1. auto.
Qed.

End Emits.

(** One step of a proof that a program emits only events in [P]. *)
Ltac emits_step :=
  match goal with
  | |- emits _ (bind (ret _) _) => apply emits_bind_ret
  | |- emits _ (bind (raise _) _) => apply emits_bind_raise
  | |- emits _ (bind _ _) => apply emits_bind; [|intros]
  | |- emits _ (try_except _ _) => apply emits_try_except; [|intros]
  | |- emits _ (for_each _ _ _) => apply emits_for_each; intros
  | |- emits _ (ret _) => apply emits_ret
  | |- emits _ (raise _) => apply emits_raise
  | |- emits _ (lift _) => apply emits_lift
  | |- emits _ (emit _) => apply emits_emit; simpl; auto
  | |- emits _ acquire => apply emits_acquire
  | |- emits _ fresh => apply emits_fresh
  | |- emits _ (release _) => apply emits_release
  | |- emits _ (if ?c then _ else _) => destruct c
  | |- emits _ (match ?x with _ => _ end) => destruct x
  | |- emits _ _ =>
      progress unfold logging_info, logging_warning, logging_error, getitem,
        call_PdfReader, page_extract_text, call_pdfminer_extract_text, call_fitz_open,
        doc_close, page_get_pixmap, call_Image_frombytes, call_image_to_string,
        call_Image_open, Image_convert_to, Image_close, write_file, mkdir,
        pdf_to_image.to_RGB, pdf_to_image.save_pdf
  | |- emits _ _ => progress cbv beta zeta
  end.

Section Rasterizer.

Variable rt : runtime.

(** The rasterizer logs no warning, and renders only with the matrix that
    scales both axes by [dpi / 72.0]. *)
Lemma convert_page_emits (pdf_path output_dir : Path) (image_format : string)
    (dpi : Z) (doc : Document) (image_paths : list string) (page_num : Z) :
  emits (rasterizer_event dpi)
    (pdf_to_image.convert_page rt pdf_path output_dir image_format dpi doc image_paths
       page_num).
Proof.
  unfold pdf_to_image.convert_page, pdf_to_image.int_truediv_float.
  apply emits_bind; [repeat emits_step | intros page].
  destruct (float_of_int dpi) as [z|] eqn:Ez.
  - destruct (72 =? 0)%float; [repeat emits_step|].
    apply emits_bind_ret. cbv beta zeta.
    apply emits_bind.
    + unfold page_get_pixmap. apply emits_bind; [|intros; apply emits_lift].
      apply emits_emit. exists z. split; [exact Ez | reflexivity].
    + intros pix. repeat emits_step.
  - repeat emits_step.
Qed.

(** Its first act is to create the output directory. *)
Lemma convert_pdf_to_images_starts (pdf_path output_dir : Path) (image_format : string)
    (dpi : Z) (page_range : option (Z * Z)) :
  emits_with (rasterizer_event dpi) (Call_mkdir (path_str output_dir))
    (pdf_to_image.convert_pdf_to_images rt pdf_path output_dir image_format dpi
       page_range).
Proof.
  unfold pdf_to_image.convert_pdf_to_images.
  apply emits_with_bind.
  { unfold mkdir. apply emits_with_emit; [exact I | repeat emits_step]. }
  intros _.
  apply emits_try_except; [| intros; repeat emits_step].
  apply emits_bind; [repeat emits_step | intros doc]. cbv zeta.
  apply emits_bind; [repeat emits_step | intros _].
  apply emits_bind; [repeat emits_step | intros _].
  apply emits_bind; [| intros; repeat emits_step].
  apply emits_for_each. intros. apply convert_page_emits.
Qed.

Lemma convert_pdf_to_images_emits (pdf_path output_dir : Path) (image_format : string)
    (dpi : Z) (page_range : option (Z * Z)) :
  emits (rasterizer_event dpi)
    (pdf_to_image.convert_pdf_to_images rt pdf_path output_dir image_format dpi
       page_range).
Proof. apply emits_with_emits with (ev := Call_mkdir (path_str output_dir)),
         convert_pdf_to_images_starts. Qed.

Lemma images_to_pdf_emits (dpi : Z) (image_paths : list string) (output_pdf_path : string) :
  emits (rasterizer_event dpi) (pdf_to_image.images_to_pdf rt image_paths output_pdf_path).
Proof. unfold pdf_to_image.images_to_pdf. repeat emits_step. Qed.

End Rasterizer.

(** ** The DPI check of the rasterization command *)

Section DpiCheck.

Variable rt : runtime.
Variable args : pdf_to_image.arguments.

Let dpi : Z := pdf_to_image.args_dpi args.
Let outside : bool := (dpi <? 72) || (dpi >? 600).
Let pdf_path : Path := pdf_to_image.args_pdf args.

Lemma prelude_not_dpi_warning (ev : event) :
  prelude_event pdf_path ev -> ev <> dpi_warning dpi.
Proof.
  destruct ev as [[| |] msg| | | | | | | | | | | |]; simpl; try contradiction;
    unfold dpi_warning; intros H; [discriminate|].
  subst msg. intros H. injection H as H. discriminate H.
Qed.

Lemma rasterizer_not_dpi_warning (ev : event) :
  rasterizer_event dpi ev -> ev <> dpi_warning dpi.
Proof. intros H ->. exact H. Qed.

Lemma prelude_not_rendering (ev : event) (h : handle) (k : Z) (mat : Matrix) :
  prelude_event pdf_path ev -> ev <> Call_get_pixmap h k mat.
Proof. intros H ->. exact H. Qed.

Lemma validate_passes (w : world) :
  path_exists rt (path_str pdf_path) = true ->
  path_is_file rt (path_str pdf_path) = true ->
  exists w1 pre,
    pdf_to_image.validate_pdf_file rt pdf_path w = (Return tt, w1) /\
    trace w1 = (pre ++ trace w)%list /\ Forall (prelude_event pdf_path) pre.
Proof.
  intros He Hf. unfold pdf_to_image.validate_pdf_file. rewrite He, Hf. cbn [negb].
  destruct (negb _).
  - eexists. eexists. split; [reflexivity|]. split.
    + cbn [trace]. instantiate (1 := [_]). reflexivity.
    + repeat constructor.
  - exists w, []. repeat split. constructor.
Qed.

(** From the DPI check on: the warning is logged exactly when the DPI is
    outside 72..600, then the rasterizer runs with the DPI as given. *)
Lemma main_convert_events (image_format : string) (page_range : option (Z * Z))
    (w : world) :
  exists rest,
    trace (snd (pdf_to_image.main_convert rt args image_format page_range w))
    = (rest ++ (if outside then [dpi_warning dpi] else []) ++ trace w)%list /\
    Forall (rasterizer_event dpi) rest /\
    In (Call_mkdir (path_str (pdf_to_image.args_output_dir args))) rest.
Proof.
  unfold pdf_to_image.main_convert. fold dpi. fold outside.
  match goal with |- context [bind _ ?k0] => set (k := k0) end.
  assert (Hk : emits_with (rasterizer_event dpi)
                 (Call_mkdir (path_str (pdf_to_image.args_output_dir args))) (k tt)).
  { unfold k. apply emits_with_bind; [apply convert_pdf_to_images_starts|].
    intros paths. apply emits_bind; [| intros; repeat emits_step].
    destruct (pdf_to_image.args_create_pdf args); [|apply emits_ret].
    apply images_to_pdf_emits. }
  unfold bind at 1. destruct outside.
  - unfold logging_warning, emit.
    match goal with |- context [k tt ?w1] => destruct (Hk w1) as (rest & E & F & I) end.
    exists rest. rewrite E. auto.
  - unfold ret. destruct (Hk w) as (rest & E & F & I). exists rest. rewrite E. auto.
Qed.

Lemma outside_window : outside = true <-> dpi < 72 \/ dpi > 600.
Proof.
  unfold outside. rewrite orb_true_iff, Z.ltb_lt, Z.gtb_lt. lia.
Qed.

Lemma dpi_events_decomposed (A B : list event) (mk : event) :
  Forall (rasterizer_event dpi) A ->
  Forall (prelude_event pdf_path) B ->
  In mk A ->
  let new := (A ++ (if outside then [dpi_warning dpi] else []) ++ B)%list in
  (In (dpi_warning dpi) new <-> dpi < 72 \/ dpi > 600) /\
  In mk new /\
  (forall h k mat, In (Call_get_pixmap h k mat) new -> scales_by dpi mat).
Proof.
  intros FA FB Imk new. rewrite Forall_forall in FA, FB. unfold new.
  split; [|split].
  - rewrite <- outside_window. split.
    + intros H. apply in_app_or in H. destruct H as [H | H].
      * exfalso. exact (rasterizer_not_dpi_warning _ (FA _ H) eq_refl).
      * apply in_app_or in H. destruct H as [H | H].
        -- destruct outside; [reflexivity | destruct H].
        -- exfalso. exact (prelude_not_dpi_warning _ (FB _ H) eq_refl).
    + intros ->. apply in_or_app. right. left. reflexivity.
  - apply in_or_app. left. exact Imk.
  - intros h k mat H. apply in_app_or in H. destruct H as [H | H].
    + exact (FA _ H).
    + apply in_app_or in H. destruct H as [H | H].
      * destruct outside; [destruct H as [H | []]; discriminate H | destruct H].
      * exfalso. exact (prelude_not_rendering _ h k mat (FB _ H) eq_refl).
Qed.

End DpiCheck.

(** The [try] statement of [main] on a PDF file that exists, with a page
    range that is absent or valid: it yields an exit status, logs the DPI
    warning exactly when the DPI is below 72 or above 600, and in either
    case goes on to the rasterizer (the output directory is created) with
    the DPI as it was given: whatever is rendered is rendered with the
    matrix that scales both axes by [dpi / 72.0]. *)
Lemma dpi_check_events (rt : runtime)
    (args : pdf_to_image.arguments) (w : world) :
  path_exists rt (path_str (pdf_to_image.args_pdf args)) = true ->
  path_is_file rt (path_str (pdf_to_image.args_pdf args)) = true ->
  (forall s e, pdf_to_image.args_pages args = Some (s, e) -> 1 <= s <= e) ->
  let dpi := pdf_to_image.args_dpi args in
  exists code new,
    fst (pdf_to_image.main rt args w) = Return code /\
    trace (snd (pdf_to_image.main rt args w)) = (new ++ trace w)%list /\
    (In (dpi_warning dpi) new <-> dpi < 72 \/ dpi > 600) /\
    In (Call_mkdir (path_str (pdf_to_image.args_output_dir args))) new /\
    (forall h k mat, In (Call_get_pixmap h k mat) new -> scales_by dpi mat).
Proof.
  intros He Hf Hpages dpi.
  enough (exists code new w',
            pdf_to_image.main rt args w = (Return code, w') /\
            trace w' = (new ++ trace w)%list /\
            (In (dpi_warning dpi) new <-> dpi < 72 \/ dpi > 600) /\
            In (Call_mkdir (path_str (pdf_to_image.args_output_dir args))) new /\
            (forall h k mat, In (Call_get_pixmap h k mat) new -> scales_by dpi mat))
    as (code & new & w' & -> & H).
  { exists code, new. split; [reflexivity | exact H]. }
  unfold pdf_to_image.main, try_except.
  unfold bind at 1. unfold logging_info at 1. unfold emit at 1.
  match goal with
  | |- context [bind (pdf_to_image.validate_pdf_file _ _) _ ?w0] =>
      destruct (validate_passes rt args w0 He Hf) as (w1 & pre & Hv & Et & Fp);
      rewrite (bind_Return _ _ _ _ _ Hv)
  end.
  cbv zeta.
  match goal with
  | |- context [if ?c then "jpeg" else "png"] =>
      set (image_format := if c then "jpeg" else "png")
  end.
  assert (Hbody : exists page_range,
    match pdf_to_image.args_pages args with
    | Some (start_page, end_page) =>
        if start_page <? 1 then
          logging_error "開始ページは1以上である必要があります" ;; ret 1
        else if end_page <? start_page then
          logging_error "終了ページは開始ページ以上である必要があります" ;; ret 1
        else pdf_to_image.main_convert rt args image_format (Some (start_page, end_page))
    | None => pdf_to_image.main_convert rt args image_format None
    end = pdf_to_image.main_convert rt args image_format page_range).
  { destruct (pdf_to_image.args_pages args) as [[s e]|]; [|eauto].
    specialize (Hpages s e eq_refl).
    replace (s <? 1) with false by (symmetry; apply Z.ltb_ge; lia).
    replace (e <? s) with false by (symmetry; apply Z.ltb_ge; lia).
    eauto. }
  destruct Hbody as (page_range & ->).
  destruct (main_convert_events rt args image_format page_range w1)
    as (rest & E & F & Imk).
  cbn [trace] in Et.
  destruct (pdf_to_image.main_convert rt args image_format page_range w1)
    as [[code | e] w2]; cbn [snd] in E; cbv beta iota.
  - exists code, (rest ++ (if (dpi <? 72) || (dpi >? 600) then [dpi_warning dpi] else [])
                  ++ pre ++ [Log INFO "PDF画像変換を開始します..."])%list, w2.
    split; [reflexivity|]. split.
    + rewrite E, Et, <- !app_assoc. reflexivity.
    + apply (dpi_events_decomposed args); auto.
      apply Forall_app. split; [exact Fp | repeat constructor].
  - assert (Hhandler : exists msg,
      match e with
      | FileNotFoundError _ | ValueError _ => logging_error (str_of_exn e) ;; ret 1
      | PermissionError _ =>
          logging_error ("ファイルへのアクセス権限がありません: " ++ str_of_exn e) ;; ret 1
      | _ => logging_error ("予期しないエラーが発生しました: " ++ str_of_exn e) ;; ret 1
      end w2
      = (Return 1, {| trace := Log ERROR msg :: trace w2; live := live w2;
                      next_handle := next_handle w2 |})).
    { destruct e; eexists; reflexivity. }
    destruct Hhandler as (msg & ->).
    eexists 1, ((Log ERROR msg :: rest)
                ++ (if (dpi <? 72) || (dpi >? 600) then [dpi_warning dpi] else [])
                ++ pre ++ [Log INFO "PDF画像変換を開始します..."])%list, _.
    split; [reflexivity|]. split.
    + cbn [trace]. rewrite E, Et, <- !app_assoc. reflexivity.
    + apply (dpi_events_decomposed args).
      * constructor; [exact Logic.I | exact F].
      * apply Forall_app. split; [exact Fp | repeat constructor].
      * right. exact Imk.
Qed.

(** C8, as the specification words it, fails.  With [--dpi 1200] the command
    logs the warning, exits with status 0, and renders page 1 of
    [sample.pdf] with the matrix that scales by [1200 / 72.0]; that is not
    the matrix of the clamped value 600. *)
Lemma dpi_1200_is_not_clamped :
  let run := pdf_to_image.main Demo.rt Demo.args_dpi_1200 initial_world in
  clamp_dpi 1200 = 600 /\
  fst run = Return 0 /\
  In (dpi_warning 1200) (trace (snd run)) /\
  exists mat,
    In (Call_get_pixmap 0%N 0 mat) (trace (snd run)) /\
    scales_by 1200 mat /\
    ~ scales_by (clamp_dpi 1200) mat.
Proof.
  cbv zeta. split; [reflexivity|]. split; [vm_compute; reflexivity|].
  split; [vm_compute; repeat first [left; reflexivity | right]|].
  exists {| zoom_x := 1200 / 72; zoom_y := 1200 / 72 |}. split; [|split].
  - vm_compute. repeat first [left; reflexivity | right].
  - exists 1200%float. split; vm_compute; reflexivity.
  - intros (z & Hz & Hm). apply (f_equal zoom_x) in Hm. cbn [zoom_x] in Hm.
    replace z with 600%float in Hm by (vm_compute in Hz; congruence).
    vm_compute in Hm. discriminate Hm.
Qed.

(** ** The image-to-PDF assembler *)

Lemma writes_cons (ev : event) (t : list event) :
  writes (ev :: t)
  = (writes t ++ match ev with Wrote p f => [(p, f)] | _ => [] end)%list.
Proof.
  unfold writes. cbn [rev]. rewrite flat_map_app. cbn [flat_map].
  rewrite app_nil_r. reflexivity.
Qed.

Section RaisesWithin.

Variable P : event -> Prop.

Lemma raises_within_raise {A} (e : exn) : raises_within P (@raise A e).
Proof.
  intros w e' w' H. injection H as _ <-. exists []. split; [reflexivity | constructor].
Qed.

Lemma raises_within_total {A} (m : M A) : total m -> raises_within P m.
Proof. intros Ht w e w' H. destruct (Ht w) as (a & w1 & E). congruence. Qed.

Lemma raises_within_bind {A B} (m : M A) (k : A -> M B) :
  emits P m -> (forall a, raises_within P (k a)) -> raises_within P (bind m k).
Proof.
  intros Hm Hk w e w'. unfold bind.
  destruct (Hm w) as (n1 & E1 & F1). destruct (m w) as [[a | e1] w1]; simpl in E1.
  - intros H. destruct (Hk a w1 e w' H) as (n2 & E2 & F2).
    exists (n2 ++ n1)%list. rewrite E2, E1, app_assoc.
    split; [reflexivity | apply Forall_app; auto].
  - intros H. injection H as _ <-. exists n1. auto.
Qed.

Lemma raises_within_logged {A} (body : M A) (msg : exn -> string) :
  (forall s, P (Log ERROR s)) ->
  raises_within P body ->
  raises_within P (try_except body (fun e => logging_error (msg e) ;; raise e)).
Proof.
  intros Hlog Hb w e w'. unfold try_except.
  destruct (body w) as [[a | e1] w1] eqn:E; [discriminate|].
  intros H. injection H as <- <-.
  destruct (Hb w e1 w1 E) as (n & En & Fn).
  exists (Log ERROR (msg e1) :: n). cbn [trace]. rewrite En.
  split; [reflexivity | constructor; auto].
Qed.

End RaisesWithin.

Lemma total_bind {A B} (m : M A) (k : A -> M B) :
  total m -> (forall a, total (k a)) -> total (bind m k).
Proof.
  intros Hm Hk w. destruct (Hm w) as (a & w1 & E).
  rewrite (bind_Return _ _ _ _ _ E). apply Hk.
Qed.

Lemma total_Image_close (img : Image) : total (Image_close img).
Proof. intros w. eexists. eexists. reflexivity. Qed.

Lemma total_close_all (images : list Image) :
  total (for_each images (fun _ img => Image_close img) tt).
Proof.
  induction images as [|img images IH]; simpl.
  - intros w. eexists. eexists. reflexivity.
  - apply total_bind; [apply total_Image_close | intros []; exact IH].
Qed.

(** Whenever the assembler raises, it has called [close()] on no image: the
    images it opened before the failure stay open. *)
Lemma images_to_pdf_raises_without_closing (rt : runtime) (image_paths : list string)
    (output_pdf_path : string) :
  raises_within not_close (pdf_to_image.images_to_pdf rt image_paths output_pdf_path).
Proof.
  unfold pdf_to_image.images_to_pdf.
  apply raises_within_logged; [intros; exact I |].
  destruct image_paths as [|first_path rest]; [apply raises_within_raise|].
  apply raises_within_bind; [repeat emits_step | intros _].
  apply raises_within_bind; [repeat emits_step | intros first_image].
  apply raises_within_bind; [repeat emits_step | intros images].
  apply raises_within_bind; [repeat emits_step | intros first_image'].
  apply raises_within_bind; [repeat emits_step | intros _].
  apply raises_within_total.
  apply total_bind; [apply total_Image_close | intros _].
  apply total_bind; [apply total_close_all | intros _].
  intros w. eexists. eexists. reflexivity.
Qed.

(** C9, where a later image cannot be opened.  [a.png] is opened (handle 0),
    opening the second file raises, and the assembler raises in turn with
    the first image still open: [close()] was not called. *)
Theorem image_left_open_when_later_open_fails :
  let run := pdf_to_image.images_to_pdf Demo.rt ["/work/a.png"; "/work/missing.png"]
               "/work/out.pdf" initial_world in
  fst run = Raise (FileNotFoundError "/work/missing.png") /\
  In (Call_Image_open "/work/a.png") (trace (snd run)) /\
  live (snd run) = [0%N] /\
  ~ In (Call_close 0%N) (trace (snd run)).
Proof.
  vm_compute. repeat split; auto 10.
  intros H. repeat (destruct H as [H | H]; [discriminate H|]). exact H.
Qed.

Section Assembler.

Variable rt : runtime.

Lemma opened_as_RGB_inv (path : string) (pg : image) :
  opened_as_RGB rt path = Some pg ->
  exists i, Image_open rt path = Return i /\
            ((mode i =? "RGB")%string = true /\ pg = i \/
             (mode i =? "RGB")%string = false /\ Image_convert rt i "RGB" = Return pg).
Proof.
  unfold opened_as_RGB. destruct (Image_open rt path) as [i | e]; [|discriminate].
  intros H. exists i. split; [reflexivity|].
  destruct (mode i =? "RGB")%string.
  - left. split; [reflexivity | congruence].
  - right. split; [reflexivity|].
    destruct (Image_convert rt i "RGB"); [congruence | discriminate].
Qed.

Lemma opened_as_RGB_mode (path : string) (pg : image) :
  convert_sets_mode rt -> opened_as_RGB rt path = Some pg -> mode pg = "RGB".
Proof.
  intros Hc H. apply opened_as_RGB_inv in H.
  destruct H as (i & _ & [[Hm ->] | [_ Hconv]]).
  - apply String.eqb_eq. exact Hm.
  - exact (Hc _ _ _ Hconv).
Qed.

(** Opening a file and bringing the image to RGB writes nothing and yields
    the page [opened_as_RGB] names. *)
Lemma call_Image_open_run (path : string) (i : image) (w : world) :
  Image_open rt path = Return i ->
  exists img w', call_Image_open rt path w = (Return img, w') /\ im img = i /\
                 writes (trace w') = writes (trace w).
Proof.
  intros H. unfold call_Image_open. run_monad. rewrite H. cbv beta iota zeta.
  eexists. eexists. split; [reflexivity|]. split; [reflexivity|].
  cbn [trace]. rewrite writes_cons, app_nil_r. reflexivity.
Qed.

Lemma to_RGB_run (img : Image) (pg : image) (w : world) :
  (mode (im img) =? "RGB")%string = true /\ pg = im img \/
  (mode (im img) =? "RGB")%string = false /\ Image_convert rt (im img) "RGB" = Return pg ->
  exists img' w', pdf_to_image.to_RGB rt img w = (Return img', w') /\ im img' = pg /\
                  writes (trace w') = writes (trace w).
Proof.
  unfold pdf_to_image.to_RGB, Image_convert_to.
  intros [[-> ->] | [-> H]]; cbn [negb].
  - exists img, w. auto.
  - run_monad. rewrite H. cbv beta iota zeta.
    eexists. eexists. split; [reflexivity|]. split; [reflexivity|].
    cbn [trace]. rewrite writes_cons, app_nil_r. reflexivity.
Qed.

Lemma open_loop_run (rest : list string) (pages : list image) :
  Forall2 (fun p pg => opened_as_RGB rt p = Some pg) rest pages ->
  forall (acc : list Image) (w : world),
  exists imgs w',
    for_each rest
      (fun images img_path =>
         img <- call_Image_open rt img_path ;;
         img <- pdf_to_image.to_RGB rt img ;;
         ret (images ++ [img])%list) acc w
    = (Return (acc ++ imgs)%list, w') /\
    map im imgs = pages /\
    writes (trace w') = writes (trace w).
Proof.
  induction 1 as [|p pg rest pages Hp _ IH]; intros acc w; cbn [for_each].
  - exists [], w. rewrite app_nil_r. auto.
  - apply opened_as_RGB_inv in Hp. destruct Hp as (i & Hopen & Hrgb).
    destruct (call_Image_open_run p i w Hopen) as (img & w1 & E1 & <- & W1).
    destruct (to_RGB_run img pg w1 Hrgb) as (img' & w2 & E2 & <- & W2).
    destruct (IH (acc ++ [img'])%list w2) as (imgs & w3 & E3 & <- & W3).
    exists (img' :: imgs), w3. split; [|split].
    + assert (Hbody :
        (img <- call_Image_open rt p ;;
         img <- pdf_to_image.to_RGB rt img ;;
         ret (acc ++ [img])%list) w = (Return (acc ++ [img'])%list, w2)).
      { rewrite (bind_Return _ _ _ _ _ E1), (bind_Return _ _ _ _ _ E2). reflexivity. }
      rewrite (bind_Return _ _ _ _ _ Hbody), E3, <- app_assoc. reflexivity.
    + reflexivity.
    + congruence.
Qed.

Lemma close_all_run (images : list Image) (w : world) :
  exists w', for_each images (fun _ img => Image_close img) tt w = (Return tt, w') /\
             writes (trace w') = writes (trace w).
Proof.
  revert w. induction images as [|img images IH]; intros w; cbn [for_each].
  - exists w. auto.
  - assert (Hclose : Image_close img w
                     = (Return tt,
                        {| trace := Call_close (im_id img) :: trace w;
                           live := filter (fun h' => negb (h' =? im_id img)%N) (live w);
                           next_handle := next_handle w |})) by reflexivity.
    rewrite (bind_Return _ _ _ _ _ Hclose).
    match goal with |- context [for_each _ _ tt ?w1] => destruct (IH w1) as (w' & E & W) end.
    exists w'. split; [exact E|]. rewrite W. cbn [trace].
    rewrite writes_cons, app_nil_r. reflexivity.
Qed.

End Assembler.

Lemma bind_emit {B} (ev : event) (k : unit -> M B) (w : world) :
  bind (emit ev) k w
  = k tt {| trace := ev :: trace w; live := live w; next_handle := next_handle w |}.
Proof. reflexivity. Qed.

Lemma Image_close_run (img : Image) (w : world) :
  Image_close img w
  = (Return tt,
     {| trace := Call_close (im_id img) :: trace w;
        live := filter (fun h' => negb (h' =? im_id img)%N) (live w);
        next_handle := next_handle w |}).
Proof. reflexivity. Qed.

(** C6.  Assembling images into a PDF.  On the empty list the assembler
    raises [ValueError] and writes no file.  On a non-empty list of image
    files that open (and convert, where the mode is not RGB), with the
    output writable, it returns, and the one file it writes is the PDF at
    the output path whose pages are the images in the order of the list,
    each as opened if its mode is RGB and converted to RGB otherwise, at
    resolution 150; every page has mode RGB. *)
Theorem assemble_images (rt : runtime) (image_paths : list string)
    (output_pdf_path : string) (pages : list image) (w : world) :
  let run := pdf_to_image.images_to_pdf rt image_paths output_pdf_path w in
  (image_paths = [] ->
   fst run = Raise (ValueError "画像ファイルのリストが空です") /\
   writes (trace (snd run)) = writes (trace w)) /\
  (image_paths <> [] ->
   write_error rt output_pdf_path = None ->
   convert_sets_mode rt ->
   Forall2 (fun path page => opened_as_RGB rt path = Some page) image_paths pages ->
   fst run = Return tt /\
   writes (trace (snd run))
   = (writes (trace w) ++ [(output_pdf_path, PdfFile pages 150)])%list /\
   Forall (fun page => mode page = "RGB") pages).
Proof.
  cbv zeta. split.
  - intros ->. unfold pdf_to_image.images_to_pdf. run_monad. cbn [fst snd trace].
    split; [reflexivity|]. rewrite writes_cons, app_nil_r. reflexivity.
  - intros Hne Hwrite Hconv Hall.
    destruct Hall as [|p0 pg0 rest pgs Hp0 Hrest]; [contradiction|].
    assert (Hmodes : Forall (fun page => mode page = "RGB") (pg0 :: pgs)).
    { constructor; [exact (opened_as_RGB_mode rt _ _ Hconv Hp0)|].
      clear -Hconv Hrest. induction Hrest; constructor; eauto using opened_as_RGB_mode. }
    enough (exists w', pdf_to_image.images_to_pdf rt (p0 :: rest) output_pdf_path w
                       = (Return tt, w') /\
                       writes (trace w')
                       = (writes (trace w)
                          ++ [(output_pdf_path, PdfFile (pg0 :: pgs) 150)])%list)
      as (w' & -> & Hw) by auto.
    unfold pdf_to_image.images_to_pdf, try_except, logging_info.
    rewrite bind_emit.
    apply opened_as_RGB_inv in Hp0. destruct Hp0 as (i0 & Hopen & Hrgb).
    match goal with
    | |- context [bind (call_Image_open rt p0) _ ?w0] =>
        destruct (call_Image_open_run rt p0 i0 w0 Hopen) as (first & w1 & E1 & <- & W1)
    end.
    rewrite (bind_Return _ _ _ _ _ E1).
    destruct (open_loop_run rt rest pgs Hrest [] w1) as (imgs & w2 & E2 & <- & W2).
    rewrite (bind_Return _ _ _ _ _ E2).
    destruct (to_RGB_run rt first pg0 w2 Hrgb) as (first' & w3 & E3 & <- & W3).
    rewrite (bind_Return _ _ _ _ _ E3).
    unfold pdf_to_image.save_pdf, write_file. rewrite Hwrite, bind_emit.
    rewrite (bind_Return _ _ _ _ _ (Image_close_run first' _)).
    change ([] ++ imgs)%list with imgs.
    match goal with
    | |- context [bind (for_each imgs _ tt) _ ?w5] =>
        destruct (close_all_run imgs w5) as (w6 & E6 & W6)
    end.
    rewrite (bind_Return _ _ _ _ _ E6). unfold emit.
    eexists. split; [reflexivity|].
    cbn [trace app]. rewrite writes_cons, app_nil_r, W6. cbn [trace].
    rewrite writes_cons, app_nil_r, writes_cons, W3, W2, W1. cbn [trace].
    rewrite writes_cons, app_nil_r. reflexivity.
Qed.

Lemma assemble_images_witness :
  let run := pdf_to_image.images_to_pdf Demo.rt
               ["/work/a.png"; "/work/b.png"; "/work/c.png"] "/work/out.pdf"
               initial_world in
  fst run = Return tt /\
  writes (trace (snd run))
  = (writes (trace initial_world)
     ++ [("/work/out.pdf",
          PdfFile [Demo.rgb [1%N]; Demo.rgb [2%N]; Demo.rgb [3%N]] 150)])%list /\
  Forall (fun page => mode page = "RGB")
         [Demo.rgb [1%N]; Demo.rgb [2%N]; Demo.rgb [3%N]].
Proof.
  apply (assemble_images Demo.rt ["/work/a.png"; "/work/b.png"; "/work/c.png"]
           "/work/out.pdf" [Demo.rgb [1%N]; Demo.rgb [2%N]; Demo.rgb [3%N]]
           initial_world).
  - discriminate.
  - reflexivity.
  - apply Demo_convert_sets_mode.
  - repeat constructor.
Defined.

(** ** Two runs of the same program *)

Lemma agree_refl {A} (o : outcome A) : agree eq o o.
Proof. destruct o; reflexivity. Qed.

Section Related.

Lemma related_ret {A B} (R : A -> B -> Prop) (a : A) (b : B) :
  R a b -> related R (ret a) (ret b).
Proof. intros H w1 w2. exists [], []. repeat split. exact H. Qed.

Lemma related_raise {A B} (R : A -> B -> Prop) (e : exn) :
  related R (raise e) (raise e).
Proof. intros w1 w2. exists [], []. repeat split. Qed.

Lemma related_lift {A} (o : outcome A) : related eq (lift o) (lift o).
Proof. intros w1 w2. exists [], []. repeat split. apply agree_refl. Qed.

Lemma related_emit (ev1 ev2 : event) :
  erase ev1 = erase ev2 -> related eq (emit ev1) (emit ev2).
Proof.
  intros H w1 w2. exists [ev1], [ev2]. repeat split. cbn [map]. rewrite H. reflexivity.
Qed.

Lemma related_acquire : related (fun _ _ => True) acquire acquire.
Proof. intros w1 w2. exists [], []. repeat split. Qed.

Lemma related_fresh : related (fun _ _ => True) fresh fresh.
Proof. intros w1 w2. exists [], []. repeat split. Qed.

Lemma related_release (h1 h2 : handle) : related eq (release h1) (release h2).
Proof. intros w1 w2. exists [], []. repeat split. Qed.

Lemma related_bind {A1 A2 B1 B2} (RA : A1 -> A2 -> Prop) (RB : B1 -> B2 -> Prop)
    (m1 : M A1) (m2 : M A2) (k1 : A1 -> M B1) (k2 : A2 -> M B2) :
  related RA m1 m2 ->
  (forall a1 a2, RA a1 a2 -> related RB (k1 a1) (k2 a2)) ->
  related RB (bind m1 k1) (bind m2 k2).
Proof.
  intros Hm Hk w1 w2. unfold bind.
  destruct (Hm w1 w2) as (n1 & n2 & E1 & E2 & En & Ho).
  destruct (m1 w1) as [[a1 | e1] v1], (m2 w2) as [[a2 | e2] v2];
    cbn [fst snd] in *; try contradiction.
  - destruct (Hk a1 a2 Ho v1 v2) as (p1 & p2 & F1 & F2 & Fn & Hp).
    exists (p1 ++ n1)%list, (p2 ++ n2)%list.
    rewrite F1, F2, E1, E2, !app_assoc, !map_app, Fn, En. auto.
  - exists n1, n2. auto.
Qed.

Lemma related_try_except {A B} (R : A -> B -> Prop) (b1 : M A) (b2 : M B)
    (h1 : exn -> M A) (h2 : exn -> M B) :
  related R b1 b2 ->
  (forall e, related R (h1 e) (h2 e)) ->
  related R (try_except b1 h1) (try_except b2 h2).
Proof.
  intros Hb Hh w1 w2. unfold try_except.
  destruct (Hb w1 w2) as (n1 & n2 & E1 & E2 & En & Ho).
  destruct (b1 w1) as [[a1 | e1] v1], (b2 w2) as [[a2 | e2] v2];
    cbn [fst snd] in *; try contradiction.
  - exists n1, n2. auto.
  - cbn [agree] in Ho. subst e2. destruct (Hh e1 v1 v2) as (p1 & p2 & F1 & F2 & Fn & Hp).
    exists (p1 ++ n1)%list, (p2 ++ n2)%list.
    rewrite F1, F2, E1, E2, !app_assoc, !map_app, Fn, En. auto.
Qed.

Lemma related_for_each {X S1 S2} (R : S1 -> S2 -> Prop) (l : list X)
    (body1 : S1 -> X -> M S1) (body2 : S2 -> X -> M S2) :
  (forall s1 s2 x, R s1 s2 -> related R (body1 s1 x) (body2 s2 x)) ->
  forall s1 s2, R s1 s2 -> related R (for_each l body1 s1) (for_each l body2 s2).
Proof.
  intros Hb. induction l as [|x l IH]; intros s1 s2 Hs; cbn [for_each].
  - apply related_ret. exact Hs.
  - eapply related_bind; [apply Hb; exact Hs | exact IH].
Qed.

End Related.

(** One step of a proof that two runs of a program do the same. *)
Ltac related_step :=
  match goal with
  | |- related _ (bind (raise _) _) (bind (raise _) _) =>
      eapply related_bind; [apply related_raise | intros ? ? []]
  | |- related _ (bind acquire _) (bind acquire _) =>
      eapply related_bind; [apply related_acquire | intros ? ? _]
  | |- related _ (bind fresh _) (bind fresh _) =>
      eapply related_bind; [apply related_fresh | intros ? ? _]
  | |- related _ (bind _ _) (bind _ _) =>
      apply related_bind with (RA := eq); [|intros ? ? ?]
  | |- related _ (try_except _ _) (try_except _ _) =>
      apply related_try_except; [|intros ?]
  | |- related _ (ret _) (ret _) => apply related_ret; auto
  | |- related _ (raise _) (raise _) => apply related_raise
  | |- related _ (lift _) (lift _) => apply related_lift
  | |- related _ (emit _) (emit _) => apply related_emit; reflexivity
  | |- related _ acquire acquire => apply related_acquire
  | |- related _ fresh fresh => apply related_fresh
  | |- related _ (release _) (release _) => apply related_release
  | H : ?a = ?b |- related _ _ _ => is_var b; subst b
  | H : ?a = ?b |- related _ _ _ => is_var a; subst a
  | |- related _ (if ?c then _ else _) (if ?c then _ else _) => destruct c
  | |- related _ (match ?x with _ => _ end) (match ?x with _ => _ end) => destruct x
  | |- related _ _ _ =>
      progress unfold logging_info, logging_warning, logging_error, getitem,
        call_fitz_open, doc_close, page_get_pixmap, call_Image_frombytes,
        call_Image_open, Image_convert_to, Image_close, write_file, mkdir
  | |- related _ _ _ => progress cbv beta zeta
  end.

Section Determinism.

Variable rt : runtime.

Lemma related_call_fitz_open (path : string) :
  related (fun d1 d2 => doc_pages d1 = doc_pages d2)
          (call_fitz_open rt path) (call_fitz_open rt path).
Proof. repeat related_step. Qed.

Lemma related_call_Image_frombytes (md : string) (sz : Z * Z) (data : list N) :
  related (fun i1 i2 => im i1 = im i2)
          (call_Image_frombytes rt md sz data) (call_Image_frombytes rt md sz data).
Proof. repeat related_step. Qed.

Lemma related_convert_page (pdf_path output_dir : Path) (image_format : string)
    (dpi : Z) (doc1 doc2 : Document) (image_paths : list string) (page_num : Z) :
  doc_pages doc1 = doc_pages doc2 ->
  related eq
    (pdf_to_image.convert_page rt pdf_path output_dir image_format dpi doc1 image_paths
       page_num)
    (pdf_to_image.convert_page rt pdf_path output_dir image_format dpi doc2 image_paths
       page_num).
Proof.
  intros Hpages. unfold pdf_to_image.convert_page, pdf_to_image.int_truediv_float.
  rewrite Hpages.
  apply related_bind with (RA := eq); [repeat related_step | intros page ? <-].
  apply related_bind with (RA := eq); [repeat related_step | intros zoom ? <-].
  cbv zeta.
  apply related_bind with (RA := eq); [repeat related_step | intros pix ? <-].
  apply related_bind with (RA := eq); [| intros; repeat related_step].
  destruct (lower image_format =? "png")%string; [repeat related_step|].
  destruct ((lower image_format =? "jpg")%string || (lower image_format =? "jpeg")%string);
    [|repeat related_step].
  eapply related_bind; [apply related_call_Image_frombytes | intros img1 img2 Him].
  rewrite Him. repeat related_step.
Qed.

(** Run from any two worlds, the rasterizer has the same outcome and adds
    the same events up to the name of the document handle. *)
Lemma related_convert_pdf_to_images (pdf_path output_dir : Path) (image_format : string)
    (dpi : Z) (page_range : option (Z * Z)) :
  related eq
    (pdf_to_image.convert_pdf_to_images rt pdf_path output_dir image_format dpi
       page_range)
    (pdf_to_image.convert_pdf_to_images rt pdf_path output_dir image_format dpi
       page_range).
Proof.
  unfold pdf_to_image.convert_pdf_to_images.
  apply related_bind with (RA := eq); [repeat related_step | intros _ _ _].
  apply related_try_except; [| intros; repeat related_step].
  eapply related_bind; [apply related_call_fitz_open | intros doc1 doc2 Hdoc].
  cbv zeta. rewrite Hdoc.
  apply related_bind with (RA := eq); [repeat related_step | intros _ _ _].
  apply related_bind with (RA := eq); [repeat related_step | intros _ _ _].
  apply related_bind with (RA := eq).
  - apply related_for_each with (R := eq); [|reflexivity].
    intros s1 s2 x <-. apply related_convert_page. exact Hdoc.
  - intros paths ? <-. repeat related_step.
Qed.

End Determinism.

(** ** Pages rendered, in order *)

Lemma renders_cons (ev : event) (t : list event) :
  renders (ev :: t)
  = (renders t ++ match ev with Call_get_pixmap _ k m => [(k, m)] | _ => [] end)%list.
Proof.
  unfold renders. cbn [rev]. rewrite flat_map_app. cbn [flat_map].
  rewrite app_nil_r. reflexivity.
Qed.

(** [range(a, b)] lists the integers from [a] up to [b - 1], ascending. *)
Lemma range_In (a b k : Z) : In k (range a b) <-> a <= k < b.
Proof.
  unfold range. rewrite in_map_iff. split.
  - intros (i & <- & Hi). apply in_seq in Hi. lia.
  - intros H. exists (Z.to_nat (k - a)). split; [lia|]. apply in_seq. lia.
Qed.

Lemma range_ascending (a b : Z) (i j : nat) (x y : Z) :
  nth_error (range a b) i = Some x -> nth_error (range a b) j = Some y ->
  (i < j)%nat -> x < y.
Proof.
  unfold range. rewrite !nth_error_map, !nth_error_seq. intros Hx Hy Hij.
  destruct (i <? Z.to_nat (b - a))%nat; [|discriminate].
  destruct (j <? Z.to_nat (b - a))%nat; [|discriminate].
  cbn in Hx, Hy. injection Hx as <-. injection Hy as <-. lia.
Qed.

Lemma writes_erase (l : list event) : writes (map erase l) = writes l.
Proof.
  unfold writes. rewrite <- map_rev. induction (rev l) as [|ev t IH]; [reflexivity|].
  cbn [map flat_map]. rewrite IH. destruct ev; reflexivity.
Qed.

Lemma same_events_same_writes (new1 new2 : list event) :
  map erase new1 = map erase new2 -> writes new1 = writes new2.
Proof. intros H. rewrite <- (writes_erase new1), H. apply writes_erase. Qed.

Section RenderingRun.

Variable rt : runtime.

Lemma call_fitz_open_returns (path : string) (w w' : world) (doc : Document) :
  call_fitz_open rt path w = (Return doc, w') ->
  fitz_open rt path = Return (doc_pages doc) /\ renders (trace w') = renders (trace w).
Proof.
  unfold call_fitz_open. run_monad. destruct (fitz_open rt path); [|discriminate].
  cbv beta iota zeta. intros H. injection H as <- <-. split; [reflexivity|].
  cbn [trace]. rewrite renders_cons. apply app_nil_r.
Qed.

End RenderingRun.

(** The rasterizer keeps nothing from one call to the next.  Run from any
    two worlds, so also twice in a row, with the same libraries and disk,
    [convert_pdf_to_images] has the same outcome, the same list of paths or
    the same exception, does the same things up to the name of the document
    handle, and writes the same files. *)
Lemma rasterizer_keeps_no_state (rt : runtime) (pdf_path output_dir : Path)
    (image_format : string) (dpi : Z) (page_range : option (Z * Z)) (w1 w2 : world) :
  let run := pdf_to_image.convert_pdf_to_images rt pdf_path output_dir image_format dpi
               page_range in
  exists new1 new2,
    trace (snd (run w1)) = (new1 ++ trace w1)%list /\
    trace (snd (run w2)) = (new2 ++ trace w2)%list /\
    map erase new1 = map erase new2 /\
    writes new1 = writes new2 /\
    agree eq (fst (run w1)) (fst (run w2)).
Proof.
  cbv zeta.
  destruct (related_convert_pdf_to_images rt pdf_path output_dir image_format dpi
              page_range w1 w2) as (new1 & new2 & E1 & E2 & En & Ho).
  exists new1, new2. split; [exact E1|]. split; [exact E2|]. split; [exact En|].
  split; [exact (same_events_same_writes _ _ En) | exact Ho].
Qed.

(** * Further properties of [pdf_page_text.py] *)

(** ** The three extractors *)

Section ExtractorEffects.

Variable rt : runtime.
Variable pdf_path : Path.

Lemma pypdf_emits (page_number : Z) :
  emits text_layer_event
    (pdf_page_text.extract_page_text_pypdf rt pdf_path page_number).
Proof. unfold pdf_page_text.extract_page_text_pypdf. repeat emits_step. Qed.

Lemma pdfminer_emits (page_number : Z) :
  emits text_layer_event
    (pdf_page_text.extract_page_text_pdfminer rt pdf_path page_number).
Proof. unfold pdf_page_text.extract_page_text_pdfminer. repeat emits_step. Qed.

Lemma emits_weaken (P Q : event -> Prop) {A} (m : M A) :
  (forall ev, P ev -> Q ev) -> emits P m -> emits Q m.
Proof.
  intros HPQ Hm w. destruct (Hm w) as (new & E & F). exists new. split; [exact E|].
  apply Forall_impl with (P := P); assumption.
Qed.

Lemma pypdf_emits_extraction (page_number : Z) :
  emits (extraction_event pdf_path)
    (pdf_page_text.extract_page_text_pypdf rt pdf_path page_number).
Proof.
  unfold pdf_page_text.extract_page_text_pypdf. repeat emits_step.
Qed.

Lemma pdfminer_emits_extraction (page_number : Z) :
  emits (extraction_event pdf_path)
    (pdf_page_text.extract_page_text_pdfminer rt pdf_path page_number).
Proof.
  unfold pdf_page_text.extract_page_text_pdfminer. repeat emits_step.
  split; [reflexivity | eexists; reflexivity].
Qed.

Lemma ocr_emits_extraction (page_number : Z) :
  emits (extraction_event pdf_path)
    (pdf_page_text.extract_page_text_ocr rt pdf_path page_number
       pdf_page_text.default_lang).
Proof. unfold pdf_page_text.extract_page_text_ocr. repeat emits_step. Qed.

End ExtractorEffects.

(** X1.  What text extraction does to the outside.  Whatever the engine,
    the page and the libraries' answers, every event [extract_page_text]
    adds is a log record, a read of the given PDF file (pypdf, pdfminer
    with a single page index, PyMuPDF), a rendering with the matrix that
    scales both axes by [150 / 72.0], the construction of an RGB image, an
    OCR call with languages ['jpn+eng'], or a [close()]; it writes no file
    and opens no other file. *)
Theorem extraction_effects (rt : runtime) (pdf_path : Path) (page_number : Z)
    (engine : string) (w : world) :
  exists new,
    trace (snd (pdf_page_text.extract_page_text rt pdf_path page_number engine w))
    = (new ++ trace w)%list /\
    Forall (extraction_event pdf_path) new.
Proof.
  revert w. change (emits (extraction_event pdf_path)
                      (pdf_page_text.extract_page_text rt pdf_path page_number engine)).
  unfold pdf_page_text.extract_page_text.
  destruct (engine =? "ocr")%string; [apply ocr_emits_extraction|].
  apply emits_bind.
  - destruct (engine =? "pypdf")%string; [apply pypdf_emits_extraction|].
    destruct (engine =? "pdfminer")%string; [apply pdfminer_emits_extraction|].
    apply emits_raise.
  - intros text. destruct (pdf_page_text.no_text text); [|apply emits_ret].
    destruct (PYMUPDF_AVAILABLE rt && PYTESSERACT_AVAILABLE rt); [|repeat emits_step].
    apply emits_bind; [repeat emits_step | intros _].
    apply emits_try_except; [| intros; repeat emits_step].
    apply emits_bind; [apply ocr_emits_extraction | intros; repeat emits_step].
Qed.

Lemma app_inv_trace (new1 new2 t : list event) :
  (new1 ++ t)%list = (new2 ++ t)%list -> new1 = new2.
Proof. apply app_inv_tail. Qed.

(** X2.  OCR is attempted only to replace an empty result.  With an engine
    other than ['ocr'], if [extract_page_text] opened the document with
    PyMuPDF, then the requested text-layer extractor had returned (it had
    not raised) a text that is empty or white space only, and both OCR
    libraries are available. *)
Theorem ocr_attempted_only_after_blank_text (rt : runtime) (pdf_path : Path)
    (page_number : Z) (engine path : string) (w : world) (new : list event) :
  engine <> "ocr" ->
  trace (snd (pdf_page_text.extract_page_text rt pdf_path page_number engine w))
  = (new ++ trace w)%list ->
  In (Call_fitz_open path) new ->
  PYMUPDF_AVAILABLE rt = true /\ PYTESSERACT_AVAILABLE rt = true /\
  exists t0 w1,
    pdf_page_text.no_text t0 = true /\
    ((engine = "pypdf" /\
      pdf_page_text.extract_page_text_pypdf rt pdf_path page_number w = (Return t0, w1)) \/
     (engine = "pdfminer" /\
      pdf_page_text.extract_page_text_pdfminer rt pdf_path page_number w
      = (Return t0, w1))).
Proof.
  intros Hocr Htrace Hin. apply String.eqb_neq in Hocr.
  unfold pdf_page_text.extract_page_text in Htrace. rewrite Hocr in Htrace.
  set (first :=
         if (engine =? "pypdf")%string then
           pdf_page_text.extract_page_text_pypdf rt pdf_path page_number
         else if (engine =? "pdfminer")%string then
           pdf_page_text.extract_page_text_pdfminer rt pdf_path page_number
         else raise (ValueError ("無効な抽出エンジンです: " ++ engine ++ newline
                                 ++ "有効なエンジン: 'pypdf', 'pdfminer', 'ocr'")))
    in Htrace.
  assert (Hfirst : emits text_layer_event first).
  { unfold first. destruct (engine =? "pypdf")%string; [apply pypdf_emits|].
    destruct (engine =? "pdfminer")%string; [apply pdfminer_emits | apply emits_raise]. }
  destruct (Hfirst w) as (n1 & E1 & F1). rewrite Forall_forall in F1.
  assert (Hno : forall n, (n ++ trace w)%list = (new ++ trace w)%list ->
                          (forall ev, In ev n -> text_layer_event ev \/ log_only ev) ->
                          False).
  { intros n E Hn. apply app_inv_trace in E. subst n.
    destruct (Hn _ Hin) as [H | H]; exact H. }
  unfold bind in Htrace. destruct (first w) as [[t0 | e] w1] eqn:Efirst;
    cbn [snd] in E1, Htrace.
  - destruct (pdf_page_text.no_text t0) eqn:Hblank.
    + destruct (PYMUPDF_AVAILABLE rt) eqn:Hmu, (PYTESSERACT_AVAILABLE rt) eqn:Htess;
        cbn [andb] in Htrace.
      * split; [reflexivity|]. split; [reflexivity|]. exists t0, w1.
        split; [exact Hblank|]. unfold first in Efirst.
        destruct (String.eqb_spec engine "pypdf") as [-> | _]; [left; auto|].
        destruct (String.eqb_spec engine "pdfminer") as [-> | _]; [right; auto|].
        discriminate Efirst.
      * exfalso. cbn [snd logging_warning emit trace] in Htrace. rewrite E1 in Htrace.
        apply (Hno (_ :: n1) Htrace). intros ev [<- | H]; [right; exact I | left; auto].
      * exfalso. cbn [snd logging_warning emit trace] in Htrace. rewrite E1 in Htrace.
        apply (Hno (_ :: n1) Htrace). intros ev [<- | H]; [right; exact I | left; auto].
      * exfalso. cbn [snd logging_warning emit trace] in Htrace. rewrite E1 in Htrace.
        apply (Hno (_ :: n1) Htrace). intros ev [<- | H]; [right; exact I | left; auto].
    + exfalso. cbn [snd ret] in Htrace. rewrite E1 in Htrace. apply (Hno n1 Htrace). auto.
  - exfalso. rewrite E1 in Htrace. apply (Hno n1 Htrace). auto.
Qed.

Lemma ocr_attempted_only_after_blank_text_witness :
  PYMUPDF_AVAILABLE Demo.rt = true /\ PYTESSERACT_AVAILABLE Demo.rt = true /\
  exists t0 w1,
    pdf_page_text.no_text t0 = true /\
    (("pypdf" = "pypdf" /\
      pdf_page_text.extract_page_text_pypdf Demo.rt Demo.sample_pdf 3 initial_world
      = (Return t0, w1)) \/
     ("pypdf" = "pdfminer" /\
      pdf_page_text.extract_page_text_pdfminer Demo.rt Demo.sample_pdf 3 initial_world
      = (Return t0, w1))).
Proof.
  apply (ocr_attempted_only_after_blank_text Demo.rt Demo.sample_pdf 3 "pypdf"
           "/work/sample.pdf" initial_world
           (trace (snd (pdf_page_text.extract_page_text Demo.rt Demo.sample_pdf 3 "pypdf"
                          initial_world)))).
  - discriminate.
  - symmetry. apply app_nil_r.
  - vm_compute. repeat first [left; reflexivity | right].
Defined.

(** X3.  Empty result without OCR.  The requested engine is ['pypdf'] or
    ['pdfminer'], its extractor returned [t0], empty or white space only,
    and PyMuPDF or pytesseract is missing.  Then the orchestrator returns
    [t0], and adds to what the extractor did one warning, which ends with
    the names of the missing libraries, in the order PyMuPDF, pytesseract. *)
Theorem empty_result_without_ocr (rt : runtime) (pdf_path : Path) (page_number : Z)
    (engine : string) (w w1 : world) (t0 : pystr) :
  PYMUPDF_AVAILABLE rt = false \/ PYTESSERACT_AVAILABLE rt = false ->
  (engine = "pypdf" /\
   pdf_page_text.extract_page_text_pypdf rt pdf_path page_number w = (Return t0, w1)) \/
  (engine = "pdfminer" /\
   pdf_page_text.extract_page_text_pdfminer rt pdf_path page_number w = (Return t0, w1)) ->
  pdf_page_text.no_text t0 = true ->
  let missing :=
    ((if PYMUPDF_AVAILABLE rt then [] else ["PyMuPDF"])
     ++ (if PYTESSERACT_AVAILABLE rt then [] else ["pytesseract"]))%list in
  pdf_page_text.extract_page_text rt pdf_path page_number engine w
  = (Return t0,
     snd (logging_warning
            ("テキスト層が見つかりませんでしたが、OCR機能が利用できません。" ++ newline
             ++ "OCR機能を使用するには、以下のライブラリをインストールしてください: "
             ++ join ", " missing) w1)) /\
  missing <> [].
Proof.
  intros Hdeps Hfirst Hblank missing. split.
  - unfold pdf_page_text.extract_page_text.
    assert (Hand : PYMUPDF_AVAILABLE rt && PYTESSERACT_AVAILABLE rt = false)
      by (destruct Hdeps as [-> | ->]; [reflexivity | apply andb_false_r]).
    destruct Hfirst as [[-> H] | [-> H]]; cbn [String.eqb Ascii.eqb Bool.eqb];
      rewrite (bind_Return _ _ _ _ _ H), Hblank, Hand; unfold missing;
      destruct (PYMUPDF_AVAILABLE rt), (PYTESSERACT_AVAILABLE rt); reflexivity.
  - unfold missing. destruct Hdeps as [-> | ->]; [discriminate|].
    destruct (PYMUPDF_AVAILABLE rt); discriminate.
Qed.

Lemma reraise_logged (P : event -> Prop) {A} (body : M A) (silent : exn -> bool)
    (msg : exn -> string) (w w' : world) (e : exn) :
  emits P body ->
  try_except body
    (fun e => if silent e then raise e else logging_error (msg e) ;; raise e) w
  = (Raise e, w') ->
  exists new,
    Forall P new /\
    trace w' = ((if silent e then [] else [Log ERROR (msg e)]) ++ new ++ trace w)%list.
Proof.
  intros Hb. unfold try_except. destruct (Hb w) as (new & E & F).
  destruct (body w) as [[a | e1] w1]; [discriminate|]. cbn [snd] in E.
  destruct (silent e1) eqn:Hs; intros H; injection H as <- <-;
    exists new; rewrite Hs; (split; [exact F|]); cbn [trace app]; rewrite E; reflexivity.
Qed.

(** X4.  How the extractors report a failure.  When an extractor raises,
    the exception is the one that occurred; a [ValueError] (and, for the
    pdfminer and OCR extractors, an [ImportError]) is raised without an
    error record, any other exception after exactly one error record that
    carries its message.  Nothing else the extractor logs is an error. *)
Theorem extractor_failure_is_logged_once (rt : runtime) (pdf_path : Path)
    (page_number : Z) (lang : string) (w w' : world) (e : exn) :
  (pdf_page_text.extract_page_text_pypdf rt pdf_path page_number w = (Raise e, w') ->
   exists new,
     Forall not_error_log new /\
     trace w'
     = ((if is_ValueError e then []
         else [Log ERROR ("PDFの読み込みまたはテキスト抽出に失敗しました: " ++ str_of_exn e)])
        ++ new ++ trace w)%list) /\
  (pdf_page_text.extract_page_text_pdfminer rt pdf_path page_number w = (Raise e, w') ->
   exists new,
     Forall not_error_log new /\
     trace w'
     = ((if is_ValueError e || is_ImportError e then []
         else [Log ERROR ("PDFの読み込みまたはテキスト抽出に失敗しました: " ++ str_of_exn e)])
        ++ new ++ trace w)%list) /\
  (pdf_page_text.extract_page_text_ocr rt pdf_path page_number lang w = (Raise e, w') ->
   exists new,
     Forall not_error_log new /\
     trace w'
     = ((if is_ValueError e || is_ImportError e then []
         else [Log ERROR ("OCR処理に失敗しました: " ++ str_of_exn e)])
        ++ new ++ trace w)%list).
Proof.
  split; [|split].
  - unfold pdf_page_text.extract_page_text_pypdf. intros H.
    apply (reraise_logged not_error_log) in H; [exact H | repeat emits_step].
  - unfold pdf_page_text.extract_page_text_pdfminer.
    destruct (PDFMINER_AVAILABLE rt); cbn [negb].
    + intros H.
      apply (reraise_logged not_error_log _
               (fun e => is_ValueError e || is_ImportError e)) in H;
        [exact H | repeat emits_step].
    + intros H. injection H as <- <-. exists []. split; [constructor | reflexivity].
  - unfold pdf_page_text.extract_page_text_ocr.
    destruct (PYMUPDF_AVAILABLE rt); cbn [negb];
      [| intros H; injection H as <- <-; exists []; split; [constructor | reflexivity]].
    destruct (PYTESSERACT_AVAILABLE rt); cbn [negb];
      [| intros H; injection H as <- <-; exists []; split; [constructor | reflexivity]].
    intros H.
    apply (reraise_logged not_error_log _
             (fun e => is_ValueError e || is_ImportError e)) in H;
      [exact H | repeat emits_step].
Qed.

Lemma extractor_failure_is_logged_once_witness :
  exists new,
    Forall not_error_log new /\
    trace (snd (pdf_page_text.extract_page_text_ocr Demo.rt_without_tesseract
                  Demo.sample_pdf 3 "jpn+eng" initial_world))
    = ([Log ERROR ("OCR処理に失敗しました: "
                   ++ "tesseract is not installed or it's not in your PATH.")]
       ++ new ++ trace initial_world)%list.
Proof.
  apply (proj2 (proj2 (extractor_failure_is_logged_once Demo.rt_without_tesseract
                         Demo.sample_pdf 3 "jpn+eng" initial_world
                         (snd (pdf_page_text.extract_page_text_ocr
                                 Demo.rt_without_tesseract Demo.sample_pdf 3 "jpn+eng"
                                 initial_world))
                         (Exception "tesseract is not installed or it's not in your PATH.")))).
  vm_compute. reflexivity.
Defined.

Lemma empty_result_without_ocr_witness :
  let rt := Examples.rt_without_pytesseract in
  pdf_page_text.extract_page_text rt Demo.sample_pdf 3 "pypdf" initial_world
  = (Return [],
     snd (logging_warning
            ("テキスト層が見つかりませんでしたが、OCR機能が利用できません。" ++ newline
             ++ "OCR機能を使用するには、以下のライブラリをインストールしてください: "
             ++ join ", " ["pytesseract"])
            (snd (pdf_page_text.extract_page_text_pypdf rt Demo.sample_pdf 3
                    initial_world)))) /\
  ["pytesseract"] <> [].
Proof.
  intros rt.
  apply (empty_result_without_ocr rt Demo.sample_pdf 3 "pypdf" initial_world
           (snd (pdf_page_text.extract_page_text_pypdf rt Demo.sample_pdf 3
                   initial_world)) []).
  - right. reflexivity.
  - left. split; [reflexivity | vm_compute; reflexivity].
  - reflexivity.
Defined.

(** ** The command *)

Ltac cli_run :=
  unfold pdf_page_text_cli.main, pdf_page_text_cli.save_text_to_file,
    pdf_page_text_cli.write_text, pdf_page_text_cli.cli_try_except,
    pdf_page_text_cli.cli_bind, pdf_page_text_cli.cli_ret, pdf_page_text_cli.cli_raise,
    pdf_page_text_cli.run, logging_info, logging_error, emit;
  cbv beta iota zeta; cbn [pdf_page_text_cli.extraction pdf_page_text_cli.text_files].

Ltac cli_simpl :=
  cbv beta iota zeta; cbn [pdf_page_text_cli.extraction pdf_page_text_cli.text_files].

Ltac cli_case :=
  match goal with
  | |- context [match pdf_page_text_cli.validate_pdf_file ?r ?p ?w with _ => _ end] =>
      let E := fresh "Evalidate" in
      destruct (pdf_page_text_cli.validate_pdf_file r p w) as [[[] | ?] ?] eqn:E
  | |- context [match pdf_page_text.extract_page_text ?r ?p ?n ?g ?w with _ => _ end] =>
      let E := fresh "Eextract" in
      destruct (pdf_page_text.extract_page_text r p n g w) as [[? | ?] ?] eqn:E
  | |- context [if ?c then _ else _] =>
      let E := fresh "Eif" in destruct c eqn:E
  | ote : string -> option exn
    |- context [match ?ote' ?path with Some _ => _ | None => _ end] =>
      constr_eq ote ote';
      let E := fresh "Eopen" in destruct (ote path) eqn:E
  | wte : string -> pystr -> option exn
    |- context [match ?wte' ?path ?text with Some _ => _ | None => _ end] =>
      constr_eq wte wte';
      let E := fresh "Ewrite" in destruct (wte path text) eqn:E
  | e : exn |- context [match ?e' with ValueError _ => _ | _ => _ end] =>
      constr_eq e e'; destruct e
  end;
  cbv beta iota zeta; cbn [pdf_page_text_cli.extraction pdf_page_text_cli.text_files].

(** The [try] statement of [main], entered with the parsed arguments and
    left alone by the user, lets no exception out and yields status 0 or 1;
    the only file it can touch is [<stem>-<page>.txt] in the current
    directory. *)
Lemma page_text_try_statement (rt : runtime) (cwd : Path)
    (open_text_error : string -> option exn)
    (write_text_error : string -> pystr -> option exn)
    (args : pdf_page_text_cli.arguments) (c : pdf_page_text_cli.cli_world) :
  let output_path :=
    joinpath cwd (stem (pdf_page_text_cli.args_pdf args) ++ "-"
                  ++ str_of_int (pdf_page_text_cli.args_page args) ++ ".txt") in
  exists code c',
    pdf_page_text_cli.main rt cwd open_text_error write_text_error args c
    = (Return code, c') /\
    ((code = 0 /\
      exists text w0 w1,
        pdf_page_text.extract_page_text rt (pdf_page_text_cli.args_pdf args)
          (pdf_page_text_cli.args_page args) (pdf_page_text_cli.args_engine args) w0
        = (Return text, w1) /\
        pdf_page_text_cli.text_files c'
        = (output_path, Some text) :: pdf_page_text_cli.text_files c) \/
     (code = 1 /\
      (pdf_page_text_cli.text_files c' = pdf_page_text_cli.text_files c \/
       pdf_page_text_cli.text_files c'
       = (output_path, None) :: pdf_page_text_cli.text_files c))).
Proof.
  intros output_path. cli_run. repeat cli_case;
    (eexists; eexists; split; [reflexivity|]);
    first [ right; split; [reflexivity|]; left; reflexivity
          | right; split; [reflexivity|]; right; reflexivity
          | left; split; [reflexivity|];
            do 3 eexists; split; [eassumption | reflexivity] ].
Qed.

(** X5.  How [main()] of [pdf_page_text.py] ends, and the output file.  No
    [Exception] leaves [main].  It returns 0, 1 or 130, or argparse's
    [SystemExit] (0 for the help, 2 for a command line that is not accepted)
    leaves it with nothing logged and no file touched, or a
    [KeyboardInterrupt] that arrived outside the [try] block leaves it.
    Status 0: the arguments were parsed, no interrupt was caught, and the
    file [<stem>-<page>.txt] in the current directory was written once and
    holds the text [extract_page_text] returned for the requested file, page
    and engine.  Status 1: no write was completed; either no file was
    touched, or the output file was created or truncated by [open] and the
    write failed.  Status 130: a [KeyboardInterrupt] was caught in the [try]
    block, and the last record is the error saying so. *)
Theorem page_text_exit_status (rt : runtime) (cwd : Path)
    (open_text_error : string -> option exn)
    (write_text_error : string -> pystr -> option exn)
    (parse_arguments : pdf_page_text_command.parsed)
    (ctrl_c : interrupt pdf_page_text_cli.cli_world)
    (c : pdf_page_text_cli.cli_world) :
  let run := pdf_page_text_command.main rt cwd open_text_error write_text_error
               parse_arguments ctrl_c c in
  match fst run with
  | Returned status =>
      (status = 0 /\ ctrl_c = No_interrupt /\
       exists pdf page engine text w0 w1,
         parse_arguments = pdf_page_text_command.Namespace pdf page engine /\
         pdf_page_text.extract_page_text rt pdf page
           (pdf_page_text_command.engine_name engine) w0 = (Return text, w1) /\
         pdf_page_text_cli.text_files (snd run)
         = (joinpath cwd (stem pdf ++ "-" ++ str_of_int page ++ ".txt"), Some text)
           :: pdf_page_text_cli.text_files c) \/
      (status = 1 /\ ctrl_c = No_interrupt /\
       exists pdf page engine,
         parse_arguments = pdf_page_text_command.Namespace pdf page engine /\
         (pdf_page_text_cli.text_files (snd run) = pdf_page_text_cli.text_files c \/
          pdf_page_text_cli.text_files (snd run)
          = (joinpath cwd (stem pdf ++ "-" ++ str_of_int page ++ ".txt"), None)
            :: pdf_page_text_cli.text_files c)) \/
      (status = 130 /\
       exists at_interrupt,
         ctrl_c = Interrupt_in_try at_interrupt /\
         pdf_page_text_cli.text_files (snd run)
         = pdf_page_text_cli.text_files at_interrupt /\
         trace (pdf_page_text_cli.extraction (snd run))
         = Log ERROR (newline ++ "処理が中断されました")
           :: trace (pdf_page_text_cli.extraction at_interrupt))
  | Raised_SystemExit code =>
      ctrl_c = No_interrupt /\ snd run = c /\
      ((code = 0 /\ parse_arguments = pdf_page_text_command.Help) \/
       (code = 2 /\ parse_arguments = pdf_page_text_command.Usage_error))
  | Raised_KeyboardInterrupt =>
      exists at_interrupt, ctrl_c = Interrupt_elsewhere at_interrupt
  | Raised e => False
  end.
Proof.
  unfold pdf_page_text_command.main.
  destruct ctrl_c as [| at_interrupt | at_interrupt]; cbv zeta.
  - destruct parse_arguments as [pdf page engine | |]; cbn [fst snd].
    + destruct (page_text_try_statement rt cwd open_text_error write_text_error
                  {| pdf_page_text_cli.args_pdf := pdf;
                     pdf_page_text_cli.args_page := page;
                     pdf_page_text_cli.args_engine :=
                       pdf_page_text_command.engine_name engine |} c)
        as (code & c' & -> & [(-> & text & w0 & w1 & Ht & Hf) | (-> & Hf)]);
        cbn [fst snd pdf_page_text_cli.args_pdf pdf_page_text_cli.args_page
             pdf_page_text_cli.args_engine] in *.
      * left. split; [reflexivity|]. split; [reflexivity|].
        exists pdf, page, engine, text, w0, w1. auto.
      * right. left. split; [reflexivity|]. split; [reflexivity|].
        exists pdf, page, engine. auto.
    + split; [reflexivity|]. split; [reflexivity|]. left. auto.
    + split; [reflexivity|]. split; [reflexivity|]. right. auto.
  - cbn [fst snd]. right. right. split; [reflexivity|].
    exists at_interrupt. repeat split.
  - cbn [fst]. exists at_interrupt. reflexivity.
Qed.

Section InvalidRequest.

Variable rt : runtime.

Lemma validate_log_only (pdf_path : Path) :
  emits log_only (pdf_page_text_cli.validate_pdf_file rt pdf_path).
Proof. unfold pdf_page_text_cli.validate_pdf_file. repeat emits_step. Qed.

Lemma validate_returns_inv (pdf_path : Path) (w w' : world) (a : unit) :
  pdf_page_text_cli.validate_pdf_file rt pdf_path w = (Return a, w') ->
  path_exists rt (path_str pdf_path) = true /\
  path_is_file rt (path_str pdf_path) = true.
Proof.
  unfold pdf_page_text_cli.validate_pdf_file.
  destruct (path_exists rt (path_str pdf_path)); [|discriminate].
  destruct (path_is_file rt (path_str pdf_path)); [|discriminate]. auto.
Qed.

(** The orchestrator turns down an engine that is not there before it
    touches anything. *)
Lemma extract_page_text_rejects (pdf_path : Path) (page_number : Z) (engine : string) :
  (engine = "ocr" /\
   (PYMUPDF_AVAILABLE rt = false \/ PYTESSERACT_AVAILABLE rt = false)) \/
  (engine <> "pypdf" /\ engine <> "pdfminer" /\ engine <> "ocr") ->
  exists e,
    (is_ValueError e || is_ImportError e = true) /\
    forall w, pdf_page_text.extract_page_text rt pdf_path page_number engine w
              = (Raise e, w).
Proof.
  intros [[-> Hdeps] | (H1 & H2 & H3)].
  - unfold pdf_page_text.extract_page_text, pdf_page_text.extract_page_text_ocr.
    cbn [String.eqb Ascii.eqb Bool.eqb].
    destruct (PYMUPDF_AVAILABLE rt); cbn [negb];
      [| eexists; split; [|intros w; reflexivity]; reflexivity].
    destruct Hdeps as [Hd | ->]; [discriminate|]. cbn [negb].
    eexists. split; [|intros w; reflexivity]. reflexivity.
  - unfold pdf_page_text.extract_page_text.
    apply String.eqb_neq in H1, H2, H3. rewrite H1, H2, H3.
    eexists. split; [|intros w; reflexivity]. reflexivity.
Qed.


End InvalidRequest.

(** The [try] statement of [main] turns these requests down with status 1,
    having only logged; the last case is the [ValueError] of the
    orchestrator for an engine name it does not know. *)
Lemma page_text_try_rejects (rt : runtime) (cwd : Path)
    (open_text_error : string -> option exn)
    (write_text_error : string -> pystr -> option exn)
    (args : pdf_page_text_cli.arguments) (c : pdf_page_text_cli.cli_world) :
  let pdf_path := pdf_page_text_cli.args_pdf args in
  let engine := pdf_page_text_cli.args_engine args in
  (engine = "pdfminer" /\ PDFMINER_AVAILABLE rt = false) \/
  pdf_page_text_cli.args_page args < 1 \/
  path_exists rt (path_str pdf_path) = false \/
  path_is_file rt (path_str pdf_path) = false \/
  (engine = "ocr" /\
   (PYMUPDF_AVAILABLE rt = false \/ PYTESSERACT_AVAILABLE rt = false)) \/
  (engine <> "pypdf" /\ engine <> "pdfminer" /\ engine <> "ocr") ->
  exists c' new,
    pdf_page_text_cli.main rt cwd open_text_error write_text_error args c
    = (Return 1, c') /\
    pdf_page_text_cli.text_files c' = pdf_page_text_cli.text_files c /\
    trace (pdf_page_text_cli.extraction c')
    = (new ++ trace (pdf_page_text_cli.extraction c))%list /\
    Forall log_only new.
Proof.
  intros pdf_path engine Hbad.
  assert (Hextract :
    pdf_page_text_cli.args_page args < 1 \/
    (engine = "pdfminer" /\ PDFMINER_AVAILABLE rt = false) \/
    (forall w a w', pdf_page_text_cli.validate_pdf_file rt pdf_path w <> (Return a, w')) \/
    exists e, (is_ValueError e || is_ImportError e = true) /\
              forall w, pdf_page_text.extract_page_text rt pdf_path
                          (pdf_page_text_cli.args_page args) engine w = (Raise e, w)).
  { destruct Hbad as [H | [H | [H | [H | H]]]]; auto.
    - right. right. left. intros w a w' Hv. apply validate_returns_inv in Hv.
      destruct Hv. congruence.
    - right. right. left. intros w a w' Hv. apply validate_returns_inv in Hv.
      destruct Hv. congruence.
    - right. right. right. apply extract_page_text_rejects. exact H. }
  clear Hbad. cli_run. fold pdf_path. fold engine.
  destruct ((engine =? "pdfminer")%string && negb (PDFMINER_AVAILABLE rt)) eqn:Eav;
    cbv beta iota zeta; cbn [pdf_page_text_cli.extraction pdf_page_text_cli.text_files].
  { eexists. refine (ex_intro _ [_; _] _). repeat split. repeat constructor. }
  destruct (pdf_page_text_cli.args_page args <? 1) eqn:Epage;
    cbv beta iota zeta; cbn [pdf_page_text_cli.extraction pdf_page_text_cli.text_files].
  { eexists. refine (ex_intro _ [_; _; _] _). repeat split. repeat constructor. }
  destruct Hextract as [H | [[He Hav] | [Hv | (e & Hclass & He)]]].
  - apply Z.ltb_ge in Epage. lia.
  - apply String.eqb_eq in He. rewrite He, Hav in Eav. discriminate.
  - match goal with
    | |- context [pdf_page_text_cli.validate_pdf_file rt pdf_path ?w] =>
        destruct (validate_log_only rt pdf_path w) as (nv & Ev & Fv);
        specialize (Hv w);
        destruct (pdf_page_text_cli.validate_pdf_file rt pdf_path w) as [[a | ev] w1]
    end; [exfalso; exact (Hv a w1 eq_refl)|].
    cbn [snd trace] in Ev. cbv beta iota zeta.
    destruct ev; cbv beta iota zeta;
      cbn [pdf_page_text_cli.extraction pdf_page_text_cli.text_files];
      eexists; refine (ex_intro _ ((_ :: nv) ++ [_; _])%list _);
      (split; [reflexivity|]); (split; [reflexivity|]);
      cbn [trace]; rewrite Ev, <- app_assoc;
      (split; [reflexivity|]);
      apply Forall_app; (split; [constructor; [exact I | exact Fv] | repeat constructor]).
  - match goal with
    | |- context [pdf_page_text_cli.validate_pdf_file rt pdf_path ?w] =>
        destruct (validate_log_only rt pdf_path w) as (nv & Ev & Fv);
        destruct (pdf_page_text_cli.validate_pdf_file rt pdf_path w) as [[a | ev] w1]
    end; cbn [snd trace] in Ev; cbv beta iota zeta.
    + rewrite He. cbv beta iota zeta.
      destruct e; try discriminate Hclass; cbv beta iota zeta;
        cbn [pdf_page_text_cli.extraction pdf_page_text_cli.text_files];
        eexists; refine (ex_intro _ ((_ :: nv) ++ [_; _])%list _);
        (split; [reflexivity|]); (split; [reflexivity|]);
        cbn [trace]; rewrite Ev, <- app_assoc;
        (split; [reflexivity|]);
        apply Forall_app; (split; [constructor; [exact I | exact Fv] | repeat constructor]).
    + destruct ev; cbv beta iota zeta;
        cbn [pdf_page_text_cli.extraction pdf_page_text_cli.text_files];
        eexists; refine (ex_intro _ ((_ :: nv) ++ [_; _])%list _);
        (split; [reflexivity|]); (split; [reflexivity|]);
        cbn [trace]; rewrite Ev, <- app_assoc;
        (split; [reflexivity|]);
        apply Forall_app; (split; [constructor; [exact I | exact Fv] | repeat constructor]).
Qed.

(** X6.  Requests turned down before any reading.  The command line was
    accepted and no interrupt arrives.  If pdfminer is chosen but not
    installed, or the page number is below 1, or the PDF path does not exist
    or is not a regular file, or the engine is [ocr] with PyMuPDF or
    pytesseract missing, then [main()] of [pdf_page_text.py] returns status
    1, touches no file, and has only logged: no library was asked to read
    the document. *)
Theorem page_text_rejects_invalid_request (rt : runtime) (cwd : Path)
    (open_text_error : string -> option exn)
    (write_text_error : string -> pystr -> option exn)
    (pdf : Path) (page : Z) (engine : pdf_page_text_command.engine)
    (c : pdf_page_text_cli.cli_world) :
  (engine = pdf_page_text_command.pdfminer /\ PDFMINER_AVAILABLE rt = false) \/
  page < 1 \/
  path_exists rt (path_str pdf) = false \/
  path_is_file rt (path_str pdf) = false \/
  (engine = pdf_page_text_command.ocr /\
   (PYMUPDF_AVAILABLE rt = false \/ PYTESSERACT_AVAILABLE rt = false)) ->
  exists c' new,
    pdf_page_text_command.main rt cwd open_text_error write_text_error
      (pdf_page_text_command.Namespace pdf page engine) No_interrupt c
    = (Returned 1, c') /\
    pdf_page_text_cli.text_files c' = pdf_page_text_cli.text_files c /\
    trace (pdf_page_text_cli.extraction c')
    = (new ++ trace (pdf_page_text_cli.extraction c))%list /\
    Forall log_only new.
Proof.
  intros Hbad. unfold pdf_page_text_command.main. cbv zeta.
  destruct (page_text_try_rejects rt cwd open_text_error write_text_error
              {| pdf_page_text_cli.args_pdf := pdf;
                 pdf_page_text_cli.args_page := page;
                 pdf_page_text_cli.args_engine :=
                   pdf_page_text_command.engine_name engine |} c)
    as (c' & new & -> & H).
  - cbn [pdf_page_text_cli.args_pdf pdf_page_text_cli.args_page
         pdf_page_text_cli.args_engine].
    destruct Hbad as [[-> H] | [H | [H | [H | [-> H]]]]]; auto.
    right. right. right. right. left. auto.
  - exists c', new. split; [reflexivity | exact H].
Qed.

Lemma page_text_rejects_invalid_request_witness :
  (exists c' new,
     pdf_page_text_command.main Demo.rt Examples.cwd Examples.creatable
       Examples.writable
       (pdf_page_text_command.Namespace Demo.sample_pdf 0 pdf_page_text_command.pypdf)
       No_interrupt pdf_page_text_cli.initial_cli_world
     = (Returned 1, c') /\
     pdf_page_text_cli.text_files c'
     = pdf_page_text_cli.text_files pdf_page_text_cli.initial_cli_world /\
     trace (pdf_page_text_cli.extraction c')
     = (new ++ trace (pdf_page_text_cli.extraction
                        pdf_page_text_cli.initial_cli_world))%list /\
     Forall log_only new) /\
  (exists c' new,
     pdf_page_text_command.main Examples.rt_without_pytesseract Examples.cwd
       Examples.creatable Examples.writable
       (pdf_page_text_command.Namespace Demo.sample_pdf 3 pdf_page_text_command.ocr)
       No_interrupt pdf_page_text_cli.initial_cli_world
     = (Returned 1, c') /\
     pdf_page_text_cli.text_files c'
     = pdf_page_text_cli.text_files pdf_page_text_cli.initial_cli_world /\
     trace (pdf_page_text_cli.extraction c')
     = (new ++ trace (pdf_page_text_cli.extraction
                        pdf_page_text_cli.initial_cli_world))%list /\
     Forall log_only new).
Proof.
  split.
  - apply (page_text_rejects_invalid_request Demo.rt Examples.cwd Examples.creatable
             Examples.writable Demo.sample_pdf 0 pdf_page_text_command.pypdf).
    right. left. lia.
  - apply (page_text_rejects_invalid_request Examples.rt_without_pytesseract
             Examples.cwd Examples.creatable Examples.writable Demo.sample_pdf 3
             pdf_page_text_command.ocr).
    right. right. right. right. split; [reflexivity | right; reflexivity].
Defined.

Section PageTextSuccess.

Variable rt : runtime.

Lemma pypdf_extracts (pdf_path : Path) (page_number : Z) (pages : list pypdf_page)
    (page : pypdf_page) (raw : pystr) (w : world) :
  PdfReader rt (path_str pdf_path) = Return pages ->
  1 <= page_number ->
  nth_error pages (Z.to_nat (page_number - 1)) = Some page ->
  extract_text page = Return raw ->
  pdf_page_text.no_text raw = false ->
  exists w', pdf_page_text.extract_page_text_pypdf rt pdf_path page_number w
             = (Return (normalize_NFC rt raw), w').
Proof.
  intros HR Hp Hnth Htext Hraw.
  assert (Hlen : (Z.to_nat (page_number - 1) < List.length pages)%nat)
    by (apply nth_error_Some; congruence).
  unfold pdf_page_text.extract_page_text_pypdf, call_PdfReader, page_extract_text.
  run_monad. rewrite HR. cbv beta iota zeta.
  replace ((page_number - 1 <? 0) || (page_number - 1 >=? Z.of_nat (List.length pages)))
    with false by (symmetry; apply orb_false_iff; lia).
  replace (page_number - 1 <? 0) with false by (symmetry; apply Z.ltb_ge; lia).
  rewrite Hnth. cbv beta iota zeta. rewrite Htext. cbv beta iota zeta.
  rewrite Hraw. eexists. reflexivity.
Qed.

End PageTextSuccess.

(** X7.  A page with text, end to end.  The PDF file exists, the page
    number is within the document, pypdf returns for that page a text
    [raw] that has a character other than white space, and the output file
    can be written.  Then [main] with engine ['pypdf'] returns status 0 and
    the file it writes, [<stem>-<page>.txt] in the current directory, holds
    the NFC form of [raw], nothing more: no OCR was involved. *)
Theorem page_text_written (rt : runtime) (cwd : Path)
    (open_text_error : string -> option exn)
    (write_text_error : string -> pystr -> option exn)
    (args : pdf_page_text_cli.arguments) (c : pdf_page_text_cli.cli_world)
    (pages : list pypdf_page) (page : pypdf_page) (raw : pystr) :
  let pdf_path := pdf_page_text_cli.args_pdf args in
  let page_number := pdf_page_text_cli.args_page args in
  let output_path :=
    joinpath cwd (stem pdf_path ++ "-" ++ str_of_int page_number ++ ".txt") in
  NFC_keeps_text rt ->
  pdf_page_text_cli.args_engine args = "pypdf" ->
  path_exists rt (path_str pdf_path) = true ->
  path_is_file rt (path_str pdf_path) = true ->
  PdfReader rt (path_str pdf_path) = Return pages ->
  1 <= page_number ->
  nth_error pages (Z.to_nat (page_number - 1)) = Some page ->
  extract_text page = Return raw ->
  has_text raw ->
  open_text_error output_path = None ->
  write_text_error output_path (normalize_NFC rt raw) = None ->
  exists c' new,
    pdf_page_text_cli.main rt cwd open_text_error write_text_error args c
    = (Return 0, c') /\
    pdf_page_text_cli.text_files c'
    = (output_path, Some (normalize_NFC rt raw)) :: pdf_page_text_cli.text_files c /\
    trace (pdf_page_text_cli.extraction c')
    = (new ++ trace (pdf_page_text_cli.extraction c))%list /\
    Forall text_layer_event new.
Proof.
  intros pdf_path page_number output_path Hk Hengine Hex Hfile HR Hp Hnth Htext Hraw
    Ho Hw.
  assert (Hraw' : pdf_page_text.no_text raw = false) by (apply no_text_false; exact Hraw).
  assert (Hnfc : pdf_page_text.no_text (normalize_NFC rt raw) = false)
    by (apply no_text_false, Hk, Hraw).
  assert (Hvalidate : forall w, exists w',
             pdf_page_text_cli.validate_pdf_file rt pdf_path w = (Return tt, w') /\
             exists nv, trace w' = (nv ++ trace w)%list /\ Forall log_only nv).
  { intros w. destruct (validate_log_only rt pdf_path w) as (nv & Ev & Fv).
    unfold pdf_page_text_cli.validate_pdf_file in *. rewrite Hex, Hfile in *.
    cbn [negb] in *. destruct (negb _); eexists; (split; [reflexivity|]); eauto. }
  assert (Hextract : forall w, exists w',
             pdf_page_text.extract_page_text rt pdf_path page_number "pypdf" w
             = (Return (normalize_NFC rt raw), w') /\
             exists ne, trace w' = (ne ++ trace w)%list /\ Forall text_layer_event ne).
  { intros w.
    destruct (pypdf_extracts rt pdf_path page_number pages page raw w HR Hp Hnth Htext Hraw')
      as (w' & E).
    exists w'. split.
    - unfold pdf_page_text.extract_page_text. cbn [String.eqb Ascii.eqb Bool.eqb].
      rewrite (bind_Return _ _ _ _ _ E), Hnfc. reflexivity.
    - destruct (pypdf_emits rt pdf_path page_number w) as (ne & Ee & Fe).
      rewrite E in Ee. eauto. }
  cli_run. fold pdf_path. fold page_number. rewrite Hengine.
  cbn [String.eqb Ascii.eqb Bool.eqb andb].
  replace (page_number <? 1) with false by (symmetry; apply Z.ltb_ge; lia).
  match goal with
  | |- context [pdf_page_text_cli.validate_pdf_file rt pdf_path ?w] =>
      destruct (Hvalidate w) as (w1 & -> & nv & Ev & Fv)
  end.
  cli_simpl.
  destruct (Hextract w1) as (w2 & -> & ne & Ee & Fe).
  cli_simpl. unfold pdf_page_text_cli.generate_output_filename. cbv zeta.
  fold output_path. rewrite Ho, Hw. cli_simpl.
  eexists. refine (ex_intro _ ((_ :: _ :: ne) ++ nv ++ [_; _])%list _).
  split; [reflexivity|]. split; [reflexivity|]. split.
  - cbn [trace]. rewrite Ee, Ev. cbn [trace]. rewrite <- !app_assoc. reflexivity.
  - apply Forall_app. split; [repeat constructor; exact Fe|].
    apply Forall_app. split; [| repeat constructor].
    apply Forall_impl with (P := log_only); [|exact Fv].
    intros [] H; try contradiction; exact I.
Qed.

Lemma page_text_written_witness :
  exists c' new,
    pdf_page_text_cli.main Demo.rt Examples.cwd Examples.creatable
           Examples.writable
      (Examples.page_text_args 2 "pypdf") pdf_page_text_cli.initial_cli_world
    = (Return 0, c') /\
    pdf_page_text_cli.text_files c'
    = ("/work/sample-2.txt", Some (normalize_NFC Demo.rt (Demo.text_of "Test Page 2")))
      :: pdf_page_text_cli.text_files pdf_page_text_cli.initial_cli_world /\
    trace (pdf_page_text_cli.extraction c')
    = (new ++ trace (pdf_page_text_cli.extraction
                       pdf_page_text_cli.initial_cli_world))%list /\
    Forall text_layer_event new.
Proof.
  apply (page_text_written Demo.rt Examples.cwd Examples.creatable
           Examples.writable
           (Examples.page_text_args 2 "pypdf") pdf_page_text_cli.initial_cli_world
           (map (fun k => {| extract_text := Return (Demo.sample_text k) |}) [0; 1; 2])
           {| extract_text := Return (Demo.sample_text 1) |}
           (Demo.text_of "Test Page 2")).
  - apply Demo_nfc_keeps_text.
  - reflexivity.
  - reflexivity.
  - reflexivity.
  - reflexivity.
  - cbn. lia.
  - reflexivity.
  - reflexivity.
  - exists 84%N. split; [left; reflexivity | reflexivity].
  - reflexivity.
  - reflexivity.
Defined.

(** * Further properties of [pdf_to_image.py] *)

(** ** The command *)

Section ImageCommand.

Variable rt : runtime.

Lemma image_validate_log_only (pdf_path : Path) :
  emits log_only (pdf_to_image.validate_pdf_file rt pdf_path).
Proof. unfold pdf_to_image.validate_pdf_file. repeat emits_step. Qed.

Lemma image_validate_returns_inv (pdf_path : Path) (w w' : world) (a : unit) :
  pdf_to_image.validate_pdf_file rt pdf_path w = (Return a, w') ->
  path_exists rt (path_str pdf_path) = true /\
  path_is_file rt (path_str pdf_path) = true.
Proof.
  unfold pdf_to_image.validate_pdf_file.
  destruct (path_exists rt (path_str pdf_path)); [|discriminate].
  destruct (path_is_file rt (path_str pdf_path)); [|discriminate]. auto.
Qed.

(** The handlers of [main]: one error record, status 1. *)
Lemma image_main_handler (e : exn) (w : world) :
  exists msg,
    match e with
    | FileNotFoundError _ | ValueError _ => logging_error (str_of_exn e) ;; ret 1
    | PermissionError _ =>
        logging_error ("ファイルへのアクセス権限がありません: " ++ str_of_exn e) ;; ret 1
    | _ => logging_error ("予期しないエラーが発生しました: " ++ str_of_exn e) ;; ret 1
    end w
    = (Return 1, {| trace := Log ERROR msg :: trace w; live := live w;
                    next_handle := next_handle w |}).
Proof. destruct e; eexists; reflexivity. Qed.

End ImageCommand.

(** X8.  Requests the rasterization command turns down.  If the PDF path
    does not exist or is not a regular file, or the page range starts below
    1 or ends before it starts, [main] of [pdf_to_image.py] returns status
    1 and has only logged: the output directory was not created and the
    document was not opened. *)
Theorem image_main_rejects_invalid_request (rt : runtime)
    (args : pdf_to_image.arguments) (w : world) :
  path_exists rt (path_str (pdf_to_image.args_pdf args)) = false \/
  path_is_file rt (path_str (pdf_to_image.args_pdf args)) = false \/
  (exists s e, pdf_to_image.args_pages args = Some (s, e) /\ (s < 1 \/ e < s)) ->
  exists w' new,
    pdf_to_image.main rt args w = (Return 1, w') /\
    trace w' = (new ++ trace w)%list /\
    Forall log_only new.
Proof.
  intros Hbad. unfold pdf_to_image.main, try_except.
  unfold bind at 1. unfold logging_info at 1. unfold emit at 1.
  match goal with
  | |- context [bind (pdf_to_image.validate_pdf_file _ _) _ ?w0] =>
      destruct (image_validate_log_only rt (pdf_to_image.args_pdf args) w0)
        as (nv & Ev & Fv);
      unfold bind at 1;
      destruct (pdf_to_image.validate_pdf_file rt (pdf_to_image.args_pdf args) w0)
        as [[a | ev] w1] eqn:Hv
  end; cbn [snd trace] in Ev.
  - apply image_validate_returns_inv in Hv. destruct Hv as [Hex Hfile].
    destruct Hbad as [H | [H | (s & e & Hp & Hse)]]; [congruence | congruence |].
    rewrite Hp. cbv zeta.
    destruct (s <? 1) eqn:Es.
    + eexists. refine (ex_intro _ ((_ :: nv) ++ [_])%list _).
      split; [reflexivity|]. cbn [trace]. rewrite Ev, <- app_assoc.
      split; [reflexivity|].
      apply Forall_app. split; [constructor; [exact I | exact Fv] | repeat constructor].
    + destruct (e <? s) eqn:Ee.
      * eexists. refine (ex_intro _ ((_ :: nv) ++ [_])%list _).
        split; [reflexivity|]. cbn [trace]. rewrite Ev, <- app_assoc.
        split; [reflexivity|].
        apply Forall_app. split; [constructor; [exact I | exact Fv] | repeat constructor].
      * apply Z.ltb_ge in Es, Ee. lia.
  - destruct (image_main_handler ev w1) as (msg & ->).
    eexists. refine (ex_intro _ ((_ :: nv) ++ [_])%list _).
    split; [reflexivity|]. cbn [trace]. rewrite Ev, <- app_assoc.
    split; [reflexivity|].
    apply Forall_app. split; [constructor; [exact I | exact Fv] | repeat constructor].
Qed.

Lemma image_main_rejects_invalid_request_witness :
  exists w' new,
    pdf_to_image.main Demo.rt (Examples.image_args "png" 150 (Some (3, 2)) false)
      initial_world = (Return 1, w') /\
    trace w' = (new ++ trace initial_world)%list /\
    Forall log_only new.
Proof.
  apply (image_main_rejects_invalid_request Demo.rt
           (Examples.image_args "png" 150 (Some (3, 2)) false) initial_world).
  right. right. exists 3, 2. split; [reflexivity | right; lia].
Defined.

(** The [try] statement of [main], entered with the parsed arguments and
    left alone by the user, lets no exception out: it yields 0, and then
    the last record is the completion message, or 1, and then the last
    record is an error. *)
Lemma image_try_statement (rt : runtime) (args : pdf_to_image.arguments)
    (w : world) :
  exists code w',
    pdf_to_image.main rt args w = (Return code, w') /\
    ((code = 0 /\ exists t, trace w' = Log INFO "正常終了" :: t) \/
     (code = 1 /\ exists msg t, trace w' = Log ERROR msg :: t)).
Proof.
  assert (Hconv : forall fmt pr w1 code w',
    pdf_to_image.main_convert rt args fmt pr w1 = (Return code, w') ->
    code = 0 /\ exists t, trace w' = Log INFO "正常終了" :: t).
  { intros fmt pr w1 code w' H. unfold pdf_to_image.main_convert in H.
    apply bind_inv in H. destruct H as (? & w2 & _ & H).
    apply bind_inv in H. destruct H as (paths & w3 & _ & H).
    apply bind_inv in H. destruct H as (? & w4 & _ & H).
    injection H as <- <-. split; [reflexivity|]. eexists. reflexivity. }
  unfold pdf_to_image.main, try_except.
  match goal with |- context [let (o, w') := ?body w in _] => set (b := body) end.
  destruct (b w) as [[code | e] w1] eqn:Hb.
  - exists code, w1. split; [reflexivity|]. unfold b in Hb.
    apply bind_inv in Hb. destruct Hb as (? & v1 & _ & Hb).
    apply bind_inv in Hb. destruct Hb as (? & v2 & _ & Hb).
    cbv zeta in Hb.
    destruct (pdf_to_image.args_pages args) as [[s e]|];
      [| left; exact (Hconv _ _ _ _ _ Hb)].
    destruct (s <? 1);
      [injection Hb as <- <-; right; split; [reflexivity|];
       eexists; eexists; reflexivity|].
    destruct (e <? s);
      [injection Hb as <- <-; right; split; [reflexivity|];
       eexists; eexists; reflexivity|].
    left. exact (Hconv _ _ _ _ _ Hb).
  - destruct (image_main_handler e w1) as (msg & ->).
    eexists 1, _. split; [reflexivity|]. right. split; [reflexivity|].
    eexists. eexists. reflexivity.
Qed.

(** X9.  How [main()] of [pdf_to_image.py] ends.  No [Exception] leaves
    [main].  It returns 0, and then the arguments were parsed, no interrupt
    was caught and the last record logged is the completion message; or it
    returns 1, and then the last record is an error; or it returns 130, and
    then a [KeyboardInterrupt] was caught in the [try] block and the last
    record is the error saying so.  Otherwise argparse's [SystemExit] leaves
    it (0 for the help, 2 for a command line that is not accepted) with
    nothing logged, or a [KeyboardInterrupt] that arrived outside the [try]
    block does. *)
Theorem image_main_exit_status (rt : runtime)
    (parse_arguments : pdf_to_image_command.parsed) (ctrl_c : interrupt world)
    (w : world) :
  let run := pdf_to_image_command.main rt parse_arguments ctrl_c w in
  match fst run with
  | Returned status =>
      (status = 0 /\ ctrl_c = No_interrupt /\
       (exists pdf output_dir format dpi pages create_pdf output_pdf,
          parse_arguments
          = pdf_to_image_command.Namespace pdf output_dir format dpi pages create_pdf
              output_pdf) /\
       exists t, trace (snd run) = Log INFO "正常終了" :: t) \/
      (status = 1 /\ ctrl_c = No_interrupt /\
       exists msg t, trace (snd run) = Log ERROR msg :: t) \/
      (status = 130 /\
       exists at_interrupt,
         ctrl_c = Interrupt_in_try at_interrupt /\
         trace (snd run)
         = Log ERROR (newline ++ "処理が中断されました") :: trace at_interrupt)
  | Raised_SystemExit code =>
      ctrl_c = No_interrupt /\ snd run = w /\
      ((code = 0 /\ parse_arguments = pdf_to_image_command.Help) \/
       (code = 2 /\ parse_arguments = pdf_to_image_command.Usage_error))
  | Raised_KeyboardInterrupt =>
      exists at_interrupt, ctrl_c = Interrupt_elsewhere at_interrupt
  | Raised e => False
  end.
Proof.
  unfold pdf_to_image_command.main.
  destruct ctrl_c as [| at_interrupt | at_interrupt]; cbv zeta.
  - destruct parse_arguments
      as [pdf output_dir format dpi pages create_pdf output_pdf | |]; cbn [fst snd].
    + match goal with
      | |- context [pdf_to_image.main rt ?args w] =>
          destruct (image_try_statement rt args w)
            as (code & w' & -> & [(-> & Ht) | (-> & Ht)])
      end; cbn [fst snd].
      * left. split; [reflexivity|]. split; [reflexivity|]. split; [|exact Ht].
        do 7 eexists. reflexivity.
      * right. left. split; [reflexivity|]. split; [reflexivity | exact Ht].
    + split; [reflexivity|]. split; [reflexivity|]. left. auto.
    + split; [reflexivity|]. split; [reflexivity|]. right. auto.
  - cbn [fst snd]. right. right. split; [reflexivity|].
    exists at_interrupt. split; reflexivity.
  - cbn [fst]. exists at_interrupt. reflexivity.
Qed.

(** ** The rasterizer and the document it opens *)

Section KeepsLive.

Lemma keeps_live_ret {A} (a : A) : keeps_live (ret a).
Proof. intros w. reflexivity. Qed.

Lemma keeps_live_raise {A} (e : exn) : keeps_live (@raise A e).
Proof. intros w. reflexivity. Qed.

Lemma keeps_live_lift {A} (o : outcome A) : keeps_live (lift o).
Proof. intros w. reflexivity. Qed.

Lemma keeps_live_emit (ev : event) : keeps_live (emit ev).
Proof. intros w. reflexivity. Qed.

Lemma keeps_live_fresh : keeps_live fresh.
Proof. intros w. reflexivity. Qed.

Lemma keeps_live_bind {A B} (m : M A) (k : A -> M B) :
  keeps_live m -> (forall a, keeps_live (k a)) -> keeps_live (bind m k).
Proof.
  intros Hm Hk w. unfold bind. specialize (Hm w).
  destruct (m w) as [[a | e] w1]; cbn [snd] in *; [rewrite Hk|]; exact Hm.
Qed.

Lemma keeps_live_for_each {A S} (l : list A) (body : S -> A -> M S) (acc : S) :
  (forall acc x, keeps_live (body acc x)) -> keeps_live (for_each l body acc).
Proof.
  intros Hb. revert acc. induction l as [|x l IH]; intros acc; cbn [for_each].
  - apply keeps_live_ret.
  - apply keeps_live_bind; [apply Hb | exact IH].
Qed.

End KeepsLive.

Ltac keeps_live_step :=
  match goal with
  | |- keeps_live (bind _ _) => apply keeps_live_bind; [|intros]
  | |- keeps_live (for_each _ _ _) => apply keeps_live_for_each; intros
  | |- keeps_live (ret _) => apply keeps_live_ret
  | |- keeps_live (raise _) => apply keeps_live_raise
  | |- keeps_live (lift _) => apply keeps_live_lift
  | |- keeps_live (emit _) => apply keeps_live_emit
  | |- keeps_live fresh => apply keeps_live_fresh
  | |- keeps_live (if ?c then _ else _) => destruct c
  | |- keeps_live (match ?x with _ => _ end) => destruct x
  | |- keeps_live _ =>
      progress unfold logging_info, logging_warning, logging_error, getitem,
        page_get_pixmap, call_Image_frombytes, write_file, mkdir,
        pdf_to_image.int_truediv_float
  | |- keeps_live _ => progress cbv beta zeta
  end.

Section RasterizerDocument.

Variable rt : runtime.
Variables pdf_path output_dir : Path.
Variable image_format : string.
Variable dpi : Z.

Lemma convert_page_keeps_live (doc : Document) (image_paths : list string)
    (page_num : Z) :
  keeps_live (pdf_to_image.convert_page rt pdf_path output_dir image_format dpi doc
                image_paths page_num).
Proof. unfold pdf_to_image.convert_page. repeat keeps_live_step. Qed.

Lemma mkdir_frame (d : Path) (w w' : world) (a : unit) :
  mkdir rt d w = (Return a, w') ->
  live w' = live w /\ next_handle w' = next_handle w.
Proof.
  unfold mkdir. run_monad. destruct (mkdir_error rt (path_str d)); [discriminate|].
  intros H. injection H as _ <-. auto.
Qed.

Lemma call_fitz_open_frame (path : string) (w w' : world) (doc : Document) :
  call_fitz_open rt path w = (Return doc, w') ->
  doc_id doc = next_handle w /\ live w' = next_handle w :: live w.
Proof.
  unfold call_fitz_open. run_monad. destruct (fitz_open rt path); [|discriminate].
  cbv beta iota zeta. intros H. injection H as <- <-. auto.
Qed.

Lemma logging_info_frame (msg : string) (w w' : world) (a : unit) :
  logging_info msg w = (Return a, w') ->
  live w' = live w /\ next_handle w' = next_handle w /\
  trace w' = Log INFO msg :: trace w.
Proof. intros H. injection H as _ <-. auto. Qed.

Lemma doc_close_frame (doc : Document) (w w' : world) (a : unit) :
  doc_close doc w = (Return a, w') ->
  live w' = filter (fun h' => negb (h' =? doc_id doc)%N) (live w) /\
  trace w' = Call_close (doc_id doc) :: trace w.
Proof. intros H. injection H as _ <-. auto. Qed.

End RasterizerDocument.

(** X10.  The rasterizer closes its document when it returns.  If
    [convert_pdf_to_images] returns, the document it opened is closed and
    no other handle was left open: every handle open afterwards was open
    before. *)
Theorem rasterizer_closes_document_on_return (rt : runtime)
    (pdf_path output_dir : Path) (image_format : string) (dpi : Z)
    (page_range : option (Z * Z)) (w w' : world) (paths : list string) :
  pdf_to_image.convert_pdf_to_images rt pdf_path output_dir image_format dpi
    page_range w = (Return paths, w') ->
  In (Call_close (next_handle w)) (trace w') /\
  ~ In (next_handle w) (live w') /\
  forall h, In h (live w') -> In h (live w).
Proof.
  intros H. unfold pdf_to_image.convert_pdf_to_images in H.
  apply bind_inv in H. destruct H as (? & v0 & Hmk & H).
  apply mkdir_frame in Hmk. destruct Hmk as [L0 N0].
  apply try_except_inv in H. destruct H as [H | (e & v & _ & H)]; [|discriminate H].
  apply bind_inv in H. destruct H as (doc & v1 & Hopen & H).
  apply call_fitz_open_frame in Hopen. destruct Hopen as [Hid L1].
  cbv zeta in H.
  apply bind_inv in H. destruct H as (? & v2 & L2 & H).
  apply logging_info_frame in L2. destruct L2 as (L2 & _ & _).
  apply bind_inv in H. destruct H as (? & v3 & L3 & H).
  apply logging_info_frame in L3. destruct L3 as (L3 & _ & _).
  apply bind_inv in H. destruct H as (image_paths & v4 & Hloop & H).
  assert (L4 : live v4 = live v3).
  { match type of Hloop with
    | for_each ?l ?b ?a ?v = _ =>
        pose proof (keeps_live_for_each l b a
                      (convert_page_keeps_live rt pdf_path output_dir image_format dpi doc)
                      v) as Hk
    end.
    rewrite Hloop in Hk. exact Hk. }
  apply bind_inv in H. destruct H as (? & v5 & Hclose & H).
  apply doc_close_frame in Hclose. destruct Hclose as [L5 T5].
  apply bind_inv in H. destruct H as (? & v6 & L6 & H).
  apply logging_info_frame in L6. destruct L6 as (L6 & _ & T6).
  injection H as _ <-.
  rewrite T6, T5, L6, L5, L4, L3, L2, L1, Hid, N0, L0.
  split; [right; left; reflexivity|].
  split; [apply released_not_live|].
  intros h Hh. apply filter_In in Hh. destruct Hh as [Hh Hne].
  destruct Hh as [<- | Hh]; [|exact Hh].
  rewrite N.eqb_refl in Hne. discriminate.
Qed.

Lemma rasterizer_closes_document_on_return_witness :
  let w' := snd (pdf_to_image.convert_pdf_to_images Demo.rt Demo.sample_pdf Demo.out_dir
                   "jpeg" 150 None initial_world) in
  In (Call_close (next_handle initial_world)) (trace w') /\
  ~ In (next_handle initial_world) (live w') /\
  forall h, In h (live w') -> In h (live initial_world).
Proof.
  intros w'.
  apply (rasterizer_closes_document_on_return Demo.rt Demo.sample_pdf Demo.out_dir
           "jpeg" 150 None initial_world w'
           ["/work/images/sample-page1.jpeg"; "/work/images/sample-page2.jpeg";
            "/work/images/sample-page3.jpeg"]).
  vm_compute. reflexivity.
Defined.

(** ** What the rasterizer and the assembler write *)

Lemma emits_bind_val (P : event -> Prop) {A B} (m : M A) (k : A -> M B) :
  emits P m ->
  (forall a, (exists w w', m w = (Return a, w')) -> emits P (k a)) ->
  emits P (bind m k).
Proof.
  intros Hm Hk w. unfold bind.
  destruct (Hm w) as (n1 & E1 & F1). destruct (m w) as [[a | e] w1] eqn:Em; simpl in E1.
  - destruct (Hk a (ex_intro _ w (ex_intro _ w1 Em)) w1) as (n2 & E2 & F2).
    exists (n2 ++ n1)%list.
    rewrite E2, E1, app_assoc. split; [reflexivity | apply Forall_app; auto].
  - exists n1. auto.
Qed.

Lemma emits_for_each_In (P : event -> Prop) {A S} (l : list A) (body : S -> A -> M S)
    (acc : S) :
  (forall acc x, In x l -> emits P (body acc x)) -> emits P (for_each l body acc).
Proof.
  revert acc. induction l as [|x l IH]; intros acc Hb; cbn [for_each].
  - apply emits_ret.
  - apply emits_bind; [apply Hb; left; reflexivity|].
    intros acc'. apply IH. intros acc'' y Hy. apply Hb. right. exact Hy.
Qed.

Lemma write_file_emits (P : event -> Prop) (rt : runtime) (path : string) (f : file) :
  P (Wrote path f) -> emits P (write_file rt path f).
Proof.
  intros H. unfold write_file. destruct (write_error rt path);
    [apply emits_raise | apply emits_emit; exact H].
Qed.

Section RasterizerWrites.

Variable rt : runtime.
Variables pdf_path output_dir : Path.
Variable image_format : string.
Variable dpi : Z.
Variable page_range : option (Z * Z).

Let P := page_image_event rt pdf_path output_dir image_format page_range.

Lemma convert_page_writes (doc : Document) (image_paths : list string) (page_num : Z) :
  fitz_open rt (path_str pdf_path) = Return (doc_pages doc) ->
  In page_num
     (range match page_range with Some (s, _) => Z.max 0 (s - 1) | None => 0 end
            match page_range with
            | Some (_, e) => Z.min (Z.of_nat (List.length (doc_pages doc))) e
            | None => Z.of_nat (List.length (doc_pages doc))
            end) ->
  emits P (pdf_to_image.convert_page rt pdf_path output_dir image_format dpi doc
             image_paths page_num).
Proof.
  intros Hdoc Hk. apply range_In in Hk.
  assert (HP : forall f,
             (exists pix, f = PngFile pix) \/ (exists img, f = JpegFile img 95) ->
             P (Wrote (joinpath output_dir
                         (stem pdf_path ++ "-page" ++ str_of_int (page_num + 1) ++ "."
                          ++ image_format)) f)).
  { intros f Hf. exists (page_num + 1).
    split; [destruct page_range as [[s e]|]; lia|].
    split; [destruct page_range as [[s e]|]; [lia | exact I]|].
    split; [| split; [reflexivity | exact Hf]].
    intros pages Hpages. rewrite Hdoc in Hpages. injection Hpages as <-.
    destruct page_range as [[s e]|]; lia. }
  unfold pdf_to_image.convert_page.
  apply emits_bind; [repeat emits_step | intros page].
  apply emits_bind;
    [unfold pdf_to_image.int_truediv_float; repeat emits_step | intros zoom].
  cbv zeta.
  apply emits_bind; [unfold page_get_pixmap; apply emits_bind;
                     [apply emits_emit; exact I | intros; apply emits_lift]
                    | intros pix].
  apply emits_bind; [| intros; apply emits_bind; [|intros; apply emits_ret];
                       apply emits_emit; exact I].
  destruct (lower image_format =? "png")%string.
  - apply write_file_emits, HP. left. eexists. reflexivity.
  - destruct ((lower image_format =? "jpg")%string || (lower image_format =? "jpeg")%string);
      [|apply emits_ret].
    apply emits_bind.
    + unfold call_Image_frombytes.
      apply emits_bind; [apply emits_emit; exact I | intros].
      apply emits_bind; [apply emits_lift | intros].
      apply emits_bind; [apply emits_fresh | intros; apply emits_ret].
    + intros img. apply write_file_emits, HP. right. eexists. reflexivity.
Qed.

Lemma call_fitz_open_val (path : string) (doc : Document) :
  (exists w w', call_fitz_open rt path w = (Return doc, w')) ->
  fitz_open rt path = Return (doc_pages doc).
Proof. intros (w & w' & H). apply call_fitz_open_returns in H. apply H. Qed.

End RasterizerWrites.

(** X11.  Where the rasterizer writes.  On every run, whether it returns or
    raises, each file [convert_pdf_to_images] writes is the image of a
    page: for a page number [N] that is at least 1, inside the requested
    range when one is given, and not past the last page of the document,
    the file is [<stem>-page<N>.<format>] in the output directory, written
    as a PNG of the rendered pixmap or as a JPEG of quality 95.  It writes
    nothing else and opens no image file. *)
Theorem rasterizer_writes_page_images (rt : runtime) (pdf_path output_dir : Path)
    (image_format : string) (dpi : Z) (page_range : option (Z * Z)) (w : world) :
  exists new,
    trace (snd (pdf_to_image.convert_pdf_to_images rt pdf_path output_dir image_format
                  dpi page_range w))
    = (new ++ trace w)%list /\
    Forall (page_image_event rt pdf_path output_dir image_format page_range) new.
Proof.
  revert w.
  change (emits (page_image_event rt pdf_path output_dir image_format page_range)
            (pdf_to_image.convert_pdf_to_images rt pdf_path output_dir image_format dpi
               page_range)).
  unfold pdf_to_image.convert_pdf_to_images.
  apply emits_bind.
  { unfold mkdir. apply emits_bind; [apply emits_emit; exact I|].
    intros. destruct (mkdir_error rt (path_str output_dir));
      [apply emits_raise | apply emits_ret]. }
  intros _.
  apply emits_try_except;
    [| intros; apply emits_bind; [apply emits_emit; exact I | intros; apply emits_raise]].
  apply emits_bind_val.
  { unfold call_fitz_open. apply emits_bind; [apply emits_emit; exact I | intros].
    apply emits_bind; [apply emits_lift | intros].
    apply emits_bind; [apply emits_acquire | intros; apply emits_ret]. }
  intros doc Hdoc. apply call_fitz_open_val in Hdoc. cbv zeta.
  apply emits_bind; [apply emits_emit; exact I | intros _].
  apply emits_bind; [apply emits_emit; exact I | intros _].
  apply emits_bind.
  - apply emits_for_each_In. intros acc k Hk. apply convert_page_writes; assumption.
  - intros paths. apply emits_bind.
    + unfold doc_close. apply emits_bind; [apply emits_emit; exact I | intros].
      apply emits_release.
    + intros. apply emits_bind; [apply emits_emit; exact I | intros; apply emits_ret].
Qed.

(** X12.  A format that is neither PNG nor JPEG.  When the format, in lower
    case, is none of ['png'], ['jpg'], ['jpeg'], [convert_pdf_to_images]
    writes no file at all, on any run. *)
Theorem rasterizer_unknown_format_writes_nothing (rt : runtime)
    (pdf_path output_dir : Path) (image_format : string) (dpi : Z)
    (page_range : option (Z * Z)) (w : world) :
  lower image_format <> "png" ->
  lower image_format <> "jpg" ->
  lower image_format <> "jpeg" ->
  exists new,
    trace (snd (pdf_to_image.convert_pdf_to_images rt pdf_path output_dir image_format
                  dpi page_range w))
    = (new ++ trace w)%list /\
    Forall not_wrote new.
Proof.
  intros H1 H2 H3. apply String.eqb_neq in H1, H2, H3. revert w.
  change (emits not_wrote
            (pdf_to_image.convert_pdf_to_images rt pdf_path output_dir image_format dpi
               page_range)).
  unfold pdf_to_image.convert_pdf_to_images, pdf_to_image.convert_page,
    pdf_to_image.int_truediv_float.
  rewrite H1, H2, H3. cbn [orb]. repeat emits_step.
Qed.

Lemma rasterizer_unknown_format_writes_nothing_witness :
  exists new,
    trace (snd (pdf_to_image.convert_pdf_to_images Demo.rt Demo.sample_pdf Demo.out_dir
                  "BMP" 150 None initial_world))
    = (new ++ trace initial_world)%list /\
    Forall not_wrote new.
Proof.
  apply (rasterizer_unknown_format_writes_nothing Demo.rt Demo.sample_pdf Demo.out_dir
           "BMP" 150 None initial_world); discriminate.
Defined.

(** X13.  Where the assembler writes.  On every run, whether it returns or
    raises, [images_to_pdf] writes nothing but a PDF of resolution 150 at
    the output path; it renders no page and creates no directory. *)
Theorem assembler_writes_only_the_pdf (rt : runtime) (image_paths : list string)
    (output_pdf_path : string) (w : world) :
  exists new,
    trace (snd (pdf_to_image.images_to_pdf rt image_paths output_pdf_path w))
    = (new ++ trace w)%list /\
    Forall (assembler_event output_pdf_path) new.
Proof.
  revert w.
  change (emits (assembler_event output_pdf_path)
            (pdf_to_image.images_to_pdf rt image_paths output_pdf_path)).
  unfold pdf_to_image.images_to_pdf.
  apply emits_try_except; [| intros; repeat emits_step].
  destruct image_paths as [|first_path rest]; [apply emits_raise|].
  apply emits_bind; [repeat emits_step | intros _].
  apply emits_bind; [repeat emits_step | intros first_image].
  apply emits_bind; [repeat emits_step | intros images].
  apply emits_bind; [repeat emits_step | intros first_image'].
  apply emits_bind; [| intros; repeat emits_step].
  unfold pdf_to_image.save_pdf. apply write_file_emits.
  split; [reflexivity | eexists; reflexivity].
Qed.

(** ** A page range past the end of the document *)

Lemma range_empty (a b : Z) : b <= a -> range a b = [].
Proof. intros H. unfold range. replace (Z.to_nat (b - a)) with 0%nat by lia. reflexivity. Qed.

Lemma writes_not_wrote (new t : list event) :
  Forall not_wrote new -> writes (new ++ t) = writes t.
Proof.
  induction 1 as [|ev new Hev _ IH]; [reflexivity|].
  cbn [app]. rewrite writes_cons, IH. destruct ev; try contradiction; apply app_nil_r.
Qed.

Lemma renders_not_rendered (new t : list event) :
  Forall log_only new -> renders (new ++ t) = renders t.
Proof.
  induction 1 as [|ev new Hev _ IH]; [reflexivity|].
  cbn [app]. rewrite renders_cons, IH. destruct ev; try contradiction; apply app_nil_r.
Qed.

Lemma emits_run (P : event -> Prop) {A} (m : M A) (w w' : world) (o : outcome A) :
  emits P m -> m w = (o, w') ->
  exists new, trace w' = (new ++ trace w)%list /\ Forall P new.
Proof. intros Hm E. destruct (Hm w) as (new & En & F). rewrite E in En. eauto. Qed.

Section EmptyRange.

Variable rt : runtime.
Variables pdf_path output_dir : Path.
Variable image_format : string.
Variable dpi : Z.

Lemma convert_empty_range_run (page_range : option (Z * Z)) (pages : list fitz_page)
    (w : world) :
  mkdir_error rt (path_str output_dir) = None ->
  fitz_open rt (path_str pdf_path) = Return pages ->
  match page_range with
  | Some (_, e) => Z.min (Z.of_nat (List.length pages)) e
  | None => Z.of_nat (List.length pages)
  end <= match page_range with Some (s, _) => Z.max 0 (s - 1) | None => 0 end ->
  exists w' new,
    pdf_to_image.convert_pdf_to_images rt pdf_path output_dir image_format dpi
      page_range w = (Return [], w') /\
    trace w' = (new ++ trace w)%list /\
    Forall (fun ev => not_wrote ev /\ renders [ev] = []) new /\
    live w' = filter (fun h' => negb (h' =? next_handle w)%N) (next_handle w :: live w).
Proof.
  intros Hmk Hopen Hempty.
  unfold pdf_to_image.convert_pdf_to_images, mkdir, call_fitz_open, doc_close.
  run_monad. rewrite Hmk. cbv beta iota zeta. rewrite Hopen. cbv beta iota zeta.
  cbn [doc_pages doc_id trace live next_handle].
  rewrite (range_empty _ _ Hempty). cbn [for_each]. unfold ret. cbv beta iota zeta.
  eexists. refine (ex_intro _ [_; _; _; _; _; _] _).
  split; [reflexivity|]. split; [reflexivity|]. split; [|reflexivity].
  repeat constructor.
Qed.

End EmptyRange.

(** X14.  A page range past the end.  The output directory can be created,
    the document opens, and the requested range, clamped to the document,
    is empty (it starts after the last page, or the document has no page).
    Then [convert_pdf_to_images] returns the empty list: it renders nothing,
    writes nothing, raises nothing, and closes the document. *)
Theorem rasterizer_empty_range (rt : runtime) (pdf_path output_dir : Path)
    (image_format : string) (dpi : Z) (page_range : option (Z * Z))
    (pages : list fitz_page) (w : world) :
  mkdir_error rt (path_str output_dir) = None ->
  fitz_open rt (path_str pdf_path) = Return pages ->
  match page_range with
  | Some (_, e) => Z.min (Z.of_nat (List.length pages)) e
  | None => Z.of_nat (List.length pages)
  end <= match page_range with Some (s, _) => Z.max 0 (s - 1) | None => 0 end ->
  let run := pdf_to_image.convert_pdf_to_images rt pdf_path output_dir image_format dpi
               page_range w in
  fst run = Return [] /\
  writes (trace (snd run)) = writes (trace w) /\
  renders (trace (snd run)) = renders (trace w) /\
  ~ In (next_handle w) (live (snd run)).
Proof.
  intros Hmk Hopen Hempty run.
  destruct (convert_empty_range_run rt pdf_path output_dir image_format dpi page_range
              pages w Hmk Hopen Hempty) as (w' & new & E & T & F & L).
  unfold run. rewrite E. cbn [fst snd]. split; [reflexivity|]. rewrite T, L.
  split; [|split].
  - apply writes_not_wrote. apply Forall_impl with (2 := F). tauto.
  - clear -F. induction F as [|ev new [_ Hev] _ IH]; [reflexivity|].
    cbn [app]. rewrite renders_cons, IH.
    unfold renders in Hev. cbn in Hev. rewrite app_nil_r in Hev. rewrite Hev.
    apply app_nil_r.
  - apply released_not_live.
Qed.

Lemma rasterizer_empty_range_witness :
  let run := pdf_to_image.convert_pdf_to_images Demo.rt Demo.sample_pdf Demo.out_dir
               "png" 150 (Some (5, 9)) initial_world in
  fst run = Return [] /\
  writes (trace (snd run)) = writes (trace initial_world) /\
  renders (trace (snd run)) = renders (trace initial_world) /\
  ~ In (next_handle initial_world) (live (snd run)).
Proof.
  apply (rasterizer_empty_range Demo.rt Demo.sample_pdf Demo.out_dir "png" 150
           (Some (5, 9)) (map Demo.a4_page [1; 2; 3]%N) initial_world).
  - reflexivity.
  - reflexivity.
  - cbn. lia.
Defined.

Lemma images_to_pdf_nil (rt : runtime) (output_pdf_path : string) (w : world) :
  pdf_to_image.images_to_pdf rt [] output_pdf_path w
  = (Raise (ValueError "画像ファイルのリストが空です"),
     {| trace := Log ERROR ("画像からPDF作成に失敗しました: " ++ "画像ファイルのリストが空です")
                 :: trace w;
        live := live w; next_handle := next_handle w |}).
Proof. reflexivity. Qed.

Lemma prelude_not_wrote (pdf_path : Path) (ev : event) :
  prelude_event pdf_path ev -> not_wrote ev.
Proof. destruct ev; simpl; auto. Qed.

(** X15.  The command on a page range past the end.  The PDF file exists,
    the output directory can be created, the document opens, and the page
    range is well formed but starts after the last page.  Then [main] of
    [pdf_to_image.py] writes no file.  Without [--create-pdf] it returns
    status 0.  With [--create-pdf] the assembler is given the empty list,
    and [main] returns status 1, its last record being the error that the
    list of images is empty. *)
Theorem image_main_range_past_the_end (rt : runtime) (args : pdf_to_image.arguments)
    (pages : list fitz_page) (s e : Z) (w : world) :
  path_exists rt (path_str (pdf_to_image.args_pdf args)) = true ->
  path_is_file rt (path_str (pdf_to_image.args_pdf args)) = true ->
  mkdir_error rt (path_str (pdf_to_image.args_output_dir args)) = None ->
  fitz_open rt (path_str (pdf_to_image.args_pdf args)) = Return pages ->
  pdf_to_image.args_pages args = Some (s, e) ->
  1 <= s <= e ->
  Z.of_nat (List.length pages) < s ->
  exists w',
    pdf_to_image.main rt args w
    = (Return (if pdf_to_image.args_create_pdf args then 1 else 0), w') /\
    writes (trace w') = writes (trace w) /\
    (pdf_to_image.args_create_pdf args = true ->
     exists t, trace w' = Log ERROR "画像ファイルのリストが空です" :: t).
Proof.
  intros Hex Hfile Hmk Hopen Hpages Hse Hpast.
  enough (exists w' new,
            pdf_to_image.main rt args w
            = (Return (if pdf_to_image.args_create_pdf args then 1 else 0), w') /\
            trace w' = (new ++ trace w)%list /\ Forall not_wrote new /\
            (pdf_to_image.args_create_pdf args = true ->
             exists t, trace w' = Log ERROR "画像ファイルのリストが空です" :: t))
    as (w' & new & E & T & F & Hlast).
  { exists w'. split; [exact E|]. split; [|exact Hlast].
    rewrite T. apply writes_not_wrote, F. }
  unfold pdf_to_image.main, try_except, logging_info. rewrite bind_emit.
  match goal with
  | |- context [bind (pdf_to_image.validate_pdf_file _ _) _ ?w0] =>
      destruct (validate_passes rt args w0 Hex Hfile) as (w1 & pre & Hv & T1 & F1)
  end.
  rewrite (bind_Return _ _ _ _ _ Hv). cbv zeta. rewrite Hpages.
  replace (s <? 1) with false by (symmetry; apply Z.ltb_ge; lia).
  replace (e <? s) with false by (symmetry; apply Z.ltb_ge; lia).
  unfold pdf_to_image.main_convert.
  match goal with
  | |- context [bind (if ?c then ?a else ?b) _ w1] =>
      assert (Hwarn : exists w2 nw, (if c then a else b) w1 = (Return tt, w2) /\
                                    trace w2 = (nw ++ trace w1)%list /\
                                    Forall not_wrote nw)
  end.
  { destruct (_ || _).
    - eexists. refine (ex_intro _ [_] _). split; [reflexivity|].
      split; [reflexivity | repeat constructor].
    - exists w1, []. repeat split. constructor. }
  destruct Hwarn as (w2 & nw & Hw & T2 & F2).
  rewrite (bind_Return _ _ _ _ _ Hw).
  match goal with
  | |- context [pdf_to_image.convert_pdf_to_images rt ?p ?d ?f ?dpi ?r] =>
      destruct (convert_empty_range_run rt p d f dpi r pages w2 Hmk Hopen)
        as (w3 & nc & Hc & T3 & F3 & _); [lia|]
  end.
  rewrite (bind_Return _ _ _ _ _ Hc).
  assert (F1' : Forall not_wrote pre)
    by (apply Forall_impl with (2 := F1); apply prelude_not_wrote).
  assert (F3' : Forall not_wrote nc) by (apply Forall_impl with (2 := F3); tauto).
  cbn [trace] in T1.
  destruct (pdf_to_image.args_create_pdf args).
  - rewrite (bind_Raise _ _ _ _ _ (images_to_pdf_nil rt _ w3)). cbv beta iota.
    unfold bind, logging_error, emit, ret. cbv beta iota.
    eexists. refine (ex_intro _ ((_ :: _ :: nc) ++ nw ++ pre ++ [_])%list _).
    split; [reflexivity|]. cbn [trace]. rewrite T3, T2, T1.
    split; [rewrite <- !app_assoc; reflexivity|].
    split; [| intros _; eexists; reflexivity].
    repeat (apply Forall_app; split); try assumption; repeat constructor; assumption.
  - unfold bind at 1, ret at 1. cbv beta iota.
    unfold bind, logging_info, emit, ret. cbv beta iota.
    eexists. refine (ex_intro _ ((_ :: nc) ++ nw ++ pre ++ [_])%list _).
    split; [reflexivity|]. cbn [trace]. rewrite T3, T2, T1.
    split; [rewrite <- !app_assoc; reflexivity|].
    split; [| discriminate].
    repeat (apply Forall_app; split); try assumption; repeat constructor; assumption.
Qed.

Lemma image_main_range_past_the_end_witness :
  exists w',
    pdf_to_image.main Demo.rt (Examples.image_args "png" 150 (Some (5, 9)) true)
      initial_world
    = (Return 1, w') /\
    writes (trace w') = writes (trace initial_world) /\
    (true = true -> exists t, trace w' = Log ERROR "画像ファイルのリストが空です" :: t).
Proof.
  apply (image_main_range_past_the_end Demo.rt
           (Examples.image_args "png" 150 (Some (5, 9)) true)
           (map Demo.a4_page [1; 2; 3]%N) 5 9 initial_world).
  - reflexivity.
  - reflexivity.
  - reflexivity.
  - reflexivity.
  - reflexivity.
  - lia.
  - cbn. lia.
Defined.

(** ** The assembled PDF *)

Section AssemblerReturns.

Variable rt : runtime.

Lemma open_loop_length (rest : list string) :
  forall (acc images : list Image) (w w' : world),
  for_each rest
    (fun images img_path =>
       img <- call_Image_open rt img_path ;;
       img <- pdf_to_image.to_RGB rt img ;;
       ret (images ++ [img])%list) acc w
  = (Return images, w') ->
  List.length images = (List.length acc + List.length rest)%nat.
Proof.
  induction rest as [|p rest IH]; intros acc images w w' H; cbn [for_each] in H.
  - injection H as <- _. cbn. lia.
  - apply bind_inv in H. destruct H as (acc' & w1 & H1 & H).
    apply bind_inv in H1. destruct H1 as (img & v1 & _ & H1).
    apply bind_inv in H1. destruct H1 as (img' & v2 & _ & H1).
    injection H1 as <- _. apply IH in H. rewrite H, length_app. cbn. lia.
Qed.

(** When the assembler returns it has written the PDF, with one page for
    each image path. *)
Lemma images_to_pdf_returns (image_paths : list string) (output_pdf_path : string)
    (w w' : world) (a : unit) :
  pdf_to_image.images_to_pdf rt image_paths output_pdf_path w = (Return a, w') ->
  exists pages new,
    trace w' = (new ++ trace w)%list /\
    In (Wrote output_pdf_path (PdfFile pages 150)) new /\
    List.length pages = List.length image_paths /\
    image_paths <> [].
Proof.
  intros H. unfold pdf_to_image.images_to_pdf in H.
  apply try_except_inv in H. destruct H as [H | (e & v & _ & H)]; [|discriminate H].
  destruct image_paths as [|first_path rest]; [discriminate H|].
  apply bind_inv in H. destruct H as (? & v0 & H0 & H).
  apply (emits_run any_event) in H0; [|repeat emits_step; exact I].
  destruct H0 as (n0 & T0 & _).
  apply bind_inv in H. destruct H as (first & v1 & H1 & H).
  apply (emits_run any_event) in H1; [|repeat emits_step; exact I].
  destruct H1 as (n1 & T1 & _).
  apply bind_inv in H. destruct H as (images & v2 & H2 & H).
  pose proof (open_loop_length _ _ _ _ _ H2) as Hlen.
  apply (emits_run any_event) in H2; [|repeat emits_step; exact I].
  destruct H2 as (n2 & T2 & _).
  apply bind_inv in H. destruct H as (first' & v3 & H3 & H).
  apply (emits_run any_event) in H3; [|repeat emits_step; exact I].
  destruct H3 as (n3 & T3 & _).
  apply bind_inv in H. destruct H as (? & v4 & H4 & H).
  unfold pdf_to_image.save_pdf, write_file in H4.
  destruct (write_error rt output_pdf_path); [discriminate H4|].
  injection H4 as _ <-.
  apply (emits_run any_event) in H; [|repeat emits_step; exact I].
  destruct H as (n5 & T5 & _).
  exists (im first' :: map im images).
  exists (n5 ++ Wrote output_pdf_path (PdfFile (im first' :: map im images) 150)
             :: n3 ++ n2 ++ n1 ++ n0)%list.
  split; [|split; [|split]].
  - rewrite T5. cbn [trace]. rewrite T3, T2, T1, T0, <- !app_assoc. cbn [app].
    rewrite <- !app_assoc. reflexivity.
  - apply in_or_app. right. left. reflexivity.
  - cbn [List.length]. rewrite length_map, Hlen. reflexivity.
  - discriminate.
Qed.

End AssemblerReturns.

(** X16.  Status 0 with [--create-pdf].  If [main] of [pdf_to_image.py]
    returns status 0 and [--create-pdf] was given, then during the run a
    PDF with at least one page, of resolution 150, was written at the path
    given with a non-empty [--output-pdf], or else at [<stem>_images.pdf] in
    the output directory. *)
Theorem image_main_success_writes_pdf (rt : runtime) (args : pdf_to_image.arguments)
    (w w' : world) :
  pdf_to_image.main rt args w = (Return 0, w') ->
  pdf_to_image.args_create_pdf args = true ->
  let output_pdf_path :=
    match pdf_to_image.args_output_pdf args with
    | Some p => p
    | None => joinpath (pdf_to_image.args_output_dir args)
                (stem (pdf_to_image.args_pdf args) ++ "_images.pdf")
    end in
  exists pages new,
    trace w' = (new ++ trace w)%list /\
    In (Wrote output_pdf_path (PdfFile pages 150)) new /\
    pages <> [].
Proof.
  intros H Hcreate output_pdf_path.
  assert (Hconv : forall fmt pr v v',
    pdf_to_image.main_convert rt args fmt pr v = (Return 0, v') ->
    exists pages new,
      trace v' = (new ++ trace v)%list /\
      In (Wrote output_pdf_path (PdfFile pages 150)) new /\ pages <> []).
  { intros fmt pr v v' Hc. unfold pdf_to_image.main_convert in Hc.
    apply bind_inv in Hc. destruct Hc as (? & v2 & H2 & Hc).
    apply (emits_run any_event) in H2; [|repeat emits_step; exact I].
    destruct H2 as (n2 & T2 & _).
    apply bind_inv in Hc. destruct Hc as (paths & v3 & H3 & Hc).
    apply (emits_run any_event) in H3;
      [| apply emits_weaken with (P := rasterizer_event (pdf_to_image.args_dpi args));
         [intros; exact I | apply convert_pdf_to_images_emits]].
    destruct H3 as (n3 & T3 & _).
    apply bind_inv in Hc. destruct Hc as (? & v4 & H4 & Hc).
    rewrite Hcreate in H4. fold output_pdf_path in H4.
    apply images_to_pdf_returns in H4.
    destruct H4 as (pages & n4 & T4 & Hin & Hlen & Hne).
    apply (emits_run any_event) in Hc; [|repeat emits_step; exact I].
    destruct Hc as (n5 & T5 & _).
    exists pages, (n5 ++ n4 ++ n3 ++ n2)%list. split; [|split].
    - rewrite T5, T4, T3, T2, <- !app_assoc. reflexivity.
    - apply in_or_app. right. apply in_or_app. left. exact Hin.
    - intros ->. destruct paths; [contradiction | discriminate Hlen]. }
  unfold pdf_to_image.main in H.
  apply try_except_inv in H. destruct H as [H | (e & v & _ & H)].
  - apply bind_inv in H. destruct H as (? & v1 & H1 & H).
    apply (emits_run any_event) in H1; [|repeat emits_step; exact I].
    destruct H1 as (n1 & T1 & _).
    apply bind_inv in H. destruct H as (? & v2 & H2 & H).
    apply (emits_run any_event) in H2;
      [| apply emits_weaken with (P := log_only);
         [intros; exact I | apply image_validate_log_only]].
    destruct H2 as (n2 & T2 & _).
    cbv zeta in H.
    assert (Hmc : exists fmt pr,
               pdf_to_image.main_convert rt args fmt pr v2 = (Return 0, w')).
    { destruct (pdf_to_image.args_pages args) as [[s e]|]; [|eauto].
      destruct (s <? 1); [discriminate H|].
      destruct (e <? s); [discriminate H|]. eauto. }
    destruct Hmc as (fmt & pr & Hmc). apply Hconv in Hmc.
    destruct Hmc as (pages & new & T & Hin & Hne).
    exists pages, (new ++ n2 ++ n1)%list. split; [|split].
    + rewrite T, T2, T1, <- !app_assoc. reflexivity.
    + apply in_or_app. left. exact Hin.
    + exact Hne.
  - destruct (image_main_handler e v) as (msg & Hh). rewrite Hh in H. discriminate H.
Qed.

Lemma image_main_success_writes_pdf_witness :
  let args := Examples.image_args "png" 150 (Some (1, 2)) true in
  exists pages new,
    trace (snd (pdf_to_image.main Examples.rt_page_images args initial_world))
    = (new ++ trace initial_world)%list /\
    In (Wrote "/work/images/sample_images.pdf" (PdfFile pages 150)) new /\
    pages <> [].
Proof.
  intros args.
  apply (image_main_success_writes_pdf Examples.rt_page_images args initial_world
           (snd (pdf_to_image.main Examples.rt_page_images args initial_world))).
  - vm_compute. reflexivity.
  - reflexivity.
Defined.

(** * The rasterizer: what it renders and what it writes *)

Lemma renders_app (new t : list event) :
  renders (new ++ t) = (renders t ++ renders new)%list.
Proof. unfold renders. rewrite rev_app_distr, flat_map_app. reflexivity. Qed.

Lemma writes_app (new t : list event) :
  writes (new ++ t) = (writes t ++ writes new)%list.
Proof. unfold writes. rewrite rev_app_distr, flat_map_app. reflexivity. Qed.

(** Steps that neither render nor write. *)
Lemma quiet_run {A} (m : M A) (w w' : world) (o : outcome A) :
  emits (fun ev => not_wrote ev /\ renders [ev] = []) m -> m w = (o, w') ->
  writes (trace w') = writes (trace w) /\ renders (trace w') = renders (trace w).
Proof.
  intros Hm E. destruct (emits_run _ _ _ _ _ Hm E) as (new & -> & F).
  rewrite writes_app, renders_app.
  assert (writes new = [] /\ renders new = []) as [-> ->]; [|rewrite !app_nil_r; auto].
  clear E. induction F as [|ev new [Hw Hr] _ [IHw IHr]]; [auto|].
  change (ev :: new) with ([ev] ++ new)%list. rewrite writes_app, renders_app, IHw, IHr, Hr.
  split; [|reflexivity]. destruct ev; try contradiction; reflexivity.
Qed.

Lemma scales_by_unique (dpi : Z) (mat1 mat2 : Matrix) :
  scales_by dpi mat1 -> scales_by dpi mat2 -> mat1 = mat2.
Proof. intros (z1 & E1 & ->) (z2 & E2 & ->). congruence. Qed.

Section RasterizerFiles.

Variable rt : runtime.
Variables pdf_path output_dir : Path.
Variable image_format : string.
Variable dpi : Z.

Let output_path (page_num : Z) : string :=
  joinpath output_dir
    (stem pdf_path ++ "-page" ++ str_of_int (page_num + 1) ++ "." ++ image_format).

Hypothesis known_format : In (lower image_format) ["png"; "jpg"; "jpeg"].

Lemma known_format_branches :
  (lower image_format =? "png")%string = true \/
  ((lower image_format =? "png")%string = false /\
   (lower image_format =? "jpg")%string || (lower image_format =? "jpeg")%string = true).
Proof.
  destruct known_format as [<- | [<- | [<- | []]]]; [left | right | right]; auto.
Qed.

(** One turn of the loop, when it returns: one page rendered, one file
    written, and the file holds that render. *)
Lemma convert_page_saves (doc : Document) (image_paths paths : list string)
    (page_num : Z) (w w' : world) :
  pdf_to_image.convert_page rt pdf_path output_dir image_format dpi doc image_paths
    page_num w = (Return paths, w') ->
  paths = (image_paths ++ [output_path page_num])%list /\
  exists mat pf,
    scales_by dpi mat /\
    renders (trace w') = (renders (trace w) ++ [(page_num, mat)])%list /\
    writes (trace w') = (writes (trace w) ++ [pf])%list /\
    page_image rt pdf_path output_dir image_format dpi (doc_pages doc) page_num pf.
Proof.
  unfold pdf_to_image.convert_page, pdf_to_image.int_truediv_float, page_get_pixmap,
    call_Image_frombytes, write_file, page_image.
  fold (output_path page_num). run_monad.
  destruct (page_num <? 0) eqn:Eneg; cbv beta iota zeta; [discriminate|].
  apply Z.ltb_ge in Eneg.
  destruct (nth_error (doc_pages doc) (Z.to_nat page_num)) as [page|] eqn:Epage;
    cbv beta iota zeta; [|discriminate].
  destruct (float_of_int dpi) as [z|] eqn:Ez; cbv beta iota zeta; [|discriminate].
  destruct (72 =? 0)%float; cbv beta iota zeta; [discriminate|].
  destruct (get_pixmap page _) as [pix|] eqn:Epix; cbv beta iota zeta; [|discriminate].
  assert (Hmat : scales_by dpi {| zoom_x := z / 72; zoom_y := z / 72 |})
    by (exists z; auto).
  destruct known_format_branches as [Epng | [Epng Ejpg]]; rewrite Epng; [|rewrite Ejpg].
  - destruct (write_error rt (output_path page_num)); cbv beta iota zeta; [discriminate|].
    intros H. injection H as <- <-. split; [reflexivity|].
    eexists. exists (pair (output_path page_num) (PngFile pix)).
    split; [exact Hmat|]. cbn [trace fst snd].
    rewrite !renders_cons, !writes_cons, <- !app_assoc. cbn [app].
    rewrite ?app_nil_r. split; [reflexivity|]. split; [reflexivity|].
    split; [reflexivity|]. exists page, z, pix. auto.
  - destruct (Image_frombytes rt _ _ _) as [i|] eqn:Ei; cbv beta iota zeta;
      [|discriminate].
    destruct (write_error rt (output_path page_num)); cbv beta iota zeta; [discriminate|].
    intros H. injection H as <- <-. split; [reflexivity|].
    eexists. exists (pair (output_path page_num) (JpegFile i 95)).
    split; [exact Hmat|]. cbn [trace fst snd im].
    rewrite !renders_cons, !writes_cons, <- !app_assoc. cbn [app].
    rewrite ?app_nil_r. split; [reflexivity|]. split; [reflexivity|].
    split; [reflexivity|]. exists page, z, pix.
    repeat (split; [first [assumption | reflexivity]|]). exists i. auto.
Qed.

Lemma convert_loop_saves (doc : Document) (page_nums : list Z) :
  forall (image_paths paths : list string) (w w' : world),
  for_each page_nums
    (pdf_to_image.convert_page rt pdf_path output_dir image_format dpi doc)
    image_paths w = (Return paths, w') ->
  paths = (image_paths ++ map output_path page_nums)%list /\
  exists rendered files,
    renders (trace w') = (renders (trace w) ++ rendered)%list /\
    map fst rendered = page_nums /\
    Forall (fun r => scales_by dpi (snd r)) rendered /\
    writes (trace w') = (writes (trace w) ++ files)%list /\
    Forall2 (page_image rt pdf_path output_dir image_format dpi (doc_pages doc))
      page_nums files.
Proof.
  induction page_nums as [|k ks IH]; intros image_paths paths w w' H; cbn [for_each] in H.
  - injection H as <- <-. split; [symmetry; apply app_nil_r|].
    exists [], []. rewrite !app_nil_r. repeat split; constructor.
  - apply bind_inv in H. destruct H as (acc & w1 & H1 & H).
    apply convert_page_saves in H1.
    destruct H1 as (-> & mat & pf & Hmat & R1 & W1 & Hpf).
    apply IH in H. destruct H as (-> & rendered & files & R2 & Hk & Hs & W2 & Hf).
    split; [rewrite <- app_assoc; reflexivity|].
    exists ((k, mat) :: rendered), (pf :: files).
    rewrite R2, R1, W2, W1, <- !app_assoc.
    split; [reflexivity|]. split; [cbn; congruence|].
    split; [constructor; assumption|]. split; [reflexivity|].
    constructor; assumption.
Qed.

Lemma page_images_paths (pages : list fitz_page) (page_nums : list Z)
    (files : list (string * file)) :
  Forall2 (page_image rt pdf_path output_dir image_format dpi pages) page_nums files ->
  map fst files = map output_path page_nums.
Proof.
  induction 1 as [|k pf ks fs [Hp _] _ IH]; [reflexivity|].
  cbn [map]. rewrite IH, Hp. reflexivity.
Qed.

(** The whole rasterizer, when it returns. *)
Lemma convert_pdf_to_images_saves (page_range : option (Z * Z)) (w w' : world)
    (paths : list string) :
  pdf_to_image.convert_pdf_to_images rt pdf_path output_dir image_format dpi
    page_range w = (Return paths, w') ->
  exists pages rendered files,
    fitz_open rt (path_str pdf_path) = Return pages /\
    let total_pages := Z.of_nat (List.length pages) in
    let start_page :=
      match page_range with Some (s, _) => Z.max 0 (s - 1) | None => 0 end in
    let end_page :=
      match page_range with Some (_, e) => Z.min total_pages e | None => total_pages end in
    paths = map fst files /\
    renders (trace w') = (renders (trace w) ++ rendered)%list /\
    map fst rendered = range start_page end_page /\
    Forall (fun r => scales_by dpi (snd r)) rendered /\
    writes (trace w') = (writes (trace w) ++ files)%list /\
    Forall2 (page_image rt pdf_path output_dir image_format dpi pages)
      (range start_page end_page) files.
Proof.
  intros H. unfold pdf_to_image.convert_pdf_to_images in H.
  apply bind_inv in H. destruct H as (? & v0 & Hmk & H).
  apply quiet_run in Hmk; [| unfold mkdir; repeat emits_step].
  destruct Hmk as [W0 R0].
  apply try_except_inv in H. destruct H as [H | (e & v & _ & H)]; [|discriminate H].
  apply bind_inv in H. destruct H as (doc & v1 & Hopen & H).
  pose proof (call_fitz_open_returns _ _ _ _ _ Hopen) as [Hpages _].
  apply quiet_run in Hopen; [| unfold call_fitz_open; repeat emits_step].
  destruct Hopen as [W1 R1]. cbv zeta in H.
  apply bind_inv in H. destruct H as (? & v2 & L2 & H).
  apply quiet_run in L2; [| repeat emits_step]. destruct L2 as [W2 R2].
  apply bind_inv in H. destruct H as (? & v3 & L3 & H).
  apply quiet_run in L3; [| repeat emits_step]. destruct L3 as [W3 R3].
  apply bind_inv in H. destruct H as (image_paths & v4 & Hloop & H).
  apply convert_loop_saves in Hloop.
  destruct Hloop as (-> & rendered & files & R4 & Hk & Hs & W4 & Hf).
  apply bind_inv in H. destruct H as (? & v5 & C5 & H).
  apply quiet_run in C5; [| unfold doc_close; repeat emits_step]. destruct C5 as [W5 R5].
  apply bind_inv in H. destruct H as (? & v6 & L6 & H).
  apply quiet_run in L6; [| repeat emits_step]. destruct L6 as [W6 R6].
  injection H as <- <-.
  exists (doc_pages doc), rendered, files. split; [exact Hpages|]. cbv zeta.
  split; [cbn [app]; symmetry; exact (page_images_paths _ _ _ Hf)|].
  split; [congruence|]. split; [exact Hk|]. split; [exact Hs|].
  split; [congruence | exact Hf].
Qed.

End RasterizerFiles.

(** ** The same document rasterized twice *)

Lemma Forall2_nth_error_both {A B} (R : A -> B -> Prop) (l1 : list A) (l2 : list B) :
  Forall2 R l1 l2 ->
  forall n a b, nth_error l1 n = Some a -> nth_error l2 n = Some b -> R a b.
Proof.
  induction 1 as [|x y l1 l2 Hxy _ IH]; intros [|n] a b; cbn; try discriminate.
  - intros [= <-] [= <-]. exact Hxy.
  - apply IH.
Qed.

Section TwoRuns.

Variables rt1 rt2 : runtime.
Variables pdf_path output_dir : Path.
Variable image_format : string.
Variable dpi : Z.
Variables pages1 pages2 : list fitz_page.

Hypothesis same_document : same_page_sizes pages1 pages2.
Hypothesis size1 : frombytes_keeps_size rt1.
Hypothesis size2 : frombytes_keeps_size rt2.

(** The two image files of a page have the same name and the same width
    and height. *)
Lemma page_image_dimensions (page_num : Z) (pf1 pf2 : string * file) :
  page_image rt1 pdf_path output_dir image_format dpi pages1 page_num pf1 ->
  page_image rt2 pdf_path output_dir image_format dpi pages2 page_num pf2 ->
  fst pf1 = fst pf2 /\ dimensions (snd pf1) = dimensions (snd pf2).
Proof.
  intros (Hp1 & page1 & z1 & pix1 & _ & N1 & Z1 & G1 & F1)
         (Hp2 & page2 & z2 & pix2 & _ & N2 & Z2 & G2 & F2).
  split; [congruence|].
  assert (z2 = z1) by congruence. subst z2.
  destruct (Forall2_nth_error_both _ _ _ same_document _ _ _ N1 N2 _ _ _ G1 G2)
    as [Hw Hh].
  destruct (lower image_format =? "png")%string.
  - rewrite F1, F2. cbn [dimensions]. congruence.
  - destruct F1 as (i1 & E1 & ->), F2 as (i2 & E2 & ->). cbn [dimensions].
    rewrite (size1 _ _ _ _ E1), (size2 _ _ _ _ E2). congruence.
Qed.

Lemma page_images_dimensions (page_nums : list Z) (files1 : list (string * file)) :
  Forall2 (page_image rt1 pdf_path output_dir image_format dpi pages1) page_nums files1 ->
  forall files2,
  Forall2 (page_image rt2 pdf_path output_dir image_format dpi pages2) page_nums files2 ->
  map fst files1 = map fst files2 /\
  map (fun pf => dimensions (snd pf)) files1 = map (fun pf => dimensions (snd pf)) files2.
Proof.
  induction 1 as [|k pf1 ks fs1 H1 _ IH]; intros files2 H2; inversion H2 as [|? pf2 ? fs2 Hh Ht];
    subst; [split; reflexivity|].
  destruct (page_image_dimensions _ _ _ H1 Hh) as [Hp Hd].
  destruct (IH _ Ht) as [IHp IHd]. cbn [map]. split; congruence.
Qed.

End TwoRuns.

Lemma rendered_unique (dpi : Z) (page_nums : list Z) (rendered1 : list (Z * Matrix)) :
  map fst rendered1 = page_nums ->
  Forall (fun r => scales_by dpi (snd r)) rendered1 ->
  forall rendered2,
  map fst rendered2 = page_nums ->
  Forall (fun r => scales_by dpi (snd r)) rendered2 ->
  rendered2 = rendered1.
Proof.
  intros <- F1. induction F1 as [|[k1 m1] r1 S1 _ IH]; intros rendered2 E F2.
  - destruct rendered2; [reflexivity | discriminate E].
  - destruct F2 as [|[k2 m2] r2 S2 F2]; [discriminate E|].
    cbn [map fst snd] in *. injection E as -> E.
    rewrite (scales_by_unique _ _ _ S2 S1), (IH _ E F2). reflexivity.
Qed.

(** C7.  Rasterizing the same document twice gives images of the same width
    and height, one per page of the range, in ascending page order.  The
    two runs may see different libraries and disks, [rt1] and [rt2], and
    start in any two worlds; what they share is the document: it opens with
    as many pages, and for a page and a matrix the renderer gives pixmaps of
    the same width and height (the samples may differ), and
    [Image.frombytes] keeps the size it is given.  The format is one the
    rasterizer saves.  If both runs return, then each wrote exactly one file
    per page of [range(start_page, end_page)], in that ascending order; the
    file of a page is named [<stem>-page<N>.<format>] in the output
    directory and holds the pixmap the renderer returned for that page with
    the matrix that scales both axes by [dpi / 72.0]; the paths returned are
    the paths of those files, the same in both runs; file by file, the
    width and height are the same in both runs; and the pages rendered are
    those of the range, once each, in that order, with that matrix.  The
    range holds the page indices from [start_page] up to [end_page - 1], in
    ascending order. *)
Theorem rasterization_is_deterministic (rt1 rt2 : runtime) (pdf_path output_dir : Path)
    (image_format : string) (dpi : Z) (page_range : option (Z * Z))
    (pages1 pages2 : list fitz_page) (w1 w1' w2 w2' : world)
    (paths1 paths2 : list string) :
  In (lower image_format) ["png"; "jpg"; "jpeg"] ->
  fitz_open rt1 (path_str pdf_path) = Return pages1 ->
  fitz_open rt2 (path_str pdf_path) = Return pages2 ->
  same_page_sizes pages1 pages2 ->
  frombytes_keeps_size rt1 ->
  frombytes_keeps_size rt2 ->
  pdf_to_image.convert_pdf_to_images rt1 pdf_path output_dir image_format dpi
    page_range w1 = (Return paths1, w1') ->
  pdf_to_image.convert_pdf_to_images rt2 pdf_path output_dir image_format dpi
    page_range w2 = (Return paths2, w2') ->
  let total_pages := Z.of_nat (List.length pages1) in
  let start_page :=
    match page_range with Some (s, _) => Z.max 0 (s - 1) | None => 0 end in
  let end_page :=
    match page_range with Some (_, e) => Z.min total_pages e | None => total_pages end in
  let page_nums := range start_page end_page in
  exists files1 files2 rendered,
    writes (trace w1') = (writes (trace w1) ++ files1)%list /\
    writes (trace w2') = (writes (trace w2) ++ files2)%list /\
    Forall2 (page_image rt1 pdf_path output_dir image_format dpi pages1) page_nums files1 /\
    Forall2 (page_image rt2 pdf_path output_dir image_format dpi pages2) page_nums files2 /\
    paths1 = map fst files1 /\
    paths2 = paths1 /\
    map (fun pf => dimensions (snd pf)) files1
    = map (fun pf => dimensions (snd pf)) files2 /\
    renders (trace w1') = (renders (trace w1) ++ rendered)%list /\
    renders (trace w2') = (renders (trace w2) ++ rendered)%list /\
    map fst rendered = page_nums /\
    Forall (fun r => scales_by dpi (snd r)) rendered /\
    (forall k, In k page_nums <-> start_page <= k < end_page) /\
    (forall i j x y,
       nth_error page_nums i = Some x -> nth_error page_nums j = Some y ->
       (i < j)%nat -> x < y).
Proof.
  intros Hfmt Ho1 Ho2 Hsame Hs1 Hs2 H1 H2. cbv zeta.
  apply convert_pdf_to_images_saves in H1; [|exact Hfmt].
  apply convert_pdf_to_images_saves in H2; [|exact Hfmt].
  destruct H1 as (p1 & rendered1 & files1 & Hp1 & H1).
  destruct H2 as (p2 & rendered2 & files2 & Hp2 & H2).
  assert (p1 = pages1) by congruence. assert (p2 = pages2) by congruence. subst p1 p2.
  cbv zeta in H1, H2.
  rewrite <- (Forall2_length Hsame) in H2.
  destruct H1 as (-> & R1 & K1 & S1 & W1 & F1).
  destruct H2 as (-> & R2 & K2 & S2 & W2 & F2).
  destruct (page_images_dimensions rt1 rt2 pdf_path output_dir image_format dpi
              pages1 pages2 Hsame Hs1 Hs2 _ _ F1 _ F2) as [Hpaths Hdims].
  rewrite (rendered_unique dpi _ rendered1 K1 S1 rendered2 K2 S2) in R2.
  exists files1, files2, rendered1.
  repeat (split; [solve [assumption | reflexivity | auto]|]).
  split; [intros k; apply range_In | apply range_ascending].
Qed.

Lemma Demo_same_page_sizes (numbers1 numbers2 : list N) :
  List.length numbers1 = List.length numbers2 ->
  same_page_sizes (map Demo.a4_page numbers1) (map Demo.a4_page numbers2).
Proof.
  revert numbers2. induction numbers1 as [|n1 l1 IH]; intros [|n2 l2] H;
    try discriminate H; [constructor|].
  constructor; [| apply IH; injection H as H; exact H].
  intros mat pix1 pix2. unfold Demo.a4_page. cbn [get_pixmap].
  destruct ((0 <? zoom_x mat) && (0 <? zoom_y mat))%float; [|discriminate].
  intros [= <-] [= <-]. split; reflexivity.
Qed.

Lemma Demo_frombytes_keeps_size (ocr : image -> string -> outcome pystr) :
  frombytes_keeps_size (Demo.runtime_with ocr).
Proof. intros md sz data i [= <-]. reflexivity. Qed.

Lemma rasterization_is_deterministic_witness :
  let run1 := pdf_to_image.convert_pdf_to_images Demo.rt Demo.sample_pdf Demo.out_dir
                "jpeg" 150 (Some (2, 3)) in
  let run2 := pdf_to_image.convert_pdf_to_images Examples.rt_other_samples
                Demo.sample_pdf Demo.out_dir "jpeg" 150 (Some (2, 3)) in
  let w1' := snd (run1 initial_world) in
  let w2' := snd (run2 w1') in
  let pages1 := map Demo.a4_page [1; 2; 3]%N in
  let pages2 := map Demo.a4_page [7; 8; 9]%N in
  let page_nums := range (Z.max 0 (2 - 1)) (Z.min (Z.of_nat (List.length pages1)) 3) in
  exists files1 files2 rendered,
    writes (trace w1') = (writes (trace initial_world) ++ files1)%list /\
    writes (trace w2') = (writes (trace w1') ++ files2)%list /\
    Forall2 (page_image Demo.rt Demo.sample_pdf Demo.out_dir "jpeg" 150 pages1)
      page_nums files1 /\
    Forall2 (page_image Examples.rt_other_samples Demo.sample_pdf Demo.out_dir "jpeg" 150
               pages2) page_nums files2 /\
    ["/work/images/sample-page2.jpeg"; "/work/images/sample-page3.jpeg"]
    = map fst files1 /\
    ["/work/images/sample-page2.jpeg"; "/work/images/sample-page3.jpeg"]
    = ["/work/images/sample-page2.jpeg"; "/work/images/sample-page3.jpeg"] /\
    map (fun pf => dimensions (snd pf)) files1
    = map (fun pf => dimensions (snd pf)) files2 /\
    renders (trace w1') = (renders (trace initial_world) ++ rendered)%list /\
    renders (trace w2') = (renders (trace w1') ++ rendered)%list /\
    map fst rendered = page_nums /\
    Forall (fun r => scales_by 150 (snd r)) rendered /\
    (forall k, In k page_nums
               <-> Z.max 0 (2 - 1) <= k < Z.min (Z.of_nat (List.length pages1)) 3) /\
    (forall i j x y,
       nth_error page_nums i = Some x -> nth_error page_nums j = Some y ->
       (i < j)%nat -> x < y).
Proof.
  intros run1 run2 w1' w2' pages1 pages2 page_nums.
  apply (rasterization_is_deterministic Demo.rt Examples.rt_other_samples
           Demo.sample_pdf Demo.out_dir "jpeg" 150 (Some (2, 3)) pages1 pages2
           initial_world w1' w1' w2'
           ["/work/images/sample-page2.jpeg"; "/work/images/sample-page3.jpeg"]
           ["/work/images/sample-page2.jpeg"; "/work/images/sample-page3.jpeg"]).
  - right. right. left. reflexivity.
  - reflexivity.
  - reflexivity.
  - apply Demo_same_page_sizes. reflexivity.
  - apply Demo_frombytes_keeps_size.
  - apply (Demo_frombytes_keeps_size Demo.tesseract).
  - vm_compute. reflexivity.
  - vm_compute. reflexivity.
Defined.

(** ** The rasterizer, when the renderer and the disk do their work *)

Section RasterizerRuns.

Variable rt : runtime.
Variables pdf_path output_dir : Path.
Variable image_format : string.
Variable dpi : Z.

Let output_path (page_num : Z) : string :=
  joinpath output_dir
    (stem pdf_path ++ "-page" ++ str_of_int (page_num + 1) ++ "." ++ image_format).

Lemma convert_page_runs (doc : Document) (image_paths : list string) (page_num : Z)
    (w : world) (page : fitz_page) (z : float) (pix : Pixmap) :
  0 <= page_num ->
  nth_error (doc_pages doc) (Z.to_nat page_num) = Some page ->
  float_of_int dpi = Some z ->
  get_pixmap page {| zoom_x := z / 72; zoom_y := z / 72 |} = Return pix ->
  ((lower image_format =? "png")%string = true \/
   exists i, Image_frombytes rt "RGB" (width pix, height pix) (samples pix) = Return i) ->
  write_error rt (output_path page_num) = None ->
  exists paths w',
    pdf_to_image.convert_page rt pdf_path output_dir image_format dpi doc image_paths
      page_num w = (Return paths, w').
Proof.
  intros Hk Hpage Hz Hpix Hfmt Hwrite.
  unfold pdf_to_image.convert_page, pdf_to_image.int_truediv_float, page_get_pixmap,
    call_Image_frombytes, write_file.
  fold (output_path page_num). run_monad.
  replace (page_num <? 0) with false by (symmetry; apply Z.ltb_ge; exact Hk).
  rewrite Hpage. cbv beta iota zeta. rewrite Hz. cbv beta iota zeta.
  change (72 =? 0)%float with false. cbv beta iota zeta.
  rewrite Hpix. cbv beta iota zeta.
  destruct (lower image_format =? "png")%string.
  - rewrite Hwrite. cbv beta iota zeta. eauto.
  - destruct Hfmt as [Hfmt | (i & Ei)]; [discriminate Hfmt|].
    destruct ((lower image_format =? "jpg")%string
              || (lower image_format =? "jpeg")%string).
    + rewrite Ei. cbv beta iota zeta. rewrite Hwrite. cbv beta iota zeta. eauto.
    + cbv beta iota zeta. eauto.
Qed.

Lemma convert_loop_runs (doc : Document) (z : float) (page_nums : list Z) :
  float_of_int dpi = Some z ->
  Forall (fun page_num =>
            0 <= page_num /\
            exists page pix,
              nth_error (doc_pages doc) (Z.to_nat page_num) = Some page /\
              get_pixmap page {| zoom_x := z / 72; zoom_y := z / 72 |} = Return pix /\
              ((lower image_format =? "png")%string = true \/
               exists i, Image_frombytes rt "RGB" (width pix, height pix) (samples pix)
                         = Return i) /\
              write_error rt (output_path page_num) = None)
         page_nums ->
  forall (image_paths : list string) (w : world),
  exists paths w',
    for_each page_nums
      (pdf_to_image.convert_page rt pdf_path output_dir image_format dpi doc)
      image_paths w = (Return paths, w').
Proof.
  intros Hz. induction 1 as [|k ks (Hk & page & pix & Hp & Hx & Hf & Hw) _ IH];
    intros image_paths w; cbn [for_each].
  - eexists. eexists. reflexivity.
  - destruct (convert_page_runs doc image_paths k w page z pix Hk Hp Hz Hx Hf Hw)
      as (acc & w1 & E).
    rewrite (bind_Return _ _ _ _ _ E). apply IH.
Qed.

Lemma convert_pdf_to_images_runs (page_range : option (Z * Z)) (pages : list fitz_page)
    (w : world) :
  mkdir_error rt (path_str output_dir) = None ->
  fitz_open rt (path_str pdf_path) = Return pages ->
  can_rasterize rt pdf_path output_dir image_format dpi pages
    (range match page_range with Some (s, _) => Z.max 0 (s - 1) | None => 0 end
           match page_range with
           | Some (_, e) => Z.min (Z.of_nat (List.length pages)) e
           | None => Z.of_nat (List.length pages)
           end) ->
  exists paths w',
    pdf_to_image.convert_pdf_to_images rt pdf_path output_dir image_format dpi
      page_range w = (Return paths, w').
Proof.
  intros Hmk Hopen (z & Hz & Hcan).
  unfold pdf_to_image.convert_pdf_to_images, mkdir, call_fitz_open, doc_close.
  run_monad. rewrite Hmk. cbv beta iota zeta. rewrite Hopen. cbv beta iota zeta.
  cbn [doc_pages doc_id].
  match goal with
  | |- context [for_each ?l (pdf_to_image.convert_page _ _ _ _ _ ?doc) ?a ?v] =>
      destruct (convert_loop_runs doc z l Hz) with (image_paths := a) (w := v)
        as (paths & w' & E)
  end.
  - cbn [doc_pages]. apply Forall_forall. intros k Hk. rewrite Forall_forall in Hcan.
    destruct (Hcan k Hk) as (page & pix & H). split; [|exists page, pix; exact H].
    apply range_In in Hk. destruct page_range as [[s e]|]; lia.
  - rewrite E. cbv beta iota zeta. eauto.
Qed.

End RasterizerRuns.

Lemma no_render_run {A} (m : M A) (w w' : world) (o : outcome A) :
  emits (fun ev => renders [ev] = []) m -> m w = (o, w') ->
  renders (trace w') = renders (trace w) /\
  exists rest, writes (trace w') = (writes (trace w) ++ rest)%list.
Proof.
  intros Hm E. destruct (emits_run _ _ _ _ _ Hm E) as (new & -> & F).
  rewrite writes_app, renders_app. split; [|eauto].
  assert (renders new = []) as ->; [|apply app_nil_r].
  clear E. induction F as [|ev new Hr _ IH]; [reflexivity|].
  change (ev :: new) with ([ev] ++ new)%list. rewrite renders_app, IH, Hr. reflexivity.
Qed.

Lemma images_to_pdf_renders_nothing (rt : runtime) (image_paths : list string)
    (output_pdf_path : string) :
  emits (fun ev => renders [ev] = [])
    (pdf_to_image.images_to_pdf rt image_paths output_pdf_path).
Proof.
  unfold pdf_to_image.images_to_pdf, pdf_to_image.save_pdf.
  apply emits_try_except; [| intros; repeat emits_step].
  destruct image_paths as [|first_path rest]; [apply emits_raise|].
  apply emits_bind; [repeat emits_step | intros _].
  apply emits_bind; [repeat emits_step | intros first_image].
  apply emits_bind; [repeat emits_step | intros images].
  apply emits_bind; [repeat emits_step | intros first_image'].
  apply emits_bind; [| intros; repeat emits_step].
  apply write_file_emits. reflexivity.
Qed.

Section CommandRasterizes.

Variable rt : runtime.
Variable args : pdf_to_image.arguments.
Variable pages : list fitz_page.

Let pdf_path : Path := pdf_to_image.args_pdf args.
Let output_dir : Path := pdf_to_image.args_output_dir args.
Let dpi : Z := pdf_to_image.args_dpi args.
Let image_format : string :=
  if (pdf_to_image.args_format args =? "jpg")%string
     || (pdf_to_image.args_format args =? "jpeg")%string
  then "jpeg" else "png".
Let start_page : Z :=
  match pdf_to_image.args_pages args with Some (s, _) => Z.max 0 (s - 1) | None => 0 end.
Let end_page : Z :=
  match pdf_to_image.args_pages args with
  | Some (_, e) => Z.min (Z.of_nat (List.length pages)) e
  | None => Z.of_nat (List.length pages)
  end.

Hypothesis file_exists : path_exists rt (path_str pdf_path) = true.
Hypothesis file_is_file : path_is_file rt (path_str pdf_path) = true.
Hypothesis range_is_valid :
  forall s e, pdf_to_image.args_pages args = Some (s, e) -> 1 <= s <= e.
Hypothesis directory_made : mkdir_error rt (path_str output_dir) = None.
Hypothesis document_opens : fitz_open rt (path_str pdf_path) = Return pages.
Hypothesis pages_rasterize :
  can_rasterize rt pdf_path output_dir image_format dpi pages (range start_page end_page).

Lemma main_format_is_saved : In (lower image_format) ["png"; "jpg"; "jpeg"].
Proof.
  unfold image_format. destruct (_ || _); [right; right; left | left]; reflexivity.
Qed.

Lemma main_convert_rasterizes (w : world) :
  exists o w' rendered files rest,
    pdf_to_image.main_convert rt args image_format (pdf_to_image.args_pages args) w
    = (o, w') /\
    renders (trace w') = (renders (trace w) ++ rendered)%list /\
    map fst rendered = range start_page end_page /\
    Forall (fun r => scales_by dpi (snd r)) rendered /\
    writes (trace w') = (writes (trace w) ++ files ++ rest)%list /\
    Forall2 (page_image rt pdf_path output_dir image_format dpi pages)
      (range start_page end_page) files /\
    (pdf_to_image.args_create_pdf args = false -> o = Return 0 /\ rest = []).
Proof.
  unfold pdf_to_image.main_convert. fold dpi pdf_path output_dir.
  match goal with
  | |- context [bind ?m _ w] =>
      destruct (m w) as [[[] | e0] w0] eqn:E0;
        [| exfalso; destruct (_ || _) in E0; discriminate E0]
  end.
  rewrite (bind_Return _ _ _ _ _ E0).
  apply quiet_run in E0;
    [| destruct (_ || _); [unfold logging_warning|]; repeat emits_step].
  destruct E0 as [W0 R0].
  destruct (convert_pdf_to_images_runs rt pdf_path output_dir image_format dpi
              (pdf_to_image.args_pages args) pages w0 directory_made document_opens
              pages_rasterize) as (paths & w1 & E1).
  rewrite (bind_Return _ _ _ _ _ E1).
  apply convert_pdf_to_images_saves in E1; [|exact main_format_is_saved].
  destruct E1 as (pages' & rendered & files & Hopen & E1). cbv zeta in E1.
  assert (pages' = pages) by (rewrite document_opens in Hopen; congruence). subst pages'.
  destruct E1 as (-> & R1 & K1 & S1 & W1 & F1).
  destruct (pdf_to_image.args_create_pdf args) eqn:Ecreate.
  - match goal with
    | |- context [bind ?m _ w1] => destruct (m w1) as [[[] | e2] w2] eqn:E2
    end.
    + rewrite (bind_Return _ _ _ _ _ E2).
      apply no_render_run in E2; [|apply images_to_pdf_renders_nothing].
      destruct E2 as (R2 & rest & W2).
      unfold bind, logging_info, emit, ret. cbv beta iota zeta.
      do 2 eexists. exists rendered, files, rest. split; [reflexivity|].
      cbn [trace]. rewrite renders_cons, writes_cons, !app_nil_r, R2, W2, R1, W1, R0, W0.
      rewrite <- !app_assoc. repeat (split; [assumption || reflexivity|]).
      discriminate.
    + rewrite (bind_Raise _ _ _ _ _ E2).
      apply no_render_run in E2; [|apply images_to_pdf_renders_nothing].
      destruct E2 as (R2 & rest & W2).
      do 2 eexists. exists rendered, files, rest. split; [reflexivity|].
      rewrite R2, W2, R1, W1, R0, W0.
      rewrite <- !app_assoc. repeat (split; [assumption || reflexivity|]).
      discriminate.
  - unfold bind, logging_info, emit, ret. cbv beta iota zeta.
    do 2 eexists. exists rendered, files, []. split; [reflexivity|].
    cbn [trace]. rewrite renders_cons, writes_cons, !app_nil_r, R1, W1, R0, W0.
    repeat (split; [assumption || reflexivity|]). auto.
Qed.

Lemma main_rasterizes (w : world) :
  exists code w' rendered files rest,
    pdf_to_image.main rt args w = (Return code, w') /\
    renders (trace w') = (renders (trace w) ++ rendered)%list /\
    map fst rendered = range start_page end_page /\
    Forall (fun r => scales_by dpi (snd r)) rendered /\
    writes (trace w') = (writes (trace w) ++ files ++ rest)%list /\
    Forall2 (page_image rt pdf_path output_dir image_format dpi pages)
      (range start_page end_page) files /\
    (pdf_to_image.args_create_pdf args = false -> code = 0 /\ rest = []).
Proof.
  unfold pdf_to_image.main, try_except.
  unfold bind at 1. unfold logging_info at 1. unfold emit at 1.
  match goal with
  | |- context [bind (pdf_to_image.validate_pdf_file _ _) _ ?w0] =>
      destruct (validate_passes rt args w0 file_exists file_is_file)
        as (w1 & pre & Hv & Et & Fp);
      rewrite (bind_Return _ _ _ _ _ Hv)
  end.
  cbv zeta. fold image_format.
  assert (Hbody :
    match pdf_to_image.args_pages args with
    | Some (start_page, end_page) =>
        if start_page <? 1 then
          logging_error "開始ページは1以上である必要があります" ;; ret 1
        else if end_page <? start_page then
          logging_error "終了ページは開始ページ以上である必要があります" ;; ret 1
        else pdf_to_image.main_convert rt args image_format (Some (start_page, end_page))
    | None => pdf_to_image.main_convert rt args image_format None
    end = pdf_to_image.main_convert rt args image_format (pdf_to_image.args_pages args)).
  { destruct (pdf_to_image.args_pages args) as [[s e]|] eqn:Ep; [|reflexivity].
    specialize (range_is_valid s e eq_refl).
    replace (s <? 1) with false by (symmetry; apply Z.ltb_ge; lia).
    replace (e <? s) with false by (symmetry; apply Z.ltb_ge; lia).
    reflexivity. }
  rewrite Hbody. clear Hbody.
  assert (Hpre : writes (trace w1) = writes (trace w)
                 /\ renders (trace w1) = renders (trace w)).
  { rewrite Et. cbn [trace]. split.
    - rewrite writes_not_wrote; [rewrite writes_cons; apply app_nil_r|].
      apply Forall_impl with (2 := Fp). apply prelude_not_wrote.
    - rewrite renders_app, renders_cons, app_nil_r.
      assert (renders pre = []) as ->; [|apply app_nil_r].
      clear Et Hv. induction Fp as [|ev pre Hev _ IH]; [reflexivity|].
      rewrite renders_cons, IH. destruct ev as [[| |] msg| | | | | | | | | | | |];
        try contradiction; reflexivity. }
  destruct Hpre as [Wp Rp].
  destruct (main_convert_rasterizes w1)
    as (o & w2 & rendered & files & rest & -> & R & K & S & W & F & Hc).
  rewrite Rp in R. rewrite Wp in W.
  destruct o as [code | e].
  - exists code, w2, rendered, files, rest. repeat (split; [assumption || reflexivity|]).
    intros Hn. destruct (Hc Hn) as [[= ->] ->]. auto.
  - destruct (image_main_handler e w2) as (msg & ->).
    eexists 1, _, rendered, files, rest. split; [reflexivity|].
    cbn [trace]. rewrite renders_cons, writes_cons, !app_nil_r.
    repeat (split; [assumption || reflexivity|]).
    intros Hn. destruct (Hc Hn) as [[=] _].
Qed.

End CommandRasterizes.

(** C8, as the code has it.  The arguments are parsed, the PDF file exists
    and the page range is absent or well formed.  The [try] statement of
    [main] then yields exit status 0 or 1; it logs the DPI warning exactly when
    the DPI is below 72 or above 600, and in either case goes on to the
    rasterizer (the output directory is created) with the DPI as it was
    given, never a clamped one: whatever is rendered is rendered with the
    matrix that scales both axes by [dpi / 72.0].  If moreover the renderer
    and the disk do their work (the directory can be made, the document
    opens, [dpi] has a binary64 value, every page of the range is rendered
    at that scale and its image file can be written), then rendering does
    proceed, inside the window and outside it alike: the pages rendered are
    exactly those of [range(start_page, end_page)], once each and in that
    order, one image file is written per page and holds that render, and,
    when no PDF is to be assembled, nothing else is written and the status
    is 0. *)
Theorem dpi_check_warns_without_clamping (rt : runtime)
    (args : pdf_to_image.arguments) (w : world) :
  path_exists rt (path_str (pdf_to_image.args_pdf args)) = true ->
  path_is_file rt (path_str (pdf_to_image.args_pdf args)) = true ->
  (forall s e, pdf_to_image.args_pages args = Some (s, e) -> 1 <= s <= e) ->
  let dpi := pdf_to_image.args_dpi args in
  let pdf_path := pdf_to_image.args_pdf args in
  let output_dir := pdf_to_image.args_output_dir args in
  let image_format :=
    if (pdf_to_image.args_format args =? "jpg")%string
       || (pdf_to_image.args_format args =? "jpeg")%string
    then "jpeg" else "png" in
  exists code new,
    fst (pdf_to_image.main rt args w) = Return code /\
    (code = 0 \/ code = 1) /\
    trace (snd (pdf_to_image.main rt args w)) = (new ++ trace w)%list /\
    (In (dpi_warning dpi) new <-> dpi < 72 \/ dpi > 600) /\
    In (Call_mkdir (path_str output_dir)) new /\
    (forall h k mat, In (Call_get_pixmap h k mat) new -> scales_by dpi mat) /\
    forall pages,
      mkdir_error rt (path_str output_dir) = None ->
      fitz_open rt (path_str pdf_path) = Return pages ->
      let start_page :=
        match pdf_to_image.args_pages args with
        | Some (s, _) => Z.max 0 (s - 1)
        | None => 0
        end in
      let end_page :=
        match pdf_to_image.args_pages args with
        | Some (_, e) => Z.min (Z.of_nat (List.length pages)) e
        | None => Z.of_nat (List.length pages)
        end in
      can_rasterize rt pdf_path output_dir image_format dpi pages
        (range start_page end_page) ->
      map fst (renders new) = range start_page end_page /\
      exists files rest,
        writes new = (files ++ rest)%list /\
        Forall2 (page_image rt pdf_path output_dir image_format dpi pages)
          (range start_page end_page) files /\
        (pdf_to_image.args_create_pdf args = false -> code = 0 /\ rest = []).
Proof.
  intros He Hf Hpages dpi pdf_path output_dir image_format.
  destruct (dpi_check_events rt args w He Hf Hpages)
    as (code & new & Hcode & Htrace & Hwarn & Hmk & Hscale).
  exists code, new. split; [assumption|]. split.
  { destruct (image_try_statement rt args w) as (c0 & w0 & E0 & [[-> _] | [-> _]]);
      rewrite E0 in Hcode; injection Hcode as <-; auto. }
  repeat (split; [assumption|]).
  intros pages Hdir Hopen start_page end_page Hcan.
  destruct (main_rasterizes rt args pages He Hf Hpages Hdir Hopen Hcan w)
    as (code' & w' & rendered & files & rest & Hmain & R & K & _ & W & F & Hc).
  rewrite Hmain in Hcode, Htrace. cbn [fst snd] in Hcode, Htrace.
  injection Hcode as ->.
  rewrite Htrace, renders_app in R. apply app_inv_head in R.
  rewrite Htrace, writes_app in W. apply app_inv_head in W.
  split; [rewrite R; exact K|].
  exists files, rest. repeat (split; [assumption|]). exact Hc.
Qed.

Lemma dpi_check_warns_without_clamping_witness :
  let run := pdf_to_image.main Demo.rt Demo.args_dpi_1200 initial_world in
  exists new,
    fst run = Return 0 /\
    trace (snd run) = (new ++ trace initial_world)%list /\
    (In (dpi_warning 1200) new <-> 1200 < 72 \/ 1200 > 600) /\
    (forall h k mat, In (Call_get_pixmap h k mat) new -> scales_by 1200 mat) /\
    map fst (renders new) = [0] /\
    exists files,
      writes new = files /\
      Forall2 (page_image Demo.rt Demo.sample_pdf Demo.out_dir "png" 1200
                 (map Demo.a4_page [1; 2; 3]%N)) [0] files.
Proof.
  intros run.
  destruct (dpi_check_warns_without_clamping Demo.rt Demo.args_dpi_1200 initial_world)
    as (code & new & Hcode & _ & Htrace & Hwarn & _ & Hscale & Hrun).
  - reflexivity.
  - reflexivity.
  - intros s e H. injection H as <- <-. lia.
  - destruct (Hrun (map Demo.a4_page [1; 2; 3]%N)) as (Hr & files & rest & Hw & Hf & Hc).
    + reflexivity.
    + reflexivity.
    + exists 1200%float. split; [vm_compute; reflexivity|].
      constructor; [|constructor].
      eexists. eexists. split; [reflexivity|]. split; [vm_compute; reflexivity|].
      split; [left; reflexivity | reflexivity].
    + destruct (Hc eq_refl) as [-> ->]. rewrite app_nil_r in Hw.
      exists new. repeat (split; [assumption|]). eauto.
Defined.
